(** * vera: a verified tool-using agent supervisor

    Shallow embedding of the supervisory core of the repository
    (src/agent/loop.py, src/agent/tools.py, src/agent/verifier.py,
    src/agent/config.py) and proofs of properties of its control loop,
    policy gates, ledgers and SCOUT score cap.

    Conventions.
    - Python [str] values are modelled by [string] (8-bit characters).  The
      model is exact on the ASCII fragment; characters above 127 are opaque:
      neither word characters, nor whitespace, nor cased.
    - Python exceptions are explicit: fallible functions return a sum or an
      outcome carrying the exception.
    - The LLM, the container runtime and the Python standard library calls
      that only format text (json.dumps, base64, shlex, posixpath) are
      collaborators collected in the class [Externals].
    - Wall-clock fields ([ts], latencies) are omitted from records. *)

From Stdlib Require Import Ascii String ZArith Lia List Bool.
From stdpp Require Import gmap strings list.
Import ListNotations.

Set Warnings "-register-all,-abstract-large-number".

Local Open Scope nat_scope.

(* ===================================================================== *)
(** * Python string primitives (ASCII fragment)                           *)
(* ===================================================================== *)

Module Py.

Definition code (c : ascii) : nat := nat_of_ascii c.
Definition in_range (lo hi : nat) (c : ascii) : bool :=
  (lo <=? code c) && (code c <=? hi).

Definition is_upper (c : ascii) : bool := in_range 65 90 c.
Definition is_lower (c : ascii) : bool := in_range 97 122 c.
Definition is_digit (c : ascii) : bool := in_range 48 57 c.
Definition is_alpha (c : ascii) : bool := is_upper c || is_lower c.
Definition is_alnum (c : ascii) : bool := is_alpha c || is_digit c.
(** [\w] of the [re] module. *)
Definition is_word (c : ascii) : bool := is_alnum c || (code c =? 95).
(** [str.isspace] and [\s]: TAB..CR, FS..US and the space. *)
Definition is_space (c : ascii) : bool := in_range 9 13 c || in_range 28 32 c.
Definition is_hex (c : ascii) : bool :=
  is_digit c || in_range 65 70 c || in_range 97 102 c.

Definition lower_char (c : ascii) : ascii :=
  if is_upper c then ascii_of_nat (code c + 32) else c.
Definition upper_char (c : ascii) : ascii :=
  if is_lower c then ascii_of_nat (code c - 32) else c.

Fixpoint map_str (f : ascii -> ascii) (s : string) : string :=
  match s with
  | EmptyString => EmptyString
  | String c s' => String (f c) (map_str f s')
  end.

(** [s.lower()], [s.upper()] *)
Definition lower : string -> string := map_str lower_char.
Definition upper : string -> string := map_str upper_char.

Definition len : string -> nat := String.length.

(** Truth value of a string: [bool(s)]. *)
Definition truthy (s : string) : bool :=
  match s with EmptyString => false | _ => true end.

Fixpoint rev_acc (s acc : string) : string :=
  match s with
  | EmptyString => acc
  | String c s' => rev_acc s' (String c acc)
  end.
Definition rev (s : string) : string := rev_acc s EmptyString.

(** [s.lstrip()], [s.rstrip()], [s.strip()] *)
Fixpoint lstrip (s : string) : string :=
  match s with
  | EmptyString => EmptyString
  | String c s' => if is_space c then lstrip s' else s
  end.
Definition rstrip (s : string) : string := rev (lstrip (rev s)).
Definition strip (s : string) : string := rstrip (lstrip s).

(** [s.strip(chars)] for a one-character set. *)
Fixpoint lstrip_char (x : ascii) (s : string) : string :=
  match s with
  | EmptyString => EmptyString
  | String c s' => if Ascii.eqb c x then lstrip_char x s' else s
  end.
Definition strip_char (x : ascii) (s : string) : string :=
  rev (lstrip_char x (rev (lstrip_char x s))).

(** [s.startswith(p)], [s.endswith(p)], [sub in s] *)
Definition startswith (s p : string) : bool := String.prefix p s.
Definition endswith (s p : string) : bool := String.prefix (rev p) (rev s).
Fixpoint contains (sub s : string) : bool :=
  String.prefix sub s ||
  match s with
  | EmptyString => false
  | String _ s' => contains sub s'
  end.

(** Slices [s[:n]], [s[n:]], [s[-n:]]. *)
Definition take (n : nat) (s : string) : string := substring 0 n s.
Fixpoint drop (n : nat) (s : string) : string :=
  match n, s with
  | O, _ => s
  | S n', String _ s' => drop n' s'
  | S _, EmptyString => EmptyString
  end.
Definition take_last (n : nat) (s : string) : string := drop (len s - n) s.

(** [s.split(sep, 1)]: [None] when [sep] does not occur. *)
Fixpoint split_once (sep s : string) : option (string * string) :=
  if String.prefix sep s then Some (EmptyString, drop (len sep) s)
  else match s with
       | EmptyString => None
       | String c s' =>
           match split_once sep s' with
           | Some (a, b) => Some (String c a, b)
           | None => None
           end
       end.

(** [s.split(c)] for a one-character separator. *)
Fixpoint split_char (x : ascii) (s : string) : list string :=
  match s with
  | EmptyString => [EmptyString]
  | String c s' =>
      if Ascii.eqb c x then EmptyString :: split_char x s'
      else match split_char x s' with
           | h :: t => String c h :: t
           | [] => [String c EmptyString]
           end
  end.

(** [s.replace(old, new)] for a one-character [old]. *)
Fixpoint replace_char (x : ascii) (new s : string) : string :=
  match s with
  | EmptyString => EmptyString
  | String c s' =>
      if Ascii.eqb c x then new +:+ replace_char x new s'
      else String c (replace_char x new s')
  end.

(** [sep.join(l)] *)
Fixpoint join (sep : string) (l : list string) : string :=
  match l with
  | [] => EmptyString
  | [x] => x
  | x :: l' => x +:+ sep +:+ join sep l'
  end.

(** [s.splitlines()[0]] if [s] is not empty, else the empty string: the
    text before the first line boundary (LF, VT, FF, CR, FS, GS, RS). *)
Definition is_linebreak (c : ascii) : bool := in_range 10 13 c || in_range 28 30 c.
Fixpoint first_line (s : string) : string :=
  match s with
  | EmptyString => EmptyString
  | String c s' => if is_linebreak c then EmptyString else String c (first_line s')
  end.

(** [x in l] for a list or tuple of strings. *)
Definition mem (x : string) (l : list string) : bool :=
  existsb (String.eqb x) l.

(** The newline character as a string. *)
Definition nl : string := String "010" EmptyString.

(** Decimal rendering, [str(n)], and [f"{n:04d}"]. *)
Definition digit_char (d : nat) : ascii := ascii_of_nat (48 + d).
Fixpoint digits_fuel (fuel n : nat) (acc : string) : string :=
  match fuel with
  | O => acc
  | S f =>
      let acc' := String (digit_char (n mod 10)) acc in
      if n / 10 =? 0 then acc' else digits_fuel f (n / 10) acc'
  end.
Definition str_nat (n : nat) : string := digits_fuel (S n) n EmptyString.
Fixpoint zeros (k : nat) : string :=
  match k with O => EmptyString | S k' => String "0" (zeros k') end.
Definition zfill (w : nat) (n : nat) : string :=
  let d := str_nat n in zeros (w - len d) +:+ d.


End Py.

(* ===================================================================== *)
(** * The [re] module: a backtracking matcher                             *)
(* ===================================================================== *)

(** Patterns are translated constructor by constructor from the pattern
    strings of the source.  Alternatives are tried left to right and
    repetition is greedy, as in Python, so that the first match found and
    its group are those [re] reports. *)

Module Re.

Inductive regex : Type :=
| Eps                                   (* empty pattern *)
| Chr (p : ascii -> bool)               (* one character of a class *)
| Seq (r1 r2 : regex)                   (* r1 r2 *)
| Alt (r1 r2 : regex)                   (* r1|r2 *)
| Star (r : regex)                      (* r*  (greedy) *)
| WordB                                 (* \b *)
| NotAfter (p : ascii -> bool)          (* (?<!c) for a character class *)
| Bol                                   (* ^ *)
| Eol                                   (* $ *)
| Group (r : regex).                    (* ( r ), capturing group 1 *)

Definition at_word_boundary (prev : option ascii) (s : string) : bool :=
  let before := match prev with Some c => Py.is_word c | None => false end in
  let after := match s with String c _ => Py.is_word c | EmptyString => false end in
  xorb before after.

(** The part of [s] consumed when [s'] is what remains. *)
Definition consumed (s s' : string) : string :=
  Py.take (Py.len s - Py.len s') s.

(** [exec_re r prev s cap k]: match [r] at the head of [s], [prev] being the
    character just before, then continue with [k] on the previous
    character, the rest and the group captured so far. *)
Fixpoint exec_re {A : Type} (r : regex) (prev : option ascii) (s : string)
    (cap : option string)
    (k : option ascii -> string -> option string -> option A) {struct r} : option A :=
  match r with
  | Eps => k prev s cap
  | Chr p =>
      match s with
      | String c s' => if p c then k (Some c) s' cap else None
      | EmptyString => None
      end
  | Seq r1 r2 =>
      exec_re r1 prev s cap (fun p' s' cap' => exec_re r2 p' s' cap' k)
  | Alt r1 r2 =>
      match exec_re r1 prev s cap k with
      | Some a => Some a
      | None => exec_re r2 prev s cap k
      end
  | Star r1 =>
      (fix loop (n : nat) (prev : option ascii) (s : string) (cap : option string)
         : option A :=
         let more :=
           match n with
           | O => None
           | S n' =>
               exec_re r1 prev s cap
                 (fun p' s' cap' =>
                    if Py.len s' <? Py.len s then loop n' p' s' cap' else None)
           end in
         match more with
         | Some a => Some a
         | None => k prev s cap
         end) (Py.len s) prev s cap
  | WordB => if at_word_boundary prev s then k prev s cap else None
  | NotAfter p =>
      match prev with
      | Some c => if p c then None else k prev s cap
      | None => k prev s cap
      end
  | Bol => match prev with None => k prev s cap | Some _ => None end
  | Eol =>
      match s with
      | EmptyString => k prev s cap
      | String c EmptyString => if Ascii.eqb c "010" then k prev s cap else None
      | _ => None
      end
  | Group r1 =>
      exec_re r1 prev s cap (fun p' s' _ => k p' s' (Some (consumed s s')))
  end.

(** The loop of the [Star] case of [exec_re] by itself, [step] being the
    matcher of the starred pattern. *)
Definition star_loop {A : Type}
    (step : option ascii -> string -> option string
            -> (option ascii -> string -> option string -> option A) -> option A)
    (k : option ascii -> string -> option string -> option A)
  : nat -> option ascii -> string -> option string -> option A :=
  fix loop (n : nat) (prev : option ascii) (s : string) (cap : option string)
    : option A :=
    let more :=
      match n with
      | O => None
      | S n' =>
          step prev s cap
            (fun p' s' cap' =>
               if Py.len s' <? Py.len s then loop n' p' s' cap' else None)
      end in
    match more with
    | Some a => Some a
    | None => k prev s cap
    end.

(** A match found at the current position: what is left, the character
    before it, and group 1. *)
Record hit := { rest : string; before_rest : option ascii; group1 : option string }.

Definition match_here (r : regex) (prev : option ascii) (s : string) : option hit :=
  exec_re r prev s None
    (fun p' s' cap => Some {| rest := s'; before_rest := p'; group1 := cap |}).

(** [re.match(r, s)] *)
Definition re_match (r : regex) (s : string) : option hit := match_here r None s.

(** [re.search(r, s)]: the leftmost match. *)
Fixpoint search_from (r : regex) (prev : option ascii) (s : string) : option hit :=
  match match_here r prev s with
  | Some h => Some h
  | None =>
      match s with
      | EmptyString => None
      | String c s' => search_from r (Some c) s'
      end
  end.
Definition re_search (r : regex) (s : string) : option hit := search_from r None s.
Definition found (r : regex) (s : string) : bool :=
  match re_search r s with Some _ => true | None => false end.

(** [re.findall(r, s)] for a pattern without groups. *)
Fixpoint findall_from (fuel : nat) (r : regex) (prev : option ascii) (s : string)
  : list string :=
  match fuel with
  | O => []
  | S fuel' =>
      let skip :=
        match s with
        | EmptyString => []
        | String c s' => findall_from fuel' r (Some c) s'
        end in
      match match_here r prev s with
      | Some h =>
          if Py.len (rest h) <? Py.len s
          then consumed s (rest h) :: findall_from fuel' r (before_rest h) (rest h)
          else EmptyString :: skip
      | None => skip
      end
  end.
Definition findall (r : regex) (s : string) : list string :=
  findall_from (S (Py.len s)) r None s.

(** [re.split(r, s)] for a pattern without groups that matches no empty
    string. [piece] is the text since the last separator, reversed. *)
Fixpoint split_from (fuel : nat) (r : regex) (prev : option ascii)
    (piece : string) (s : string) : list string :=
  match fuel with
  | O => [Py.rev piece]
  | S fuel' =>
      let advance :=
        match s with
        | EmptyString => [Py.rev piece]
        | String c s' => split_from fuel' r (Some c) (String c piece) s'
        end in
      match match_here r prev s with
      | Some h =>
          if Py.len (rest h) <? Py.len s
          then Py.rev piece :: split_from fuel' r (before_rest h) EmptyString (rest h)
          else advance
      | None => advance
      end
  end.
Definition split (r : regex) (s : string) : list string :=
  split_from (S (Py.len s)) r None EmptyString s.

(** ** Pattern combinators *)

Definition chr (c : ascii) : regex := Chr (Ascii.eqb c).
(** A letter under [re.I]. *)
Definition chr_i (c : ascii) : regex :=
  Chr (fun x => Ascii.eqb (Py.lower_char x) (Py.lower_char c)).
Fixpoint lit (s : string) : regex :=
  match s with
  | EmptyString => Eps
  | String c EmptyString => chr c
  | String c s' => Seq (chr c) (lit s')
  end.
Fixpoint lit_i (s : string) : regex :=
  match s with
  | EmptyString => Eps
  | String c EmptyString => chr_i c
  | String c s' => Seq (chr_i c) (lit_i s')
  end.
Fixpoint seqs (l : list regex) : regex :=
  match l with
  | [] => Eps
  | [r] => r
  | r :: l' => Seq r (seqs l')
  end.
Fixpoint alts (l : list regex) : regex :=
  match l with
  | [] => Chr (fun _ => false)
  | [r] => r
  | r :: l' => Alt r (alts l')
  end.
Definition plus (r : regex) : regex := Seq r (Star r).
Definition opt (r : regex) : regex := Alt r Eps.
Definition space : regex := Chr Py.is_space.                       (* \s *)
Definition spaces : regex := Star space.                           (* \s* *)
Definition spaces1 : regex := plus space.                          (* \s+ *)
Definition dot : regex := Chr (fun c => negb (Ascii.eqb c "010")). (* . *)
(** [[^...]] over an explicit list of excluded characters. *)
Definition none_of (l : list ascii) : regex :=
  Chr (fun c => negb (existsb (Ascii.eqb c) l)).

(** ** What a pattern matches *)

(** Patterns without group, look-behind and anchors. *)
Fixpoint plain (r : regex) : bool :=
  match r with
  | Eps | Chr _ | WordB => true
  | Seq r1 r2 | Alt r1 r2 => plain r1 && plain r2
  | Star r1 => plain r1
  | NotAfter _ | Bol | Eol | Group _ => false
  end.

Definition word_before (prev : option ascii) : bool :=
  match prev with Some c => Py.is_word c | None => false end.
Definition word_after (s : string) : bool :=
  match s with String c _ => Py.is_word c | EmptyString => false end.

(** The character before the rest once [w] is consumed after [prev]. *)
Fixpoint last_of (prev : option ascii) (w : string) : option ascii :=
  match w with
  | EmptyString => prev
  | String c w' => last_of (Some c) w'
  end.

(** [matches r prev s prev' s']: the plain pattern [r], at the head of [s]
    with [prev] just before, can consume down to the rest [s'], [prev']
    being the character just before [s'].  It is the set of continuations
    [exec_re] explores for such a pattern. *)
Inductive matches : regex -> option ascii -> string -> option ascii -> string -> Prop :=
| matches_eps (prev : option ascii) (s : string) : matches Eps prev s prev s
| matches_chr (p : ascii -> bool) (prev : option ascii) (c : ascii) (s : string) :
    p c = true -> matches (Chr p) prev (String c s) (Some c) s
| matches_seq (r1 r2 : regex) (p0 p1 p2 : option ascii) (s0 s1 s2 : string) :
    matches r1 p0 s0 p1 s1 -> matches r2 p1 s1 p2 s2 ->
    matches (Seq r1 r2) p0 s0 p2 s2
| matches_alt_l (r1 r2 : regex) (p0 p1 : option ascii) (s0 s1 : string) :
    matches r1 p0 s0 p1 s1 -> matches (Alt r1 r2) p0 s0 p1 s1
| matches_alt_r (r1 r2 : regex) (p0 p1 : option ascii) (s0 s1 : string) :
    matches r2 p0 s0 p1 s1 -> matches (Alt r1 r2) p0 s0 p1 s1
| matches_star_stop (r : regex) (prev : option ascii) (s : string) :
    matches (Star r) prev s prev s
| matches_star_more (r : regex) (p0 p1 p2 : option ascii) (s0 s1 s2 : string) :
    matches r p0 s0 p1 s1 -> Py.len s1 < Py.len s0 ->
    matches (Star r) p1 s1 p2 s2 ->
    matches (Star r) p0 s0 p2 s2
| matches_wordb (prev : option ascii) (s : string) :
    at_word_boundary prev s = true -> matches WordB prev s prev s.

(** A pattern that consumes nothing; one whose every match begins by
    consuming a character that is not white space; one whose every match
    ends by consuming such a character. *)
Definition consumes_nothing (r : regex) : Prop :=
  forall prev s p' s', matches r prev s p' s' -> p' = prev /\ s' = s.
Definition starts_on_text (r : regex) : Prop :=
  forall prev s p' s',
    matches r prev s p' s' ->
    exists c t, s = String c t /\ Py.is_space c = false /\ Py.len s' <= Py.len t.
Definition ends_on_text (r : regex) : Prop :=
  forall prev s p' s',
    matches r prev s p' s' ->
    exists d, p' = Some d /\ Py.is_space d = false /\ Py.len s' < Py.len s.

End Re.

(* ===================================================================== *)
(** * urllib.parse                                                        *)
(* ===================================================================== *)

(** Model of the three functions the loop calls on URLs.  Percent-decoded
    bytes above 127 stay as they are (Python would decode them as UTF-8);
    the removal of TAB, CR and LF from URLs is not modelled. *)

Module Urllib.

Definition hexval (c : ascii) : option nat :=
  if Py.is_digit c then Some (Py.code c - 48)
  else if Py.in_range 65 70 c then Some (Py.code c - 55)
  else if Py.in_range 97 102 c then Some (Py.code c - 87)
  else None.

(** [unquote(s)]: every [%XX] with two hex digits becomes that byte. *)
Fixpoint unquote (s : string) : string :=
  match s with
  | EmptyString => EmptyString
  | String c s1 =>
      match s1 with
      | String a (String b s3) =>
          if Ascii.eqb c "%" then
            match hexval a, hexval b with
            | Some x, Some y => String (ascii_of_nat (16 * x + y)) (unquote s3)
            | _, _ => String c (unquote s1)
            end
          else String c (unquote s1)
      | _ => String c (unquote s1)
      end
  end.

Record ParseResult := {
  scheme : string; netloc : string; path : string;
  params : string; query : string; fragment : string }.

Definition scheme_char (c : ascii) : bool :=
  Py.is_alnum c || Ascii.eqb c "+" || Ascii.eqb c "-" || Ascii.eqb c ".".
Fixpoint all_chars (p : ascii -> bool) (s : string) : bool :=
  match s with
  | EmptyString => true
  | String c s' => p c && all_chars p s'
  end.

Definition split_scheme (url : string) : string * string :=
  match Py.split_once ":" url with
  | Some (String c sch, rest) =>
      if Py.is_alpha c && all_chars scheme_char sch
      then (Py.lower (String c sch), rest) else (EmptyString, url)
  | _ => (EmptyString, url)
  end.

(** [_splitnetloc(url, 2)]: the authority ends at the first of [/?#]. *)
Fixpoint splitnetloc (s : string) : string * string :=
  match s with
  | EmptyString => (EmptyString, EmptyString)
  | String c s' =>
      if Ascii.eqb c "/" || Ascii.eqb c "?" || Ascii.eqb c "#"
      then (EmptyString, s)
      else let '(n, r) := splitnetloc s' in (String c n, r)
  end.

Definition uses_params : list string :=
  [EmptyString; "ftp"; "hdl"; "prospero"; "http"; "imap"; "https"; "shttp"; "rtsp";
   "rtspu"; "sip"; "sips"; "mms"; "sftp"; "tel"].

(** [_splitparams(url)]: parameters follow the first [;] of the last path
    segment. *)
Definition splitparams (url : string) : string * string :=
  let segs := Py.split_char "/" url in
  match List.rev segs with
  | last :: before =>
      match Py.split_once ";" last with
      | Some (a, b) => (Py.join "/" (List.rev (a :: before)), b)
      | None => (url, EmptyString)
      end
  | [] => (url, EmptyString)
  end.

(** [urlparse(url)]; [None] stands for the ValueError raised on an
    unbalanced bracket in the authority. *)
Definition urlparse (url : string) : option ParseResult :=
  let '(sch, url1) := split_scheme url in
  let '(loc, url2) :=
    if Py.startswith url1 "//" then splitnetloc (Py.drop 2 url1)
    else (EmptyString, url1) in
  if xorb (Py.contains "[" loc) (Py.contains "]" loc) then None
  else
    let '(url3, frag) :=
      match Py.split_once "#" url2 with
      | Some (a, b) => (a, b) | None => (url2, EmptyString) end in
    let '(url4, qry) :=
      match Py.split_once "?" url3 with
      | Some (a, b) => (a, b) | None => (url3, EmptyString) end in
    let '(pth, prm) :=
      if Py.mem sch uses_params && Py.contains ";" url4
      then splitparams url4 else (url4, EmptyString) in
    Some {| scheme := sch; netloc := loc; path := pth;
            params := prm; query := qry; fragment := frag |}.

(** [parse_qs(qs)] as the list of decoded (name, value) pairs in order;
    [qs[key][0]] is the first pair named [key]. *)
Definition parse_qs (qs : string) : list (string * string) :=
  flat_map
    (fun nv =>
       match Py.split_once "=" nv with
       | Some (n, v) =>
           if Py.truthy v
           then [(unquote (Py.replace_char "+" " " n),
                  unquote (Py.replace_char "+" " " v))]
           else []
       | None => []
       end)
    (Py.split_char "&" qs).

Fixpoint qs_first (key : string) (qs : list (string * string)) : option string :=
  match qs with
  | [] => None
  | (n, v) :: qs' => if String.eqb n key then Some v else qs_first key qs'
  end.

End Urllib.

(* ===================================================================== *)
(** * src/agent/config.py                                                 *)
(* ===================================================================== *)

Module Config.
Import Re.

(** [DENY_PATTERNS]: each pattern with its source text. *)
Definition DENY_PATTERNS : list (string * regex) :=
  [ ("\brm\s+-rf\b", seqs [WordB; lit "rm"; spaces1; lit "-rf"; WordB]);
    ("\bdd\b",       seqs [WordB; lit "dd"; WordB]);
    ("\bmkfs\b",     seqs [WordB; lit "mkfs"; WordB]);
    ("\bmount\b",    seqs [WordB; lit "mount"; WordB]);
    ("\bsudo\b",     seqs [WordB; lit "sudo"; WordB]);
    ("\bchown\b",    seqs [WordB; lit "chown"; WordB]);
    ("\bchmod\b\s+777", seqs [WordB; lit "chmod"; WordB; spaces1; lit "777"]);
    (":\(\)\s*\{\s*:\s*\|\s*:\s*&\s*\}\s*;",
     seqs [lit ":()"; spaces; chr "{"; spaces; chr ":"; spaces; chr "|"; spaces;
           chr ":"; spaces; chr "&"; spaces; chr "}"; spaces; chr ";"]) ].

Definition MAX_TOOL_SECONDS : nat := 900.

End Config.

(* ===================================================================== *)
(** * JSON values decoded from model output                               *)
(* ===================================================================== *)

(** Numbers are integers; floats do not occur in the fields the
    supervisor inspects. *)
Inductive json : Type :=
| JNull
| JBool (b : bool)
| JNum (z : Z)
| JStr (s : string)
| JList (l : list json)
| JObj (fields : list (string * json)).

(** A decoded JSON object (a Python dict with string keys). *)
Abbreviation dict := (list (string * json)).

Module Json.

(** [d.get(k)]; an absent key reads as [None]. *)
Fixpoint get (k : string) (d : dict) : json :=
  match d with
  | [] => JNull
  | (k', v) :: d' => if String.eqb k' k then v else get k d'
  end.

(** [d[k] = v]: an existing key keeps its place. *)
Fixpoint set (k : string) (v : json) (d : dict) : dict :=
  match d with
  | [] => [(k, v)]
  | (k', v') :: d' => if String.eqb k' k then (k, v) :: d' else (k', v') :: set k v d'
  end.

(** Truth value of a Python object. *)
Definition truthy (v : json) : bool :=
  match v with
  | JNull => false
  | JBool b => b
  | JNum z => negb (z =? 0)%Z
  | JStr s => Py.truthy s
  | JList l => match l with [] => false | _ => true end
  | JObj d => match d with [] => false | _ => true end
  end.

(** [v or []] read as a list: [None] when the value is not a list. *)
Definition as_list_or_empty (v : json) : option (list json) :=
  if truthy v then match v with JList l => Some l | _ => None end
  else Some [].

(** [v or {}] read as a dict. *)
Definition as_dict_or_empty (v : json) : option dict :=
  if truthy v then match v with JObj d => Some d | _ => None end
  else Some [].

Definition str_Z (z : Z) : string :=
  match z with
  | Z0 => "0"
  | Zpos p => Py.str_nat (Pos.to_nat p)
  | Zneg p => "-" +:+ Py.str_nat (Pos.to_nat p)
  end.

End Json.

(* ===================================================================== *)
(** * Observations and external collaborators                             *)
(* ===================================================================== *)

(** The observation dict of a tool call; absent keys are [None]. *)
Record Obs := {
  exit_code : option Z;
  output : option string;
  obs_cwd : option string;
  error : option string;
  error_type : option string;
  hint : option string }.

Definition empty_obs : Obs :=
  {| exit_code := None; output := None; obs_cwd := None;
     error := None; error_type := None; hint := None |}.

(** The [args] object of a tool call. *)
Abbreviation Args := (gmap string string).

(** [args.get("cmd")], the empty string by default *)
Definition args_cmd (args : Args) : string := default EmptyString (args !! "cmd").

Class Externals := {
  (** state of the container *)
  World : Type;
  (** docker exec of an argv in the container: exit code and output *)
  docker_exec : World -> list string -> World * (Z * string);
  (** [shlex.split]; [None] when it raises *)
  shlex_split : string -> option (list string);
  (** [posixpath.normpath] *)
  normpath : string -> string;
  (** [base64.b64encode(text.encode()).decode()] *)
  b64encode : string -> string;
  (** [json.dumps(args)], [json.dumps(obs)], [json.dumps({"tool":..,"obs":..})] *)
  json_dumps_args : Args -> string;
  json_dumps_obs : Obs -> string;
  json_dumps_tool_obs : string -> Obs -> string;
  (** [json.dumps(v)] of a decoded value *)
  json_dumps : json -> string;
  (** [json.loads(blob)] when it yields a list: its items as [str(x)] *)
  json_loads_list : string -> option (list string);
  (** [repr(v)] of a list or dict *)
  py_repr : json -> string }.

(** [str(v)] *)
Definition py_str {E : Externals} (v : json) : string :=
  match v with
  | JNull => "None"
  | JBool true => "True"
  | JBool false => "False"
  | JNum z => Json.str_Z z
  | JStr s => s
  | JList _ | JObj _ => py_repr v
  end.

(** [str(v)], the empty string for a false [v] *)
Definition str_or_empty {E : Externals} (v : json) : string :=
  if Json.truthy v then py_str v else EmptyString.

(* ===================================================================== *)
(** * src/agent/tools.py                                                  *)
(* ===================================================================== *)

Module Tools.
Import Re.

Definition VENV_DIR : string := "/work/.venv".

(** The only exception class the tool belt raises. *)
Inductive exn := ValueError (msg : string).
Definition exn_str (e : exn) : string := match e with ValueError m => m end.
Definition exn_class (e : exn) : string := match e with ValueError _ => "ValueError" end.

Definition dquote : string := String "034" EmptyString.
Definition squote : string := "'".

(** [shlex_quote(s)]: the text in single quotes, each inner single quote
    replaced by the five characters quote, double quote, quote, double
    quote, quote. *)
Definition shlex_quote (s : string) : string :=
  squote +:+ Py.replace_char "'" (squote +:+ dquote +:+ squote +:+ dquote +:+ squote) s
         +:+ squote.

(** The mutable fields of [ToolBelt]. *)
Record ToolBelt := { cwd : string; env : gmap string string }.

Definition init_toolbelt : ToolBelt := {| cwd := "/work"; env := ∅ |}.

(** The test of [_normalize_cwd] on a resolved path: it is /work, /input
    or below one of them. *)
Definition confined (d : string) : bool :=
  String.eqb d "/work" || Py.startswith d "/work/"
  || String.eqb d "/input" || Py.startswith d "/input/".

(** [_deny_check]: the exception raised, if any. *)
Definition _deny_check (cmdline : string) : option exn :=
  match List.find (fun pat => found (snd pat) cmdline) Config.DENY_PATTERNS with
  | Some pat => Some (ValueError ("Denied command pattern matched: " +:+ fst pat))
  | None => None
  end.

Section WithExternals.
Context {E : Externals}.

(** [posixpath.join(a, b)] for a relative [b]. *)
Definition path_join (a b : string) : string :=
  if negb (Py.truthy a) || Py.endswith a "/" then a +:+ b else a +:+ "/" +:+ b.

Definition _normalize_cwd (tb : ToolBelt) (new_cwd : string) : exn + string :=
  let new_cwd := Py.strip new_cwd in
  if negb (Py.truthy new_cwd) then inr (cwd tb)
  else
    let resolved :=
      if Py.startswith new_cwd "/" then normpath new_cwd
      else normpath (path_join (cwd tb) new_cwd) in
    if String.eqb resolved "/work" || Py.startswith resolved "/work/"
       || String.eqb resolved "/input" || Py.startswith resolved "/input/"
    then inr resolved
    else inl (ValueError "Denied cwd outside /work or /input").

(** [^cd\s+(.+)$], [^export\s+(.+)$], [\s*(?:&&|;)\s*],
    [^[A-Za-z_][A-Za-z0-9_]*$] *)
Definition cd_re : regex := seqs [Bol; lit "cd"; spaces1; Group (plus dot); Eol].
Definition export_re : regex := seqs [Bol; lit "export"; spaces1; Group (plus dot); Eol].
Definition chain_re : regex := seqs [spaces; Alt (lit "&&") (chr ";"); spaces].
Definition ident_re : regex :=
  seqs [Bol; Chr (fun c => Py.is_alpha c || Ascii.eqb c "_"); Star (Chr Py.is_word); Eol].

(** The names [export_token] accepts. *)
Definition accepted_name (k : string) : Prop := is_Some (re_match ident_re k).

(** [target[1:-1]] when [target] is wrapped in matching quotes. *)
Definition unwrap_quotes (target : string) : string :=
  if (Py.startswith target dquote && Py.endswith target dquote)
     || (Py.startswith target squote && Py.endswith target squote)
  then Py.take (Py.len target - 2) (Py.drop 1 target)
  else target.

(** [s.split()] *)
Definition split_ws (s : string) : list string :=
  findall (plus (Chr (fun c => negb (Py.is_space c)))) s.

(** One [KEY=VALUE] token of an [export]. *)
Definition export_token (tb : ToolBelt) (tok : string) : ToolBelt :=
  match Py.split_once "=" tok with
  | None => tb
  | Some (k, v) =>
      match re_match ident_re k with
      | None => tb
      | Some _ => {| cwd := cwd tb; env := <[k := v]> (env tb) |}
      end
  end.

(** The loop over the [&&]/[;] parts: stops at the first part that is
    neither a [cd] nor an [export]; a denied [cd] raises with the state
    as updated so far. *)
Fixpoint update_parts (parts : list string) (tb : ToolBelt) : ToolBelt * option exn :=
  match parts with
  | [] => (tb, None)
  | part :: parts' =>
      let part := Py.strip part in
      if negb (Py.truthy part) then update_parts parts' tb
      else
        match re_match cd_re part with
        | Some h =>
            let target := unwrap_quotes (Py.strip (default EmptyString (group1 h))) in
            match _normalize_cwd tb target with
            | inl e => (tb, Some e)
            | inr d => update_parts parts' {| cwd := d; env := env tb |}
            end
        | None =>
            match re_match export_re part with
            | Some h =>
                let exports := Py.strip (default EmptyString (group1 h)) in
                let tokens :=
                  match shlex_split exports with
                  | Some toks => toks
                  | None => split_ws exports
                  end in
                update_parts parts' (fold_left export_token tokens tb)
            | None => (tb, None)
            end
        end
  end.

Definition _update_persistent_state (cmdline : string) (tb : ToolBelt)
  : ToolBelt * option exn :=
  let cmdline := Py.strip cmdline in
  if negb (Py.truthy cmdline) then (tb, None)
  else update_parts (split chain_re cmdline) tb.

(** [sorted(self.env.items())] *)
Fixpoint insert_sorted (kv : string * string) (l : list (string * string))
  : list (string * string) :=
  match l with
  | [] => [kv]
  | x :: l' => if String.leb (fst kv) (fst x) then kv :: l else x :: insert_sorted kv l'
  end.
Definition sorted_items (m : gmap string string) : list (string * string) :=
  fold_right insert_sorted [] (map_to_list m).

Definition _wrap_cmd (tb : ToolBelt) (cmdline : string) : string :=
  let exports :=
    Py.join EmptyString
      (map (fun kv => "export " +:+ fst kv +:+ "=" +:+ shlex_quote (snd kv) +:+ "; ")
           (sorted_items (env tb))) in
  let prefix :=
    "cd " +:+ shlex_quote (cwd tb) +:+ "; "
    +:+ "export VIRTUAL_ENV=" +:+ shlex_quote VENV_DIR +:+ "; "
    +:+ "export PATH=" +:+ shlex_quote (VENV_DIR +:+ "/bin") +:+ ":$PATH; "
    +:+ "export XDG_CACHE_HOME=/work/.cache; "
    +:+ "export PIP_CACHE_DIR=/work/.cache/pip; "
    +:+ "export NPM_CONFIG_CACHE=/work/.cache/npm; "
    +:+ "export PLAYWRIGHT_BROWSERS_PATH=/work/.cache/ms-playwright; "
    +:+ exports in
  prefix +:+ cmdline.

(** The tool belt together with the container it drives.  [exec_log] is a
    ghost field: the argv of every exec started in the container. *)
Record Sys := { tb : ToolBelt; world : World; exec_log : list (list string) }.

(** [SandboxManager.exec] *)
Definition sm_exec (cmd : list string) (timeout_s : nat) (sys : Sys)
  : (Z * string) * Sys :=
  let safe_cmd :=
    ["bash"; "-lc";
     "timeout " +:+ Py.str_nat timeout_s +:+ "s " +:+ Py.join " " (map shlex_quote cmd)] in
  let '(w, res) := docker_exec (world sys) safe_cmd in
  (res, {| tb := tb sys; world := w; exec_log := exec_log sys ++ [safe_cmd] |}).

(** [ToolBelt.shell]: the observation, or the exception raised. *)
Definition shell (cmd : string) (sys : Sys) : (exn + Obs) * Sys :=
  let cmd := Py.strip cmd in
  match _deny_check cmd with
  | Some e => (inl e, sys)
  | None =>
      let '(tb1, raised) := _update_persistent_state cmd (tb sys) in
      let sys1 := {| tb := tb1; world := world sys; exec_log := exec_log sys |} in
      match raised with
      | Some e => (inl e, sys1)
      | None =>
          let wrapped := _wrap_cmd tb1 cmd in
          let '((code, out), sys2) :=
            sm_exec ["bash"; "-lc"; wrapped] Config.MAX_TOOL_SECONDS sys1 in
          (inr {| exit_code := Some code;
                  output := Some (Py.take_last (12 * 1000) out);
                  obs_cwd := Some (cwd tb1);
                  error := None; error_type := None; hint := None |},
           sys2)
      end
  end.

End WithExternals.
End Tools.

(* ===================================================================== *)
(** * src/agent/verifier.py                                               *)
(* ===================================================================== *)

Module Verifier.
Import Re.

(** The keys of [VerifierDecision.meta] that the supervisor reads or that
    the SCOUT cap writes (usage and latency counters are left out). *)
Record Meta := {
  gradient : option dict;
  negative_claim : bool;
  needs_coverage : bool;
  unknown_checks : nat;
  evidence_url_count : nat;
  distinct_domains : list string;
  coverage_ok : option bool;
  score_before_cap : option Z;
  score_capped : bool;
  cap_reasons : option (list string) }.

(** One element of [checks_with_results]: [{"check": .., "result": ..}]. *)
Record CheckItem := { check : dict; result : dict }.

Record VerifierDecision := {
  score : Z;
  explanation : string;
  instructions : list string;
  checks : list CheckItem;
  meta : Meta }.

(** [^(none|no one|nobody|no member|no members)\b] *)
Definition negative_answer_re : regex :=
  seqs [Bol;
        alts [lit "none"; lit "no one"; lit "nobody"; lit "no member"; lit "no members"];
        WordB].

Definition _is_negative_answer (answer : string) : bool :=
  let a := Py.lower (Py.strip answer) in
  let first := Py.first_line a in
  match re_match negative_answer_re first with Some _ => true | None => false end.

Definition word (s : string) : regex := seqs [WordB; lit s; WordB].
Definition word_then (a b : string) : regex := seqs [word a; Star dot; word b].

Definition coverage_patterns : list regex :=
  [ word_then "which" "member";
    word_then "which" "person";
    word_then "who" "member";
    word "who";
    word_then "any" "member";
    word "ever";
    word "never";
    word "no one";
    word "nobody";
    word "none";
    word "earliest";
    word "latest";
    word "only";
    word_then "all" "members";
    word "touring member";
    word "gig";
    word "session musician" ].

Definition _needs_coverage (task : string) : bool :=
  let t := Py.lower task in
  existsb (fun p => found p t) coverage_patterns.

Section WithExternals.
Context {E : Externals}.

Definition is_url_evidence (e : json) : option string :=
  match e with
  | JObj d =>
      match Json.get "type" d with
      | JStr "url" =>
          let ref := Py.strip (str_or_empty (Json.get "ref" d)) in
          if Py.startswith ref "http://" || Py.startswith ref "https://"
          then Some ref else None
      | _ => None
      end
  | _ => None
  end.

Definition _evidence_urls (checks_with_results : list CheckItem) : list string :=
  flat_map
    (fun item =>
       match Json.as_list_or_empty (Json.get "evidence" (result item)) with
       | Some ev => omap is_url_evidence ev
       | None => []
       end)
    checks_with_results.

(** The loop of [_distinct_domains], [domains] in reverse order. *)
Fixpoint distinct_domains_from (urls : list string) (seen : gset string)
    (domains : list string) : list string :=
  match urls with
  | [] => List.rev domains
  | u :: urls' =>
      match Urllib.urlparse u with
      | None => distinct_domains_from urls' seen domains
      | Some pr =>
          let netloc := Py.lower (Urllib.netloc pr) in
          let netloc := if Py.startswith netloc "www." then Py.drop 4 netloc else netloc in
          if negb (Py.truthy netloc) || bool_decide (netloc ∈ seen)
          then distinct_domains_from urls' seen domains
          else distinct_domains_from urls' ({[ netloc ]} ∪ seen) (netloc :: domains)
      end
  end.
Definition _distinct_domains (urls : list string) : list string :=
  distinct_domains_from urls ∅ [].

(** [obs.get("exit_code") in (None, 0, "0")] *)
Definition exit_code_fine (v : json) : bool :=
  match v with
  | JNull => true
  | JNum z => (z =? 0)%Z
  | JBool b => negb b
  | JStr s => String.eqb s "0"
  | _ => false
  end.

Definition failing_tool_step (item : json) : bool :=
  match item with
  | JObj d =>
      match Json.as_dict_or_empty (Json.get "obs" d) with
      | Some obs =>
          Json.truthy (Json.get "error" obs) || Json.truthy (Json.get "soft_error" obs)
          || (match Json.get "tool" d with JStr "shell" => true | _ => false end
              && negb (exit_code_fine (Json.get "exit_code" obs)))
      | None => false
      end
  | _ => false
  end.

Definition _check_unknown (res : dict) : bool :=
  let ans := Py.lower (Py.strip (str_or_empty (Json.get "answer" res))) in
  if Py.mem ans ["unknown"; EmptyString; "n/a"] then true
  else if match Json.as_list_or_empty (Json.get "tool_log" res) with
          | Some tool_log => existsb failing_tool_step tool_log
          | None => false
          end then true
  else match Json.as_list_or_empty (Json.get "evidence" res) with
       | Some [] | None => true
       | Some _ => false
       end.

(** ** The SCOUT gate of [deep_verify] *)

Definition count_unknown (checks_with_results : list CheckItem) : nat :=
  List.length (List.filter (fun item => _check_unknown (result item)) checks_with_results).

(** [coverage_ok] after the loop: decided by the last coverage check. *)
Definition coverage_of (checks_with_results : list CheckItem) : option bool :=
  fold_left
    (fun acc item =>
       match Json.get "kind" (check item) with
       | JStr "coverage" =>
           Some (String.eqb
                   (Py.lower (Py.strip (str_or_empty (Json.get "answer" (result item)))))
                   "yes"
                 && negb (_check_unknown (result item)))
       | _ => acc
       end)
    checks_with_results None.

Definition compute_cap_reasons (unknown : nat) (domains : list string)
    (need_coverage : bool) (cov : option bool) : list string :=
  (if 0 <? unknown then ["unknown_checks_present"] else [])
  ++ (if List.length domains <? 2 then ["insufficient_independent_citations"] else [])
  ++ (if need_coverage && negb (default false cov) then ["missing_coverage_proof"] else []).

Definition canned_instructions (reasons : list string) : list string :=
  (if Py.mem "insufficient_independent_citations" reasons
   then ["Add at least two independent citations from different domains that directly support the key claim."]
   else [])
  ++ (if Py.mem "missing_coverage_proof" reasons
      then ["State the scope (what counts as a candidate) and cite a source that enumerates the complete candidate set under that scope; then verify the predicate for all candidates."]
      else [])
  ++ (if Py.mem "unknown_checks_present" reasons
      then ["Resolve unknown checks by retrying with alternative sources/tools; do not claim high confidence while a load-bearing check is unknown."]
      else []).

(** [cap_reasons] as computed from the check results. *)
Definition scout_reasons (need_coverage : bool) (checks_with_results : list CheckItem)
  : list string :=
  compute_cap_reasons (count_unknown checks_with_results)
    (_distinct_domains (_evidence_urls checks_with_results))
    need_coverage (coverage_of checks_with_results).

(** Lines 816-873 of verifier.py: everything after the judge. *)
Definition scout_cap (need_coverage : bool) (checks_with_results : list CheckItem)
    (decision : VerifierDecision) : VerifierDecision :=
  let unknown := count_unknown checks_with_results in
  let cov := coverage_of checks_with_results in
  let urls := _evidence_urls checks_with_results in
  let domains := _distinct_domains urls in
  let reasons := scout_reasons need_coverage checks_with_results in
  let score_before := score decision in
  let m := meta decision in
  let m1 := {| gradient := gradient m;
               negative_claim := negative_claim m;
               needs_coverage := needs_coverage m;
               unknown_checks := unknown;
               evidence_url_count := List.length urls;
               distinct_domains := domains;
               coverage_ok := cov;
               score_before_cap := score_before_cap m;
               score_capped := score_capped m;
               cap_reasons := cap_reasons m |} in
  match reasons with
  | [] => {| score := score decision; explanation := explanation decision;
             instructions := instructions decision; checks := checks decision;
             meta := m1 |}
  | _ =>
      {| score := Z.min (score decision) 2;
         explanation :=
           explanation decision +:+ " [SCOUT gating applied: score capped due to "
           +:+ Py.join ", " reasons +:+ "]";
         instructions := firstn 3 (instructions decision ++ canned_instructions reasons);
         checks := checks decision;
         meta := {| gradient := gradient m1;
                    negative_claim := negative_claim m1;
                    needs_coverage := needs_coverage m1;
                    unknown_checks := unknown_checks m1;
                    evidence_url_count := evidence_url_count m1;
                    distinct_domains := distinct_domains m1;
                    coverage_ok := coverage_ok m1;
                    score_before_cap := Some score_before;
                    score_capped := true;
                    cap_reasons := Some reasons |} |}
  end.

(** One tool call of a verification mini-agent; [ms_traced] tells whether
    its tool event was written (the loop-killer returns before writing). *)
Record MiniStep := { ms_tool : string; ms_args : Args; ms_traced : bool }.

(** What the model-driven stages of one [deep_verify] call produce: the
    tool calls the mini-agents made, the check results, and the decision
    returned by [_judge]. *)
Record VerifierRun := {
  vr_steps : list MiniStep;
  vr_results : list CheckItem;
  vr_judged : VerifierDecision }.

(** [need_coverage] of line 730. *)
Definition need_coverage_of (task answer : string) : bool :=
  _is_negative_answer answer || _needs_coverage task.

(** [deep_verify], from the judge's decision on. *)
Definition deep_verify (task answer : string) (run : VerifierRun) : VerifierDecision :=
  let negative := _is_negative_answer answer in
  let need_coverage := need_coverage_of task answer in
  let d := vr_judged run in
  let m := meta d in
  let d1 := {| score := score d;
               explanation :=
                 if Py.truthy (explanation d) then explanation d else "No explanation.";
               instructions := instructions d;
               checks := checks d;
               meta := {| gradient := gradient m;
                          negative_claim := negative;
                          needs_coverage := need_coverage;
                          unknown_checks := unknown_checks m;
                          evidence_url_count := evidence_url_count m;
                          distinct_domains := distinct_domains m;
                          coverage_ok := coverage_ok m;
                          score_before_cap := score_before_cap m;
                          score_capped := score_capped m;
                          cap_reasons := cap_reasons m |} |} in
  scout_cap need_coverage (vr_results run) d1.

(** [re.sub(r"formula", "composition", s, flags=re.I)] *)
Fixpoint sub_formula_fuel (fuel : nat) (s : string) : string :=
  match fuel with
  | O => s
  | S fuel' =>
      if String.eqb (Py.lower (Py.take 7 s)) "formula"
      then "composition" +:+ sub_formula_fuel fuel' (Py.drop 7 s)
      else match s with
           | EmptyString => EmptyString
           | String c s' => String c (sub_formula_fuel fuel' s')
           end
  end.
Definition sub_formula (s : string) : string := sub_formula_fuel (S (Py.len s)) s.

Fixpoint _sanitize_no_formula (v : json) : json :=
  match v with
  | JObj d =>
      JObj (fold_left
              (fun out kv =>
                 let '(k, x) := kv in Json.set (sub_formula k) x out)
              (map (fun kv => let '(k, x) := kv in (k, _sanitize_no_formula x)) d)
              [])
  | JList l => JList (map _sanitize_no_formula l)
  | JStr s => JStr (sub_formula s)
  | _ => v
  end.

Definition json_of_item (item : CheckItem) : json :=
  JObj [("check", JObj (check item)); ("result", JObj (result item))].

Fixpoint numbered (i : nat) (l : list string) : list string :=
  match l with
  | [] => []
  | ins :: l' => (Py.str_nat i +:+ ". " +:+ ins) :: numbered (S i) l'
  end.

Definition format_verifier_feedback (decision : VerifierDecision) : string :=
  match gradient (meta decision) with
  | Some (kv :: g) =>
      "VERIFIER_GRADIENT_JSON:" +:+ Py.nl
      +:+ json_dumps (_sanitize_no_formula (JObj (kv :: g))) +:+ Py.nl
      +:+ "Use this as coaching. Make progress with tools now. Prefer next_actions when helpful, but they are not mandatory."
  | _ =>
      Py.join Py.nl
        (["VERIFICATION SCORE: " +:+ Json.str_Z (score decision) +:+ "/4";
          "EXPLANATION: " +:+ explanation decision]
         ++ match instructions decision with
            | [] => ["INSTRUCTIONS: (none)"]
            | l => "INSTRUCTIONS (follow strictly; max 3):" :: numbered 1 l
            end
         ++ ["CHECK RESULTS (evidence hooks):";
             Py.take (8 * 1000) (json_dumps (JList (map json_of_item (checks decision))));
             "Now revise the answer. Add concrete evidence hooks (URLs with short quotes, or /input|/work paths + commands). Call tools if needed."])
  end.

End WithExternals.
End Verifier.

(* ===================================================================== *)
(** * src/agent/loop.py: data                                             *)
(* ===================================================================== *)

Module Loop.
Import Re.

(** [epistemic.status] takes four values. *)
Inductive Status := IN_PROGRESS | UNRESOLVED | BLOCKED | VERIFIED.

Definition status_str (s : Status) : string :=
  match s with
  | IN_PROGRESS => "IN_PROGRESS"
  | UNRESOLVED => "UNRESOLVED"
  | BLOCKED => "BLOCKED"
  | VERIFIED => "VERIFIED"
  end.

Definition status_eqb (a b : Status) : bool :=
  match a, b with
  | IN_PROGRESS, IN_PROGRESS | UNRESOLVED, UNRESOLVED
  | BLOCKED, BLOCKED | VERIFIED, VERIFIED => true
  | _, _ => false
  end.

(** A history entry [{"role": .., "content": ..}]. *)
Record Message := { role : string; content : string }.

(** A tool call [{"tool": .., "args": ..}] extracted from a response. *)
Record ToolCall := { tool : string; args : Args }.

(** [parse.AgentOutput] *)
Record AgentOutput := {
  thought : string;
  tool_name : option string;
  tool_args : option Args;
  parse_error : option string }.

(** One line of evidence.jsonl. *)
Record EvidenceObs := {
  eo_exit_code : option Z;
  eo_error_type : option string;
  eo_error : option string;
  eo_output : string }.

Record Evidence := {
  ev_id : string;
  ev_step : nat;
  ev_tool : string;
  ev_args : Args;
  ev_obs : EvidenceObs;
  ev_urls : list string;
  ev_failure_type : option string }.

(** One line of move_ledger.jsonl. *)
Record Move := {
  mv_id : string;
  mv_step : nat;
  mv_tool : string;
  mv_cmd : string;
  mv_url : option string;
  mv_domain : option string;
  mv_query : option string;
  mv_query_family : option string;
  mv_source_class : string;
  mv_move_type : string;
  mv_move_sig : string;
  mv_failure_type : option string;
  mv_outcome : string }.

(** One line of query_ledger.jsonl. *)
Record Query := {
  q_id : string;
  q_step : nat;
  q_url : option string;
  q_domain : option string;
  q_query : option string;
  q_query_family : option string;
  q_source_class : string;
  q_move_type : string;
  q_outcome : string }.

(** The events written to trace.jsonl.  A tool event carries its optional
    [scope] and [step] keys: the tool branch writes a step and no scope,
    [runtime_shell] writes scope "runtime" and step 0, the verifier writes
    scope "verifier" and no step.  Events written by the two streamer
    threads are not part of the model. *)
Inductive TraceEvent :=
| EvSandbox
| EvTask (task : string)
| EvAssistant (step : nat) (text : string)
| EvModelIO (step : nat)
| EvModel (step : nat)
| EvTool (scope : option string) (step : option nat) (tl : string) (a : Args) (obs : Obs)
| EvPolicy (kind : string) (step : nat)
| EvVerifier (step : nat) (d : Verifier.VerifierDecision)
| EvVerifierToAgent (step : nat) (score : Z) (text : string)
| EvVerifierGradient (step : nat) (grad : dict)
| EvAgentFromVerifier (step : nat) (n_messages : nat).

Record EpistemicState := {
  status : Status;
  unresolved : list string;
  constraints : list string;
  blocked : list string }.

Definition set_status (v : Status) (r : EpistemicState) : EpistemicState :=
  {| status := v; unresolved := unresolved r; constraints := constraints r; blocked := blocked r |}.
Definition set_unresolved (v : list string) (r : EpistemicState) : EpistemicState :=
  {| status := status r; unresolved := v; constraints := constraints r; blocked := blocked r |}.
Definition set_constraints (v : list string) (r : EpistemicState) : EpistemicState :=
  {| status := status r; unresolved := unresolved r; constraints := v; blocked := blocked r |}.
Definition set_blocked (v : list string) (r : EpistemicState) : EpistemicState :=
  {| status := status r; unresolved := unresolved r; constraints := constraints r; blocked := v |}.

Record Flags := {
  force_tool_next : bool;
  force_query_mutation : bool;
  force_move_change : bool;
  force_source_shift : bool;
  force_domain_shift : bool;
  notes_required : bool }.

Definition set_force_tool_next (v : bool) (r : Flags) : Flags :=
  {| force_tool_next := v; force_query_mutation := force_query_mutation r; force_move_change := force_move_change r; force_source_shift := force_source_shift r; force_domain_shift := force_domain_shift r; notes_required := notes_required r |}.
Definition set_force_query_mutation (v : bool) (r : Flags) : Flags :=
  {| force_tool_next := force_tool_next r; force_query_mutation := v; force_move_change := force_move_change r; force_source_shift := force_source_shift r; force_domain_shift := force_domain_shift r; notes_required := notes_required r |}.
Definition set_force_move_change (v : bool) (r : Flags) : Flags :=
  {| force_tool_next := force_tool_next r; force_query_mutation := force_query_mutation r; force_move_change := v; force_source_shift := force_source_shift r; force_domain_shift := force_domain_shift r; notes_required := notes_required r |}.
Definition set_force_source_shift (v : bool) (r : Flags) : Flags :=
  {| force_tool_next := force_tool_next r; force_query_mutation := force_query_mutation r; force_move_change := force_move_change r; force_source_shift := v; force_domain_shift := force_domain_shift r; notes_required := notes_required r |}.
Definition set_force_domain_shift (v : bool) (r : Flags) : Flags :=
  {| force_tool_next := force_tool_next r; force_query_mutation := force_query_mutation r; force_move_change := force_move_change r; force_source_shift := force_source_shift r; force_domain_shift := v; notes_required := notes_required r |}.
Definition set_notes_required (v : bool) (r : Flags) : Flags :=
  {| force_tool_next := force_tool_next r; force_query_mutation := force_query_mutation r; force_move_change := force_move_change r; force_source_shift := force_source_shift r; force_domain_shift := force_domain_shift r; notes_required := v |}.

Record Counters := {
  verifier_rounds : nat;
  gradient_reminders : nat;
  tool_calls_made : nat;
  pre_tool_nudges : nat;
  length_nudges : nat;
  finalization_hits : nat;
  stagnation_streak : nat;
  parse_error_hits : nat;
  last_evidence_count : nat }.

Definition set_verifier_rounds (v : nat) (r : Counters) : Counters :=
  {| verifier_rounds := v; gradient_reminders := gradient_reminders r; tool_calls_made := tool_calls_made r; pre_tool_nudges := pre_tool_nudges r; length_nudges := length_nudges r; finalization_hits := finalization_hits r; stagnation_streak := stagnation_streak r; parse_error_hits := parse_error_hits r; last_evidence_count := last_evidence_count r |}.
Definition set_gradient_reminders (v : nat) (r : Counters) : Counters :=
  {| verifier_rounds := verifier_rounds r; gradient_reminders := v; tool_calls_made := tool_calls_made r; pre_tool_nudges := pre_tool_nudges r; length_nudges := length_nudges r; finalization_hits := finalization_hits r; stagnation_streak := stagnation_streak r; parse_error_hits := parse_error_hits r; last_evidence_count := last_evidence_count r |}.
Definition set_tool_calls_made (v : nat) (r : Counters) : Counters :=
  {| verifier_rounds := verifier_rounds r; gradient_reminders := gradient_reminders r; tool_calls_made := v; pre_tool_nudges := pre_tool_nudges r; length_nudges := length_nudges r; finalization_hits := finalization_hits r; stagnation_streak := stagnation_streak r; parse_error_hits := parse_error_hits r; last_evidence_count := last_evidence_count r |}.
Definition set_pre_tool_nudges (v : nat) (r : Counters) : Counters :=
  {| verifier_rounds := verifier_rounds r; gradient_reminders := gradient_reminders r; tool_calls_made := tool_calls_made r; pre_tool_nudges := v; length_nudges := length_nudges r; finalization_hits := finalization_hits r; stagnation_streak := stagnation_streak r; parse_error_hits := parse_error_hits r; last_evidence_count := last_evidence_count r |}.
Definition set_length_nudges (v : nat) (r : Counters) : Counters :=
  {| verifier_rounds := verifier_rounds r; gradient_reminders := gradient_reminders r; tool_calls_made := tool_calls_made r; pre_tool_nudges := pre_tool_nudges r; length_nudges := v; finalization_hits := finalization_hits r; stagnation_streak := stagnation_streak r; parse_error_hits := parse_error_hits r; last_evidence_count := last_evidence_count r |}.
Definition set_finalization_hits (v : nat) (r : Counters) : Counters :=
  {| verifier_rounds := verifier_rounds r; gradient_reminders := gradient_reminders r; tool_calls_made := tool_calls_made r; pre_tool_nudges := pre_tool_nudges r; length_nudges := length_nudges r; finalization_hits := v; stagnation_streak := stagnation_streak r; parse_error_hits := parse_error_hits r; last_evidence_count := last_evidence_count r |}.
Definition set_stagnation_streak (v : nat) (r : Counters) : Counters :=
  {| verifier_rounds := verifier_rounds r; gradient_reminders := gradient_reminders r; tool_calls_made := tool_calls_made r; pre_tool_nudges := pre_tool_nudges r; length_nudges := length_nudges r; finalization_hits := finalization_hits r; stagnation_streak := v; parse_error_hits := parse_error_hits r; last_evidence_count := last_evidence_count r |}.
Definition set_parse_error_hits (v : nat) (r : Counters) : Counters :=
  {| verifier_rounds := verifier_rounds r; gradient_reminders := gradient_reminders r; tool_calls_made := tool_calls_made r; pre_tool_nudges := pre_tool_nudges r; length_nudges := length_nudges r; finalization_hits := finalization_hits r; stagnation_streak := stagnation_streak r; parse_error_hits := v; last_evidence_count := last_evidence_count r |}.
Definition set_last_evidence_count (v : nat) (r : Counters) : Counters :=
  {| verifier_rounds := verifier_rounds r; gradient_reminders := gradient_reminders r; tool_calls_made := tool_calls_made r; pre_tool_nudges := pre_tool_nudges r; length_nudges := length_nudges r; finalization_hits := finalization_hits r; stagnation_streak := stagnation_streak r; parse_error_hits := parse_error_hits r; last_evidence_count := v |}.

Record Moves := {
  last_move_sig : option string;
  last_move_type : option string;
  last_domain : option string;
  last_domain_key : option string;
  last_query_family : option string;
  last_source_class : option string;
  move_repeat_streak : nat;
  domain_same_streak : nat;
  source_class_failure_streak : nat;
  recent_query_families : list string }.

Definition set_last_move_sig (v : option string) (r : Moves) : Moves :=
  {| last_move_sig := v; last_move_type := last_move_type r; last_domain := last_domain r; last_domain_key := last_domain_key r; last_query_family := last_query_family r; last_source_class := last_source_class r; move_repeat_streak := move_repeat_streak r; domain_same_streak := domain_same_streak r; source_class_failure_streak := source_class_failure_streak r; recent_query_families := recent_query_families r |}.
Definition set_last_move_type (v : option string) (r : Moves) : Moves :=
  {| last_move_sig := last_move_sig r; last_move_type := v; last_domain := last_domain r; last_domain_key := last_domain_key r; last_query_family := last_query_family r; last_source_class := last_source_class r; move_repeat_streak := move_repeat_streak r; domain_same_streak := domain_same_streak r; source_class_failure_streak := source_class_failure_streak r; recent_query_families := recent_query_families r |}.
Definition set_last_domain (v : option string) (r : Moves) : Moves :=
  {| last_move_sig := last_move_sig r; last_move_type := last_move_type r; last_domain := v; last_domain_key := last_domain_key r; last_query_family := last_query_family r; last_source_class := last_source_class r; move_repeat_streak := move_repeat_streak r; domain_same_streak := domain_same_streak r; source_class_failure_streak := source_class_failure_streak r; recent_query_families := recent_query_families r |}.
Definition set_last_domain_key (v : option string) (r : Moves) : Moves :=
  {| last_move_sig := last_move_sig r; last_move_type := last_move_type r; last_domain := last_domain r; last_domain_key := v; last_query_family := last_query_family r; last_source_class := last_source_class r; move_repeat_streak := move_repeat_streak r; domain_same_streak := domain_same_streak r; source_class_failure_streak := source_class_failure_streak r; recent_query_families := recent_query_families r |}.
Definition set_last_query_family (v : option string) (r : Moves) : Moves :=
  {| last_move_sig := last_move_sig r; last_move_type := last_move_type r; last_domain := last_domain r; last_domain_key := last_domain_key r; last_query_family := v; last_source_class := last_source_class r; move_repeat_streak := move_repeat_streak r; domain_same_streak := domain_same_streak r; source_class_failure_streak := source_class_failure_streak r; recent_query_families := recent_query_families r |}.
Definition set_last_source_class (v : option string) (r : Moves) : Moves :=
  {| last_move_sig := last_move_sig r; last_move_type := last_move_type r; last_domain := last_domain r; last_domain_key := last_domain_key r; last_query_family := last_query_family r; last_source_class := v; move_repeat_streak := move_repeat_streak r; domain_same_streak := domain_same_streak r; source_class_failure_streak := source_class_failure_streak r; recent_query_families := recent_query_families r |}.
Definition set_move_repeat_streak (v : nat) (r : Moves) : Moves :=
  {| last_move_sig := last_move_sig r; last_move_type := last_move_type r; last_domain := last_domain r; last_domain_key := last_domain_key r; last_query_family := last_query_family r; last_source_class := last_source_class r; move_repeat_streak := v; domain_same_streak := domain_same_streak r; source_class_failure_streak := source_class_failure_streak r; recent_query_families := recent_query_families r |}.
Definition set_domain_same_streak (v : nat) (r : Moves) : Moves :=
  {| last_move_sig := last_move_sig r; last_move_type := last_move_type r; last_domain := last_domain r; last_domain_key := last_domain_key r; last_query_family := last_query_family r; last_source_class := last_source_class r; move_repeat_streak := move_repeat_streak r; domain_same_streak := v; source_class_failure_streak := source_class_failure_streak r; recent_query_families := recent_query_families r |}.
Definition set_source_class_failure_streak (v : nat) (r : Moves) : Moves :=
  {| last_move_sig := last_move_sig r; last_move_type := last_move_type r; last_domain := last_domain r; last_domain_key := last_domain_key r; last_query_family := last_query_family r; last_source_class := last_source_class r; move_repeat_streak := move_repeat_streak r; domain_same_streak := domain_same_streak r; source_class_failure_streak := v; recent_query_families := recent_query_families r |}.
Definition set_recent_query_families (v : list string) (r : Moves) : Moves :=
  {| last_move_sig := last_move_sig r; last_move_type := last_move_type r; last_domain := last_domain r; last_domain_key := last_domain_key r; last_query_family := last_query_family r; last_source_class := last_source_class r; move_repeat_streak := move_repeat_streak r; domain_same_streak := domain_same_streak r; source_class_failure_streak := source_class_failure_streak r; recent_query_families := v |}.

Record Domains := {
  official_domain_hints : gset string;
  official_domains_checked : gset string;
  independent_domains_checked : gset string;
  domain_attempts : gmap string nat }.

Definition set_official_domain_hints (v : gset string) (r : Domains) : Domains :=
  {| official_domain_hints := v; official_domains_checked := official_domains_checked r; independent_domains_checked := independent_domains_checked r; domain_attempts := domain_attempts r |}.
Definition set_official_domains_checked (v : gset string) (r : Domains) : Domains :=
  {| official_domain_hints := official_domain_hints r; official_domains_checked := v; independent_domains_checked := independent_domains_checked r; domain_attempts := domain_attempts r |}.
Definition set_independent_domains_checked (v : gset string) (r : Domains) : Domains :=
  {| official_domain_hints := official_domain_hints r; official_domains_checked := official_domains_checked r; independent_domains_checked := v; domain_attempts := domain_attempts r |}.
Definition set_domain_attempts (v : gmap string nat) (r : Domains) : Domains :=
  {| official_domain_hints := official_domain_hints r; official_domains_checked := official_domains_checked r; independent_domains_checked := independent_domains_checked r; domain_attempts := v |}.

Record Ledgers := {
  evidence_counter : nat;
  move_counter : nat;
  query_counter : nat;
  evidence_ids : gset string;
  evidence : list Evidence;
  move_ledger : list Move;
  query_ledger : list Query;
  trace : list TraceEvent }.

Definition set_evidence_counter (v : nat) (r : Ledgers) : Ledgers :=
  {| evidence_counter := v; move_counter := move_counter r; query_counter := query_counter r; evidence_ids := evidence_ids r; evidence := evidence r; move_ledger := move_ledger r; query_ledger := query_ledger r; trace := trace r |}.
Definition set_move_counter (v : nat) (r : Ledgers) : Ledgers :=
  {| evidence_counter := evidence_counter r; move_counter := v; query_counter := query_counter r; evidence_ids := evidence_ids r; evidence := evidence r; move_ledger := move_ledger r; query_ledger := query_ledger r; trace := trace r |}.
Definition set_query_counter (v : nat) (r : Ledgers) : Ledgers :=
  {| evidence_counter := evidence_counter r; move_counter := move_counter r; query_counter := v; evidence_ids := evidence_ids r; evidence := evidence r; move_ledger := move_ledger r; query_ledger := query_ledger r; trace := trace r |}.
Definition set_evidence_ids (v : gset string) (r : Ledgers) : Ledgers :=
  {| evidence_counter := evidence_counter r; move_counter := move_counter r; query_counter := query_counter r; evidence_ids := v; evidence := evidence r; move_ledger := move_ledger r; query_ledger := query_ledger r; trace := trace r |}.
Definition set_evidence (v : list Evidence) (r : Ledgers) : Ledgers :=
  {| evidence_counter := evidence_counter r; move_counter := move_counter r; query_counter := query_counter r; evidence_ids := evidence_ids r; evidence := v; move_ledger := move_ledger r; query_ledger := query_ledger r; trace := trace r |}.
Definition set_move_ledger (v : list Move) (r : Ledgers) : Ledgers :=
  {| evidence_counter := evidence_counter r; move_counter := move_counter r; query_counter := query_counter r; evidence_ids := evidence_ids r; evidence := evidence r; move_ledger := v; query_ledger := query_ledger r; trace := trace r |}.
Definition set_query_ledger (v : list Query) (r : Ledgers) : Ledgers :=
  {| evidence_counter := evidence_counter r; move_counter := move_counter r; query_counter := query_counter r; evidence_ids := evidence_ids r; evidence := evidence r; move_ledger := move_ledger r; query_ledger := v; trace := trace r |}.
Definition set_trace (v : list TraceEvent) (r : Ledgers) : Ledgers :=
  {| evidence_counter := evidence_counter r; move_counter := move_counter r; query_counter := query_counter r; evidence_ids := evidence_ids r; evidence := evidence r; move_ledger := move_ledger r; query_ledger := query_ledger r; trace := v |}.


Section WithExternals.
Context {E : Externals}.

(** The variables of [run_agent] that live across turns.  [sys] is the
    tool belt and its container. *)
Record LoopState := {
  flags : Flags;
  counters : Counters;
  moves : Moves;
  domains : Domains;
  ledgers : Ledgers;
  epistemic : EpistemicState;
  last_failure_type : option string;
  last_failure_streak : nat;
  history : list Message;
  pending_gradient : option dict;
  last : string;
  sys : Tools.Sys }.

Definition set_flags (v : Flags) (r : LoopState) : LoopState :=
  {| flags := v; counters := counters r; moves := moves r; domains := domains r; ledgers := ledgers r; epistemic := epistemic r; last_failure_type := last_failure_type r; last_failure_streak := last_failure_streak r; history := history r; pending_gradient := pending_gradient r; last := last r; sys := sys r |}.
Definition set_counters (v : Counters) (r : LoopState) : LoopState :=
  {| flags := flags r; counters := v; moves := moves r; domains := domains r; ledgers := ledgers r; epistemic := epistemic r; last_failure_type := last_failure_type r; last_failure_streak := last_failure_streak r; history := history r; pending_gradient := pending_gradient r; last := last r; sys := sys r |}.
Definition set_moves (v : Moves) (r : LoopState) : LoopState :=
  {| flags := flags r; counters := counters r; moves := v; domains := domains r; ledgers := ledgers r; epistemic := epistemic r; last_failure_type := last_failure_type r; last_failure_streak := last_failure_streak r; history := history r; pending_gradient := pending_gradient r; last := last r; sys := sys r |}.
Definition set_domains (v : Domains) (r : LoopState) : LoopState :=
  {| flags := flags r; counters := counters r; moves := moves r; domains := v; ledgers := ledgers r; epistemic := epistemic r; last_failure_type := last_failure_type r; last_failure_streak := last_failure_streak r; history := history r; pending_gradient := pending_gradient r; last := last r; sys := sys r |}.
Definition set_ledgers (v : Ledgers) (r : LoopState) : LoopState :=
  {| flags := flags r; counters := counters r; moves := moves r; domains := domains r; ledgers := v; epistemic := epistemic r; last_failure_type := last_failure_type r; last_failure_streak := last_failure_streak r; history := history r; pending_gradient := pending_gradient r; last := last r; sys := sys r |}.
Definition set_epistemic (v : EpistemicState) (r : LoopState) : LoopState :=
  {| flags := flags r; counters := counters r; moves := moves r; domains := domains r; ledgers := ledgers r; epistemic := v; last_failure_type := last_failure_type r; last_failure_streak := last_failure_streak r; history := history r; pending_gradient := pending_gradient r; last := last r; sys := sys r |}.
Definition set_last_failure_type (v : option string) (r : LoopState) : LoopState :=
  {| flags := flags r; counters := counters r; moves := moves r; domains := domains r; ledgers := ledgers r; epistemic := epistemic r; last_failure_type := v; last_failure_streak := last_failure_streak r; history := history r; pending_gradient := pending_gradient r; last := last r; sys := sys r |}.
Definition set_last_failure_streak (v : nat) (r : LoopState) : LoopState :=
  {| flags := flags r; counters := counters r; moves := moves r; domains := domains r; ledgers := ledgers r; epistemic := epistemic r; last_failure_type := last_failure_type r; last_failure_streak := v; history := history r; pending_gradient := pending_gradient r; last := last r; sys := sys r |}.
Definition set_history (v : list Message) (r : LoopState) : LoopState :=
  {| flags := flags r; counters := counters r; moves := moves r; domains := domains r; ledgers := ledgers r; epistemic := epistemic r; last_failure_type := last_failure_type r; last_failure_streak := last_failure_streak r; history := v; pending_gradient := pending_gradient r; last := last r; sys := sys r |}.
Definition set_pending_gradient (v : option dict) (r : LoopState) : LoopState :=
  {| flags := flags r; counters := counters r; moves := moves r; domains := domains r; ledgers := ledgers r; epistemic := epistemic r; last_failure_type := last_failure_type r; last_failure_streak := last_failure_streak r; history := history r; pending_gradient := v; last := last r; sys := sys r |}.
Definition set_last (v : string) (r : LoopState) : LoopState :=
  {| flags := flags r; counters := counters r; moves := moves r; domains := domains r; ledgers := ledgers r; epistemic := epistemic r; last_failure_type := last_failure_type r; last_failure_streak := last_failure_streak r; history := history r; pending_gradient := pending_gradient r; last := v; sys := sys r |}.
Definition set_sys (v : Tools.Sys) (r : LoopState) : LoopState :=
  {| flags := flags r; counters := counters r; moves := moves r; domains := domains r; ledgers := ledgers r; epistemic := epistemic r; last_failure_type := last_failure_type r; last_failure_streak := last_failure_streak r; history := history r; pending_gradient := pending_gradient r; last := last r; sys := v |}.

Definition upd_flags (f : Flags -> Flags) (st : LoopState) : LoopState :=
  set_flags (f (flags st)) st.
Definition upd_counters (f : Counters -> Counters) (st : LoopState) : LoopState :=
  set_counters (f (counters st)) st.
Definition upd_moves (f : Moves -> Moves) (st : LoopState) : LoopState :=
  set_moves (f (moves st)) st.
Definition upd_domains (f : Domains -> Domains) (st : LoopState) : LoopState :=
  set_domains (f (domains st)) st.
Definition upd_ledgers (f : Ledgers -> Ledgers) (st : LoopState) : LoopState :=
  set_ledgers (f (ledgers st)) st.
Definition upd_epistemic (f : EpistemicState -> EpistemicState) (st : LoopState) : LoopState :=
  set_epistemic (f (epistemic st)) st.

(** ** EpistemicState methods *)

Definition add_constraint (text : string) (e : EpistemicState) : EpistemicState :=
  if Py.truthy text && negb (Py.mem text (constraints e))
  then set_constraints (constraints e ++ [text]) e else e.
Definition add_unresolved (text : string) (e : EpistemicState) : EpistemicState :=
  if Py.truthy text && negb (Py.mem text (unresolved e))
  then set_unresolved (unresolved e ++ [text]) e else e.
Definition add_blocked (text : string) (e : EpistemicState) : EpistemicState :=
  if Py.truthy text && negb (Py.mem text (blocked e))
  then set_blocked (blocked e ++ [text]) e else e.
Definition set_verified (e : EpistemicState) : EpistemicState :=
  {| status := VERIFIED; unresolved := []; constraints := []; blocked := [] |}.

(** ** Configuration read once at start *)

(** The environment-derived constants, the task and the step budget.
    [negative_claim_budget_steps] is the value of
    [_negative_claim_budget(max_steps)], computed in floating point by the
    source. *)
Record Config := {
  NOTES_UPDATE_INTERVAL : nat;
  NEGATIVE_CLAIM_MIN_OFFICIAL : nat;
  NEGATIVE_CLAIM_MIN_INDEPENDENT : nat;
  DOMAIN_SHIFT_LIMIT : nat;
  STAGNATION_LIMIT : nat;
  FAILURE_ESCALATION_LIMIT : nat;
  QUERY_MUTATION_BUDGET : nat;
  MOVE_REPEAT_LIMIT : nat;
  max_verifier_rounds : nat;
  negative_claim_budget_steps : nat;
  max_steps : Z;
  task : string }.

(** The defaults of the source for a task and a step budget. *)
Definition default_config (task : string) (max_steps : Z) (budget : nat) : Config :=
  {| NOTES_UPDATE_INTERVAL := 3;
     NEGATIVE_CLAIM_MIN_OFFICIAL := 2;
     NEGATIVE_CLAIM_MIN_INDEPENDENT := 1;
     DOMAIN_SHIFT_LIMIT := 2;
     STAGNATION_LIMIT := 3;
     FAILURE_ESCALATION_LIMIT := 3;
     QUERY_MUTATION_BUDGET := 2;
     MOVE_REPEAT_LIMIT := 3;
     max_verifier_rounds := 8;
     negative_claim_budget_steps := budget;
     max_steps := max_steps;
     task := task |}.

(** ** Notes classification *)

Inductive NotesMode := Append | Overwrite.

(** In the source patterns the class [[^\\n]] is written in a raw string:
    it excludes the backslash and the letter n. *)
Definition not_bs_n : regex := Star (none_of ["\"%char; "n"%char]).
Definition notes_md : regex := lit "notes.md".

(** [>>\s*[^\\n]*notes\.md] *)
Definition append_redirect_re : regex := seqs [lit ">>"; spaces; not_bs_n; notes_md].
(** [\btee\b[^\\n]*\s(-a|--append)\b[^\\n]*notes\.md] *)
Definition tee_append_re : regex :=
  seqs [WordB; lit "tee"; WordB; not_bs_n; space; Alt (lit "-a") (lit "--append");
        WordB; not_bs_n; notes_md].
(** [(?<!>)>\s*[^\\n]*notes\.md] *)
Definition overwrite_redirect_re : regex :=
  seqs [NotAfter (Ascii.eqb ">"); chr ">"; spaces; not_bs_n; notes_md].
(** [\bcat\b\s+>.*notes\.md] *)
Definition cat_redirect_re : regex :=
  seqs [WordB; lit "cat"; WordB; spaces1; chr ">"; Star dot; notes_md].
(** [\bW\b[^\\n]*notes\.md] for W in tee, truncate, rm, mv, cp *)
Definition word_notes_re (w : string) : regex :=
  seqs [WordB; lit w; WordB; not_bs_n; notes_md].

Definition _notes_write_mode (cmd : string) : option NotesMode :=
  if negb (Py.truthy cmd) || negb (Py.contains "notes.md" cmd) then None
  else
    let c := Py.lower cmd in
    if found append_redirect_re c then Some Append
    else if found tee_append_re c then Some Append
    else if Py.contains "notes_append" c then Some Append
    else if found overwrite_redirect_re c then Some Overwrite
    else if found cat_redirect_re c then Some Overwrite
    else if found (word_notes_re "tee") c then Some Overwrite
    else if found (word_notes_re "truncate") c then Some Overwrite
    else if found (word_notes_re "rm") c then Some Overwrite
    else if found (word_notes_re "mv") c then Some Overwrite
    else if found (word_notes_re "cp") c then Some Overwrite
    else if Py.contains "write_text" c || Py.contains "write(" c
            || Py.contains "notes_reset" c then Some Overwrite
    else None.

Definition is_append (m : option NotesMode) : bool :=
  match m with Some Append => true | _ => false end.
Definition is_overwrite (m : option NotesMode) : bool :=
  match m with Some Overwrite => true | _ => false end.

(** ** Derived dimensions of a tool call *)

(** Truth value of an optional string ([None] and the empty string are false). *)
Definition truthy_opt (o : option string) : bool :=
  match o with Some s => Py.truthy s | None => false end.
(** [o or "-"] *)
Definition or_dash (o : option string) : string :=
  if truthy_opt o then default EmptyString o else "-".

Definition opt_eqb (a b : option string) : bool :=
  match a, b with
  | Some x, Some y => String.eqb x y
  | None, None => true
  | _, _ => false
  end.

Definition _normalize_domain (domain : option string) : option string :=
  match domain with
  | None => None
  | Some dom =>
      if negb (Py.truthy dom) then None
      else
        let d := Py.lower dom in
        Some (if Py.startswith d "www." then Py.drop 4 d else d)
  end.

Definition search_engines : list string :=
  ["google.com"; "bing.com"; "duckduckgo.com"; "search.brave.com"; "yahoo.com"].

Definition _is_search_domain (domain : option string) : bool :=
  if negb (truthy_opt domain) then false
  else
    let d := default EmptyString (_normalize_domain domain) in
    existsb (Py.endswith d) search_engines.

Definition task_stop_words : list string :=
  ["the"; "a"; "an"; "of"; "for"; "and"; "to"; "in"; "on"; "with"; "by";
   "from"; "official"; "launch"; "released"; "release"; "version"; "report";
   "true"; "false"; "yet"; "still"; "actually"; "already"].

(** [[A-Za-z0-9]{3,}] *)
Definition token3_re : regex :=
  let a := Chr Py.is_alnum in seqs [a; a; a; Star a].

(** The set of task tokens, as the list of its members. *)
Definition _task_domain_tokens (task_text : string) : list string :=
  if negb (Py.truthy task_text) then []
  else
    List.filter (fun tl => negb (Py.mem tl task_stop_words))
           (map Py.lower (findall token3_re task_text)).

(** [\b(not|no|never|false|yet|still|actually|really)\b],
    [\b(has\s+.*\s+launched|released)\b],
    [\b(is|are)\s+.*\b(out|launched|released)\b] *)
Definition negation_re : regex :=
  seqs [WordB;
        alts [lit "not"; lit "no"; lit "never"; lit "false"; lit "yet"; lit "still";
              lit "actually"; lit "really"];
        WordB].
Definition has_launched_re : regex :=
  seqs [WordB;
        Alt (seqs [lit "has"; spaces1; Star dot; spaces1; lit "launched"]) (lit "released");
        WordB].
Definition is_out_re : regex :=
  seqs [WordB; Alt (lit "is") (lit "are"); spaces1; Star dot; WordB;
        alts [lit "out"; lit "launched"; lit "released"]; WordB].

Definition _is_negative_claim_task (task_text : string) : bool :=
  if negb (Py.truthy task_text) then false
  else
    let t := Py.lower task_text in
    found negation_re t || found has_launched_re t || found is_out_re t.

(** [_is_official_domain] reads the hint set and the task tokens. *)
Definition _is_official_domain (hints : gset string) (tokens : list string)
    (domain : option string) : bool :=
  if negb (truthy_opt domain) then false
  else
    let d := default EmptyString (_normalize_domain domain) in
    if bool_decide (d ∈ hints) then true
    else if Py.endswith d ".gov" || Py.endswith d ".int" || Py.endswith d ".eu" then true
    else existsb (fun tok => Py.truthy tok && Py.contains tok d) tokens.

(** [https?://] followed by one or more characters other than whitespace,
    the two quote characters and the angle brackets. *)
Definition url_re : regex :=
  seqs [lit "http"; opt (chr "s"); lit "://";
        plus (Chr (fun c => negb (Py.is_space c || Ascii.eqb c "034" || Ascii.eqb c "'"
                                  || Ascii.eqb c "<" || Ascii.eqb c ">")))].

Definition _extract_urls (text : string) : list string :=
  if negb (Py.truthy text) then [] else findall url_re text.

Definition _extract_domain (url : string) : option string :=
  match Urllib.urlparse url with
  | Some parsed => _normalize_domain (Some (Urllib.netloc parsed))
  | None => None
  end.

Definition query_keys : list string :=
  ["q"; "query"; "search"; "s"; "text"; "keyword"; "term"].
Definition path_markers : list string :=
  ["/search/"; "/query/"; "/name/"; "/compound/name/"; "/wiki/"].

Fixpoint first_some {A B : Type} (f : A -> option B) (l : list A) : option B :=
  match l with
  | [] => None
  | x :: l' => match f x with Some b => Some b | None => first_some f l' end
  end.

Definition _extract_query_from_url (url : string) : option string :=
  match Urllib.urlparse url with
  | None => None
  | Some parsed =>
      let qs := Urllib.parse_qs (Urllib.query parsed) in
      match first_some (fun key => Urllib.qs_first key qs) query_keys with
      | Some v => Some (Urllib.unquote v)
      | None =>
          let path := Urllib.unquote (Urllib.path parsed) in
          first_some
            (fun marker =>
               match Py.split_once marker path with
               | Some (_, tail) =>
                   let tail := Py.strip_char "/" tail in
                   if Py.truthy tail && (Py.len tail <? 120)
                   then Some (Py.replace_char "_" " " tail) else None
               | None => None
               end)
            path_markers
      end
  end.

Definition query_stop_words : list string :=
  ["the"; "a"; "an"; "of"; "for"; "and"; "to"; "in"; "on"; "with"; "by"; "from"].

Definition is_lower_alnum (c : ascii) : bool := Py.is_lower c || Py.is_digit c.

(** [re.findall(r"[a-z0-9]+", q)]: the maximal runs of characters of the
    class, written as a direct scan. *)
Fixpoint runs_from (p : ascii -> bool) (s : string) (cur : string) : list string :=
  match s with
  | EmptyString => if Py.truthy cur then [Py.rev cur] else []
  | String c s' =>
      if p c then runs_from p s' (String c cur)
      else if Py.truthy cur then Py.rev cur :: runs_from p s' EmptyString
      else runs_from p s' EmptyString
  end.
Definition runs (p : ascii -> bool) (s : string) : list string :=
  runs_from p s EmptyString.


Definition _normalize_query (q : string) : string :=
  if negb (Py.truthy q) then EmptyString
  else
    let q := Py.lower (Urllib.unquote q) in
    let tokens := runs is_lower_alnum q in
    let tokens := List.filter (fun t => negb (Py.mem t query_stop_words)) tokens in
    Py.join " " tokens.

(** [\.pdf(\?|$)] under [re.I] *)
Definition pdf_re : regex := seqs [chr "."; lit_i "pdf"; Alt (chr "?") Eol].

Definition any_in (needles : list string) (d : string) : bool :=
  existsb (fun x => Py.contains x d) needles.

Definition _classify_source (hints : gset string) (tokens : list string)
    (url : option string) (domain : option string) : string :=
  if negb (truthy_opt domain) then "unknown"
  else
    let d := Py.lower (default EmptyString domain) in
    if _is_official_domain hints tokens (Some d) then "official"
    else if Py.endswith d ".gov" || Py.endswith d ".eu" || Py.endswith d ".int"
    then "regulatory"
    else if any_in ["pubchem"; "chemspider"; "drugbank"; "clinicaltrials"; "who.int"] d
    then "registry"
    else if any_in ["ncbi.nlm.nih.gov"; "nih.gov"; "pubmed"; "pmc"] d
    then "primary_literature"
    else if any_in ["arxiv.org"; "biorxiv.org"; "medrxiv.org"; "doi.org"] d
    then "primary_literature"
    else if any_in ["wikipedia.org"; "stackexchange.com"; "reddit.com"] d
    then "commentary"
    else if truthy_opt url && found pdf_re (default EmptyString url)
    then "primary_literature"
    else "commentary".

Definition _classify_move (m : Moves) (domain query_family : option string)
    (source_class : string) : string :=
  if negb (truthy_opt domain) && negb (truthy_opt query_family) then "non_search"
  else match last_domain m with
       | None => "initial"
       | Some _ =>
           if opt_eqb domain (last_domain m) then
             if truthy_opt query_family && opt_eqb query_family (last_query_family m)
             then "retry"
             else if truthy_opt query_family
                     && negb (opt_eqb query_family (last_query_family m))
             then "reformulate"
             else "same_domain"
           else if Py.truthy source_class && truthy_opt (last_source_class m)
                   && negb (opt_eqb (Some source_class) (last_source_class m))
           then "source_shift"
           else "domain_shift"
       end.

(** Lines 694-746: readers of the final-answer markers. *)

(** [\bSTATUS_UPDATE\s*:\s*(.+)] and [\bEVIDENCE_USED\s*:\s*(.+)], [re.I] *)
Definition marker_re (name : string) : regex :=
  seqs [WordB; lit_i name; spaces; chr ":"; spaces; Group (plus dot)].

Definition _extract_status_update (text : string) : option string :=
  if negb (Py.truthy text) then None
  else match re_search (marker_re "STATUS_UPDATE") text with
       | Some m => Some (Py.strip (default EmptyString (group1 m)))
       | None => None
       end.

(** [[,\s]+] *)
Definition comma_space_re : regex :=
  plus (Chr (fun c => Ascii.eqb c "," || Py.is_space c)).

Definition _extract_evidence_used (text : string) : list string :=
  if negb (Py.truthy text) then []
  else match re_search (marker_re "EVIDENCE_USED") text with
       | None => []
       | Some m =>
           let blob := Py.strip (default EmptyString (group1 m)) in
           match json_loads_list blob with
           | Some data => List.filter Py.truthy (map Py.strip data)
           | None => List.filter Py.truthy (split comma_space_re blob)
           end
       end.

Definition finalization_markers : list string :=
  ["final answer"; "final output"; "final deliverable"; "final deliverables";
   "final report"; "final summary"; "all the information i need";
   "complete final"; "deliverables as requested"].

Definition _finalization_intent (text : string) : bool :=
  if negb (Py.truthy text) then false
  else any_in finalization_markers (Py.lower text).

Definition final_keywords : list string :=
  ["final"; "deliverable"; "answer"; "summary"; "report"; "output"; "visual"; "stability"].

Definition _writes_final_like_file (cmd : string) : bool :=
  if negb (Py.truthy cmd) then false
  else
    let c := Py.lower cmd in
    if negb (Py.contains ">" c) && negb (Py.contains "tee" c) then false
    else if negb (Py.contains "/work" c) && negb (Py.contains "cd /work" c) then false
    else any_in final_keywords c.

(* ===================================================================== *)
(** * src/agent/loop.py: effects                                          *)
(* ===================================================================== *)

(** How a piece of [run_agent] ends: it falls through with a value, it
    makes [run_agent] return a string, or an exception escapes. *)
Inductive Ctl (A : Type) : Type :=
| Next (a : A)
| Return (s : string)
| Raise (e : Tools.exn).
Arguments Next {A} a.
Arguments Return {A} s.
Arguments Raise {A} e.

Definition M (A : Type) : Type := LoopState -> Ctl A * LoopState.

Definition ret {A : Type} (a : A) : M A := fun st => (Next a, st).
Definition bind {A B : Type} (c : M A) (k : A -> M B) : M B :=
  fun st =>
    match c st with
    | (Next a, st') => k a st'
    | (Return s, st') => (Return s, st')
    | (Raise e, st') => (Raise e, st')
    end.
Definition modify (f : LoopState -> LoopState) : M unit := fun st => (Next tt, f st).
Definition gets {A : Type} (f : LoopState -> A) : M A := fun st => (Next (f st), st).
Definition return_ {A : Type} (s : string) : M A := fun st => (Return s, st).
Definition lift {A : Type} (f : LoopState -> A * LoopState) : M A :=
  fun st => let '(a, st') := f st in (Next a, st').
Definition when (b : bool) (c : M unit) : M unit := if b then c else ret tt.

Declare Scope loop_scope.
Delimit Scope loop_scope with loop.
Notation "x <- c ;; k" := (bind c (fun x => k))
  (at level 100, c at next level, right associativity) : loop_scope.
Notation "c ;; k" := (bind c (fun _ => k))
  (at level 100, right associativity) : loop_scope.
Local Open Scope loop_scope.

Fixpoint for_each {A : Type} (f : A -> M unit) (l : list A) : M unit :=
  match l with
  | [] => ret tt
  | x :: l' => f x ;; for_each f l'
  end.

Definition nl : string := Py.nl.

Definition trace_event (ev : TraceEvent) : LoopState -> LoopState :=
  upd_ledgers (fun l => set_trace (trace l ++ [ev]) l).
Definition history_append (r text : string) : LoopState -> LoopState :=
  fun st => set_history (history st ++ [{| role := r; content := text |}]) st.

(** [runtime_shell]: a shell command of the supervisor itself, traced with
    scope "runtime" and step 0.  An exception of the tool belt escapes. *)
Definition runtime_shell (cmd : string) : M Obs :=
  fun st =>
    match Tools.shell cmd (sys st) with
    | (inl e, sys') => (Raise e, set_sys sys' st)
    | (inr obs, sys') =>
        (Next obs,
         trace_event (EvTool (Some "runtime") (Some 0) "shell" {[ "cmd" := cmd ]} obs)
                     (set_sys sys' st))
    end.

Definition notes_script (b64 : string) (write_lines : list string) : string :=
  Py.join nl
    (["python3 - <<'PY'";
      "import base64";
      "from pathlib import Path";
      "data = base64.b64decode('" +:+ b64 +:+ "').decode('utf-8', errors='replace')";
      "p = Path('/work/notes.md')";
      "p.parent.mkdir(parents=True, exist_ok=True)"]
     ++ write_lines ++ ["print('OK')"; "PY"]).

Definition notes_reset (text : string) : M unit :=
  runtime_shell
    (notes_script (b64encode text)
       ["p.write_text(data, encoding='utf-8', errors='replace')"]) ;;
  ret tt.

(** The command [notes_append] runs. *)
Definition append_script (text : string) : string :=
  notes_script (b64encode text)
    ["with p.open('a', encoding='utf-8', errors='replace') as f:";
     "    f.write(data)"].

Definition notes_append (text : string) : M unit :=
  runtime_shell (append_script text) ;;
  ret tt.

Definition init_ledgers_script : string :=
  Py.join nl
    ["python3 - <<'PY'";
     "from pathlib import Path";
     "for name in ('evidence.jsonl','move_ledger.jsonl','query_ledger.jsonl'):";
     "    p = Path('/work') / name";
     "    if not p.exists():";
     "        p.write_text('', encoding='utf-8', errors='replace')";
     "print('OK')";
     "PY"].

Definition MAX_MODEL_NOTE_CHARS : nat := 6 * 1000.

Definition log_model_output (step : nat) (resp_text tag : string) : M unit :=
  if negb (Py.truthy resp_text) then ret tt
  else
    let snippet := Py.strip resp_text in
    let snippet :=
      if MAX_MODEL_NOTE_CHARS <? Py.len snippet
      then Py.take MAX_MODEL_NOTE_CHARS snippet +:+ nl +:+ "... [truncated]"
      else snippet in
    notes_append (nl +:+ nl +:+ "## Step " +:+ Py.str_nat step +:+ " (model_output:"
                  +:+ tag +:+ ")" +:+ nl +:+ snippet +:+ nl).

(** [_clip_text(text, max_chars)] *)
Definition _clip_text (text : string) (max_chars : nat) : string :=
  if Py.len text <=? max_chars then text
  else Py.take max_chars text +:+ "...[truncated "
       +:+ Py.str_nat (Py.len text - max_chars) +:+ " chars]".

(** ** record_evidence *)

(** [\b(403|forbidden|access denied|captcha|cloudflare)\b],
    [\b(401|unauthorized)\b], [\b(429|rate limit|too many requests)\b],
    all under [re.I] *)
Definition access_blocked_re : regex :=
  seqs [WordB;
        alts [lit "403"; lit_i "forbidden"; lit_i "access denied"; lit_i "captcha";
              lit_i "cloudflare"];
        WordB].
Definition auth_required_re : regex :=
  seqs [WordB; Alt (lit "401") (lit_i "unauthorized"); WordB].
Definition rate_limited_re : regex :=
  seqs [WordB; alts [lit "429"; lit_i "rate limit"; lit_i "too many requests"]; WordB].

(** [a or b] on strings *)
Definition or_str (a b : string) : string := if Py.truthy a then a else b.

(** The [failure_type] that [record_evidence] derives; empty for none. *)
Definition classify_failure (tl cmd : string) (obs : Obs) : string :=
  let out := default EmptyString (output obs) in
  let etype := default EmptyString (error_type obs) in
  let emsg := default EmptyString (error obs) in
  let ft :=
    if Py.startswith etype "notes_" then EmptyString
    else if Py.truthy etype || Py.truthy emsg then or_str etype "tool_error"
    else match exit_code obs with
         | Some z => if (z =? 0)%Z then EmptyString else "tool_error"
         | None => EmptyString
         end in
  if String.eqb tl "shell" && Py.truthy cmd then
    let ft := if found access_blocked_re out then or_str ft "access_blocked" else ft in
    let ft := if found auth_required_re out then or_str ft "auth_required" else ft in
    let ft := if found rate_limited_re out then or_str ft "rate_limited" else ft in
    if (Py.contains "curl" cmd || Py.contains "wget" cmd) && negb (Py.truthy (Py.strip out))
    then or_str ft "empty_response" else ft
  else ft.

Definition opt_of_str (s : string) : option string :=
  if Py.truthy s then Some s else None.

Definition evidence_id (n : nat) : string := "ev_" +:+ Py.zfill 4 n.
Definition move_id (n : nat) : string := "mv_" +:+ Py.zfill 4 n.
Definition query_id (n : nat) : string := "q_" +:+ Py.zfill 4 n.

(** The line [record_evidence] writes to evidence.jsonl. *)
Definition new_evidence (step : nat) (tl : string) (a : Args) (obs : Obs)
    (st : LoopState) : Evidence :=
  let cmd := if String.eqb tl "shell" then args_cmd a else EmptyString in
  let out := default EmptyString (output obs) in
  {| ev_id := evidence_id (S (evidence_counter (ledgers st)));
     ev_step := step; ev_tool := tl; ev_args := a;
     ev_obs := {| eo_exit_code := exit_code obs;
                  eo_error_type := error_type obs;
                  eo_error := error obs;
                  eo_output := _clip_text out 2000 |};
     ev_urls := firstn 20 (_extract_urls (cmd +:+ nl +:+ out));
     ev_failure_type := opt_of_str (classify_failure tl cmd obs) |}.

(** [record_evidence(step, tool, args, obs)]: bumps the counter, updates
    the failure streak and the epistemic state, appends one line to
    evidence.jsonl and returns the new id. *)
Definition record_evidence (step : nat) (tl : string) (a : Args) (obs : Obs)
    (st : LoopState) : string * LoopState :=
  let n := S (evidence_counter (ledgers st)) in
  let id := evidence_id n in
  let cmd := if String.eqb tl "shell" then args_cmd a else EmptyString in
  let failure_type := classify_failure tl cmd obs in
  let st1 :=
    if Py.truthy failure_type then
      let st' :=
        if opt_eqb (Some failure_type) (last_failure_type st)
        then set_last_failure_streak (S (last_failure_streak st)) st
        else set_last_failure_streak 1 (set_last_failure_type (Some failure_type) st) in
      let detail :=
        if Py.truthy cmd then failure_type +:+ ": " +:+ Py.take 200 cmd
        else failure_type in
      upd_epistemic (fun e => set_status BLOCKED (add_blocked detail e)) st'
    else set_last_failure_streak 0 (set_last_failure_type None st) in
  (id,
   upd_ledgers
     (fun l =>
        set_evidence_ids ({[ id ]} ∪ evidence_ids l)
          (set_evidence (evidence l ++ [new_evidence step tl a obs st])
             (set_evidence_counter n l)))
     st1).

(** The derived dimensions of one call (lines 1182-1191). *)
Record Dims := {
  d_cmd : string;
  d_notes_mode : option NotesMode;
  d_url : option string;
  d_domain : option string;
  d_query : option string;
  d_query_family : option string;
  d_source_class : string;
  d_move_type : string;
  d_move_sig : string }.

Definition record_move (step : nat) (tl : string) (d : Dims)
    (failure_type : option string) (outcome : string) (st : LoopState) : LoopState :=
  upd_ledgers
    (fun l =>
       let n := S (move_counter l) in
       set_move_ledger
         (move_ledger l ++
          [{| mv_id := move_id n; mv_step := step; mv_tool := tl; mv_cmd := d_cmd d;
              mv_url := d_url d; mv_domain := d_domain d; mv_query := d_query d;
              mv_query_family := d_query_family d;
              mv_source_class := d_source_class d; mv_move_type := d_move_type d;
              mv_move_sig := d_move_sig d; mv_failure_type := failure_type;
              mv_outcome := outcome |}])
         (set_move_counter n l))
    st.

Definition record_query (step : nat) (d : Dims) (outcome : string)
    (st : LoopState) : LoopState :=
  upd_ledgers
    (fun l =>
       let n := S (query_counter l) in
       set_query_ledger
         (query_ledger l ++
          [{| q_id := query_id n; q_step := step; q_url := d_url d;
              q_domain := d_domain d; q_query := d_query d;
              q_query_family := d_query_family d;
              q_source_class := d_source_class d; q_move_type := d_move_type d;
              q_outcome := outcome |}])
         (set_query_counter n l))
    st.

(* ===================================================================== *)
(** * src/agent/loop.py: the tool branch                                  *)
(* ===================================================================== *)

Definition negative_claim_task (cfg : Config) : bool :=
  _is_negative_claim_task (task cfg).
Definition task_domain_tokens (cfg : Config) : list string :=
  _task_domain_tokens (task cfg).

Definition is_shell (call : ToolCall) : bool := String.eqb (tool call) "shell".

(** Lines 1182-1191: classification of a call before any gate. *)
Definition dims_of (cfg : Config) (st : LoopState) (call : ToolCall) : Dims :=
  let cmd := args_cmd (args call) in
  let notes_mode := if is_shell call then _notes_write_mode cmd else None in
  let urls := if is_shell call then _extract_urls cmd else [] in
  let primary_url := head urls in
  let domain := match primary_url with Some u => _extract_domain u | None => None end in
  let query :=
    match primary_url with Some u => _extract_query_from_url u | None => None end in
  let query_family :=
    if truthy_opt query then Some (_normalize_query (default EmptyString query))
    else None in
  let source_class :=
    _classify_source (official_domain_hints (domains st)) (task_domain_tokens cfg)
                     primary_url domain in
  let move_type := _classify_move (moves st) domain query_family source_class in
  {| d_cmd := cmd; d_notes_mode := notes_mode; d_url := primary_url;
     d_domain := domain; d_query := query; d_query_family := query_family;
     d_source_class := source_class; d_move_type := move_type;
     d_move_sig := move_type +:+ ":" +:+ or_dash domain +:+ ":" +:+ or_dash query_family |}.

Definition observation_text (tl : string) (obs : Obs) : string :=
  "OBSERVATION:" +:+ nl +:+ Py.take (12 * 1000) (json_dumps_tool_obs tl obs).

Definition step_block (step : nat) (tl : string) (a : Args) (obs : Obs) (id : string)
  : string :=
  nl +:+ nl +:+ "## Step " +:+ Py.str_nat step +:+ nl
  +:+ "TOOL: " +:+ tl +:+ nl
  +:+ "ARGS: " +:+ json_dumps_args a +:+ nl
  +:+ "OBS: " +:+ Py.take 2000 (json_dumps_obs obs) +:+ nl
  +:+ "EVIDENCE_ID: " +:+ id +:+ nl.

(** The three assignments that end the handling of every call. *)
Definition tool_seen (st : LoopState) : LoopState :=
  upd_counters
    (fun c => set_last_evidence_count (size (evidence_ids (ledgers st)))
                (set_stagnation_streak 0 c))
    (upd_flags (set_force_tool_next false) st).

Definition bump_tool_calls : LoopState -> LoopState :=
  upd_counters (fun c => set_tool_calls_made (S (tool_calls_made c)) c).

(** The common shape of the four policy blocks: the synthesized
    observation goes to the history, the trace and the evidence ledger,
    [ledger_writes] adds the move and query records of the gates that keep
    them, and the step block is appended to notes.md.  The command of the
    call is not dispatched. *)
Definition block_call (step : nat) (call : ToolCall) (obs : Obs) (policy : string)
    (ledger_writes : LoopState -> LoopState) (after : LoopState -> LoopState)
  : M unit :=
  modify (trace_event (EvPolicy policy step)) ;;
  modify (history_append "user" (observation_text (tool call) obs)) ;;
  modify (trace_event (EvTool None (Some step) (tool call) (args call) obs)) ;;
  ev <- lift (record_evidence step (tool call) (args call) obs) ;;
  modify ledger_writes ;;
  modify bump_tool_calls ;;
  notes_append (step_block step (tool call) (args call) obs ev) ;;
  modify after ;;
  modify tool_seen.

Definition blocked_obs (msg etype : string) : Obs :=
  {| exit_code := None; output := None; obs_cwd := None;
     error := Some msg; error_type := Some etype; hint := None |}.

Definition notes_overwrite_obs : Obs :=
  blocked_obs "Action Blocked: Overwriting notes.md is not allowed. Use append (>> or tee -a)."
              "notes_overwrite_blocked".
Definition notes_update_obs : Obs :=
  blocked_obs "Action Blocked: You must update notes.md first (append-only)."
              "notes_update_required".
Definition query_mutation_obs (cfg : Config) (seen : nat) : Obs :=
  blocked_obs
    ("Action Blocked: query mutation required before retrying. Need "
     +:+ Py.str_nat (QUERY_MUTATION_BUDGET cfg) +:+ " distinct query families; seen "
     +:+ Py.str_nat seen +:+ ".")
    "query_mutation_required".
Definition domain_shift_obs : Obs :=
  blocked_obs
    "Action Blocked: domain shift required for negative-claim tasks. Use a different domain to meet official/independent source minimums."
    "domain_shift_required".

(** The dispatch of an accepted call (lines 1403-1416). *)
Definition execute_tool (call : ToolCall) : M Obs :=
  fun st =>
    if negb (is_shell call) then
      (Next {| exit_code := None; output := None; obs_cwd := None;
               error := Some ("Unknown tool (shell-only mode): " +:+ tool call);
               error_type := None;
               hint := Some "Use the shell tool only. If you need the internet, do it from the shell." |},
       st)
    else
      let c := args_cmd (args call) in
      match Tools.shell c (sys st) with
      | (inl e, sys') =>
          (Next (blocked_obs (Tools.exn_str e) (Tools.exn_class e)), set_sys sys' st)
      | (inr obs, sys') =>
          let quoting :=
            negb (match exit_code obs with Some z => (z =? 0)%Z | None => false end)
            && Py.contains "echo" c && Py.contains "'" c
            && Py.contains "command not found" (default EmptyString (output obs)) in
          let obs' :=
            if quoting then
              {| exit_code := exit_code obs; output := output obs; obs_cwd := obs_cwd obs;
                 error := error obs; error_type := error_type obs;
                 hint := Some "Check your quotes. You might have an unescaped single quote inside a single-quoted string." |}
            else obs in
          (Next obs', set_sys sys' st)
      end.

(** [deque.append] on a deque of the given [maxlen]. *)
Definition deque_append (maxlen : nat) (x : string) (q : list string) : list string :=
  let q' := q ++ [x] in
  if maxlen <? List.length q' then List.tl q' else q'.

(** Lines 1460-1474: domain tallies and the same-domain streak. *)
Definition update_domains (cfg : Config) (d : Dims) (st : LoopState) : LoopState :=
  if negb (truthy_opt (d_domain d)) then st
  else
    let key := default EmptyString (d_domain d) in
    let dm := domains st in
    let attempts := <[ key := S (default 0 (domain_attempts dm !! key)) ]> (domain_attempts dm) in
    let hints :=
      if negative_claim_task cfg && negb (_is_search_domain (Some key))
         && bool_decide (official_domain_hints dm = ∅)
      then {[ key ]} ∪ official_domain_hints dm
      else official_domain_hints dm in
    let is_official :=
      _is_official_domain hints (task_domain_tokens cfg) (Some key)
      || Py.mem (d_source_class d) ["official"; "regulatory"; "registry"] in
    let official :=
      if is_official then {[ key ]} ∪ official_domains_checked dm
      else official_domains_checked dm in
    let independent :=
      if negb is_official && negb (_is_search_domain (Some key))
      then {[ key ]} ∪ independent_domains_checked dm
      else independent_domains_checked dm in
    let st1 :=
      set_domains
        {| official_domain_hints := hints; official_domains_checked := official;
           independent_domains_checked := independent; domain_attempts := attempts |}
        st in
    let st2 :=
      if opt_eqb (last_domain_key (moves st)) (Some key)
      then upd_moves (fun m => set_domain_same_streak (S (domain_same_streak m)) m) st1
      else upd_flags (set_force_domain_shift false)
             (upd_moves (set_domain_same_streak 0) st1) in
    upd_moves (set_last_domain_key (Some key)) st2.

(** Lines 1475-1477. *)
Definition update_queries (cfg : Config) (d : Dims) (st : LoopState) : LoopState :=
  let qf := default EmptyString (d_query_family d) in
  if truthy_opt (d_query_family d) && negb (Py.mem qf (recent_query_families (moves st)))
  then
    upd_flags (set_force_query_mutation false)
      (upd_moves
         (fun m =>
            set_recent_query_families
              (deque_append (Nat.max (QUERY_MUTATION_BUDGET cfg) 1) qf
                            (recent_query_families m)) m)
         st)
  else st.

(** Lines 1478-1488. *)
Definition update_moves (d : Dims) (st : LoopState) : LoopState :=
  let m := moves st in
  let st1 :=
    if opt_eqb (Some (d_move_sig d)) (last_move_sig m)
       && opt_eqb (Some (d_move_type d)) (last_move_type m)
    then upd_moves (set_move_repeat_streak (S (move_repeat_streak m))) st
    else upd_flags (set_force_move_change false) (upd_moves (set_move_repeat_streak 0) st) in
  let st2 :=
    if truthy_opt (d_domain d) then upd_moves (set_last_domain (d_domain d)) st1 else st1 in
  let st3 :=
    if truthy_opt (d_query_family d)
    then upd_moves (set_last_query_family (d_query_family d)) st2 else st2 in
  upd_moves (fun m => set_last_move_type (Some (d_move_type d))
                        (set_last_move_sig (Some (d_move_sig d)) m)) st3.

(** Lines 1489-1501. *)
Definition update_source (cfg : Config) (d : Dims) (failure_type : option string)
    (st : LoopState) : LoopState :=
  let sc := d_source_class d in
  if negb (Py.truthy sc) then st
  else
    let m := moves st in
    let failed := truthy_opt failure_type in
    let streak :=
      if opt_eqb (last_source_class m) (Some sc) && failed
      then S (source_class_failure_streak m) else 0 in
    let st1 := upd_moves (set_source_class_failure_streak streak) st in
    let st2 :=
      if (FAILURE_ESCALATION_LIMIT cfg <=? streak) && failed
      then upd_epistemic
             (add_constraint ("Source class stalled: " +:+ sc +:+ " failed "
                              +:+ Py.str_nat streak +:+ " times"))
             (upd_flags (set_force_source_shift true) st1)
      else st1 in
    let st3 :=
      if negb (opt_eqb (Some sc) (last_source_class m))
      then upd_flags (set_force_source_shift false) st2 else st2 in
    upd_moves (set_last_source_class (Some sc)) st3.

(** Lines 1502-1506. *)
Definition update_move_change (cfg : Config) (d : Dims) (st : LoopState) : LoopState :=
  if status_eqb (status (epistemic st)) UNRESOLVED
     && (MOVE_REPEAT_LIMIT cfg <=? move_repeat_streak (moves st))
  then upd_epistemic
         (add_constraint ("Move stagnation: repeated " +:+ d_move_type d +:+ " "
                          +:+ Py.str_nat (move_repeat_streak (moves st)) +:+ " times"))
         (upd_flags (set_force_move_change true) st)
  else st.

(** Lines 1403-1523: an accepted call is dispatched and recorded. *)
Definition run_call (cfg : Config) (step : nat) (resp : string) (call : ToolCall)
    (d : Dims) : M unit :=
  obs <- execute_tool call ;;
  modify (history_append "user" (observation_text (tool call) obs)) ;;
  modify (trace_event (EvTool None (Some step) (tool call) (args call) obs)) ;;
  ev <- lift (record_evidence step (tool call) (args call) obs) ;;
  modify bump_tool_calls ;;
  failure_type <- gets last_failure_type ;;
  let outcome := if truthy_opt failure_type then "failed" else "ok" in
  modify (record_move step (tool call) d failure_type outcome) ;;
  when (truthy_opt (d_query_family d)) (modify (record_query step d outcome)) ;;
  required <- gets (fun st => notes_required (flags st)) ;;
  when (required && is_shell call && is_append (d_notes_mode d))
       (modify (upd_flags (set_notes_required false))) ;;
  notes_append (step_block step (tool call) (args call) obs ev) ;;
  modify (update_domains cfg d) ;;
  modify (update_queries cfg d) ;;
  modify (update_moves d) ;;
  modify (update_source cfg d failure_type) ;;
  modify (update_move_change cfg d) ;;
  modify tool_seen ;;
  if is_shell call && _finalization_intent resp
     && _writes_final_like_file (args_cmd (args call))
  then
    modify (upd_counters (fun c => set_finalization_hits (S (finalization_hits c)) c)) ;;
    modify (trace_event (EvPolicy "policy_finalization_stop" step)) ;;
    hits <- gets (fun st => finalization_hits (counters st)) ;;
    if 3 <=? hits
    then return_ "Final deliverables appear to be written under /work. Stopping to prevent a tool loop."
    else ret tt
  else ret tt.

(** The minima of a negative-claim task are not both met. *)
Definition minima_unmet (cfg : Config) (st : LoopState) : bool :=
  (size (official_domains_checked (domains st)) <? NEGATIVE_CLAIM_MIN_OFFICIAL cfg)
  || (size (independent_domains_checked (domains st)) <? NEGATIVE_CLAIM_MIN_INDEPENDENT cfg).

(** Lines 1331-1337: the same-domain streak raises [force_domain_shift]. *)
Definition raise_domain_shift (cfg : Config) (d : Dims) (st : LoopState) : LoopState :=
  if negative_claim_task cfg && truthy_opt (d_domain d)
     && opt_eqb (last_domain_key (moves st)) (d_domain d)
     && (DOMAIN_SHIFT_LIMIT cfg <=? domain_same_streak (moves st))
     && minima_unmet cfg st
  then upd_flags (set_force_domain_shift true) st
  else st.

(** The gate that decides a call, in the order of the source: the two
    notes guards (lines 1193 and 1230), the query-mutation budget (line
    1267), the negative-claim domain shift (line 1339), else dispatch. *)
Inductive Gate :=
| GNotesOverwrite | GNotesRequired | GQueryMutation | GDomainShift | GRun.

Definition gate_of (cfg : Config) (call : ToolCall) (d : Dims) (st : LoopState) : Gate :=
  let recent := recent_query_families (moves st) in
  if is_shell call && is_overwrite (d_notes_mode d) then GNotesOverwrite
  else if notes_required (flags st) && is_shell call && negb (is_append (d_notes_mode d))
  then GNotesRequired
  else if is_shell call && truthy_opt (d_query_family d)
          && Py.mem (default EmptyString (d_query_family d)) recent
          && (List.length recent <? QUERY_MUTATION_BUDGET cfg)
  then GQueryMutation
  else if negative_claim_task cfg
          && force_domain_shift (flags (raise_domain_shift cfg d st))
          && truthy_opt (d_domain d)
          && opt_eqb (last_domain_key (moves st)) (d_domain d)
  then GDomainShift
  else GRun.

(** The call is not stopped by one of the three gates that precede the
    domain-shift gate. *)
Definition passes_earlier_gates (cfg : Config) (call : ToolCall) (d : Dims)
    (st : LoopState) : bool :=
  let recent := recent_query_families (moves st) in
  negb (is_shell call && is_overwrite (d_notes_mode d))
  && negb (notes_required (flags st) && is_shell call && negb (is_append (d_notes_mode d)))
  && negb (is_shell call && truthy_opt (d_query_family d)
           && Py.mem (default EmptyString (d_query_family d)) recent
           && (List.length recent <? QUERY_MUTATION_BUDGET cfg)).

(** Lines 1151-1180: a pending gradient is dropped at the first call. *)
Definition drop_gradient (step : nat) (st : LoopState) : LoopState :=
  match pending_gradient st with
  | Some _ =>
      upd_counters (set_gradient_reminders 0)
        (set_pending_gradient None (trace_event (EvPolicy "policy_choice" step) st))
  | None => st
  end.

(** Lines 1147-1523: one iteration of [for call in tool_calls]. *)
Definition process_call (cfg : Config) (step : nat) (resp : string) (call : ToolCall)
  : M unit :=
  modify (drop_gradient step) ;;
  d <- gets (fun st => dims_of cfg st call) ;;
  g <- gets (gate_of cfg call d) ;;
  match g with
  | GNotesOverwrite =>
      block_call step call notes_overwrite_obs "policy_notes_guard" id id
  | GNotesRequired =>
      block_call step call notes_update_obs "policy_notes_gate" id id
  | GQueryMutation =>
      seen <- gets (fun st => List.length (recent_query_families (moves st))) ;;
      block_call step call (query_mutation_obs cfg seen) "policy_query_mutation"
        (fun st => record_query step d "blocked"
                     (record_move step (tool call) d (last_failure_type st) "blocked" st))
        (upd_flags (set_force_query_mutation true))
  | GDomainShift =>
      modify (raise_domain_shift cfg d) ;;
      block_call step call domain_shift_obs "policy_domain_shift"
        (fun st =>
           let st' := record_move step (tool call) d (last_failure_type st) "blocked" st in
           if truthy_opt (d_query_family d) then record_query step d "blocked" st' else st')
        id
  | GRun =>
      modify (raise_domain_shift cfg d) ;;
      run_call cfg step resp call d
  end.

(* ===================================================================== *)
(** * src/agent/loop.py: the no-tool branch and the main loop             *)
(* ===================================================================== *)

(** What the model returns for one turn: the response text, its finish
    reason, the calls [_extract_tool_calls] finds in it, the result of
    [parse_with_thought] (read only when no call was found), and what the
    model-driven stages of the verifier produce if it is invoked.  The
    prompt assembled by [build_context] only reaches the model and is not
    part of the state. *)
Record ModelTurn := {
  resp : string;
  finish_reason : option string;
  extracted : list ToolCall;
  parsed : AgentOutput;
  verifier_run : Verifier.VerifierRun }.

(** One tool call of a verification mini-agent: it runs on the same tool
    belt, exceptions become observations. *)
Definition mini_step (ms : Verifier.MiniStep) : M unit :=
  fun st =>
    let '(obs, sys') :=
      if negb (String.eqb (Verifier.ms_tool ms) "shell") then
        ({| exit_code := None; output := None; obs_cwd := None;
            error := Some ("Tool not allowed in verifier (shell-only mode): "
                           +:+ Verifier.ms_tool ms);
            error_type := None;
            hint := Some "Use the shell tool only. If you need the internet, do it from the shell." |},
         sys st)
      else
        match Tools.shell (Py.strip (args_cmd (Verifier.ms_args ms))) (sys st) with
        | (inl e, sys') => (blocked_obs (Tools.exn_str e) (Tools.exn_class e), sys')
        | (inr obs, sys') => (obs, sys')
        end in
    let st' := set_sys sys' st in
    (Next tt,
     if Verifier.ms_traced ms
     then trace_event (EvTool (Some "verifier") None (Verifier.ms_tool ms)
                              (Verifier.ms_args ms) obs) st'
     else st').

(** The call of [deep_verify] from the loop. *)
Definition deep_verify (cfg : Config) (answer : string) (run : Verifier.VerifierRun)
  : M Verifier.VerifierDecision :=
  for_each mini_step (Verifier.vr_steps run) ;;
  ret (Verifier.deep_verify (task cfg) answer run).

(** Lines 956-978: the citation contract on a no-tool response. *)
Definition contract_status (resp : string) (e : EpistemicState) : EpistemicState :=
  match _extract_status_update resp with
  | Some (String c su) =>
      let status_update := String c su in
      let u := Py.upper status_update in
      if Py.contains "UNRESOLVED" u
      then add_unresolved status_update (set_status UNRESOLVED e)
      else if Py.contains "BLOCKED" u
      then add_blocked status_update (set_status BLOCKED e)
      else if Py.contains "VERIFIED" u
              && match constraints e with [] => true | _ => false end
      then set_verified e
      else e
  | _ => add_constraint "Missing STATUS_UPDATE" (set_status UNRESOLVED e)
  end.

Definition contract_evidence (resp : string) (ids : gset string) (e : EpistemicState)
  : EpistemicState :=
  match _extract_evidence_used resp with
  | [] => add_constraint "Missing EVIDENCE_USED" (set_status UNRESOLVED e)
  | evidence_used =>
      match List.filter (fun x => negb (bool_decide (x ∈ ids))) evidence_used with
      | [] => e
      | missing =>
          add_constraint ("Unknown EVIDENCE_USED ids: " +:+ Py.join ", " missing)
                         (set_status UNRESOLVED e)
      end
  end.

Definition enforce_contract (resp : string) (st : LoopState) : LoopState :=
  upd_epistemic
    (fun e => contract_evidence resp (evidence_ids (ledgers st)) (contract_status resp e))
    st.

(** Lines 979-985. *)
Definition negative_claim_exhausted (cfg : Config) (step : nat) (st : LoopState)
  : LoopState :=
  if negative_claim_task cfg && (negative_claim_budget_steps cfg <=? step)
     && (NEGATIVE_CLAIM_MIN_OFFICIAL cfg <=? size (official_domains_checked (domains st)))
     && (NEGATIVE_CLAIM_MIN_INDEPENDENT cfg
         <=? size (independent_domains_checked (domains st)))
  then upd_epistemic
         (fun e => add_unresolved "negative_claim_evidence_exhausted"
                     (set_status UNRESOLVED e)) st
  else st.

(** Lines 986-1008: the stagnation detector. *)
Definition stagnation (cfg : Config) (step : nat) (st : LoopState) : LoopState :=
  let streak :=
    if status_eqb (status (epistemic st)) UNRESOLVED
       && (size (evidence_ids (ledgers st)) =? last_evidence_count (counters st))
    then S (stagnation_streak (counters st)) else 0 in
  let st1 := upd_counters (set_stagnation_streak streak) st in
  if (STAGNATION_LIMIT cfg <=? streak) && negb (force_tool_next (flags st1))
  then trace_event (EvPolicy "policy_stagnation" step)
         (upd_epistemic
            (add_constraint ("Stagnation: no new evidence for " +:+ Py.str_nat streak
                             +:+ " consecutive turns"))
            (upd_flags (set_force_tool_next true) st1))
  else st1.

(** [str(x)] for the items of the gradient lists. *)
Definition wrong_item (w : json) : string :=
  match w with
  | JObj d =>
      let item := Json.get "item" d in
      let why := Json.get "why" d in
      py_str (if Json.truthy item then item
              else if Json.truthy why then why else JStr EmptyString)
  | _ => py_str w
  end.

Definition list_or_nil (v : json) : list json :=
  if Json.truthy v then match v with JList l => l | _ => [] end else [].

(** Lines 1112-1129: a non-empty gradient is kept for the next turns and
    its findings become constraints. *)
Definition absorb_gradient (step : nat) (decision : Verifier.VerifierDecision)
    (st : LoopState) : LoopState :=
  match Verifier.gradient (Verifier.meta decision) with
  | Some (kv :: g) =>
      let grad := kv :: g in
      let st1 :=
        trace_event (EvVerifierGradient step grad)
          (upd_counters (set_gradient_reminders 0)
             (set_pending_gradient (Some grad) st)) in
      if (Verifier.score decision <? 3)%Z then
        upd_epistemic
          (fun e =>
             fold_left (fun e w => add_constraint (wrong_item w) e)
               (list_or_nil (Json.get "wrong" grad))
               (fold_left (fun e m => add_constraint (py_str m) e)
                  (list_or_nil (Json.get "missing" grad))
                  (set_status UNRESOLVED e)))
          st1
      else st1
  | _ => st
  end.

(** Lines 1081-1089. *)
Definition absorb_low_score (decision : Verifier.VerifierDecision) (st : LoopState)
  : LoopState :=
  if (Verifier.score decision <? 3)%Z then
    upd_epistemic
      (fun e =>
         fold_left (fun e r => add_unresolved r e)
           (default [] (Verifier.cap_reasons (Verifier.meta decision)))
           (fold_left (fun e ins => add_constraint ins e)
              (firstn 5 (Verifier.instructions decision))
              (set_status UNRESOLVED e)))
      st
  else st.

Definition budget_message : string :=
  "Verifier could not confirm correctness within the verification budget. See /work/trace.jsonl and /work/notes.md."
  +:+ nl +:+ nl.

(** Lines 1063-1139: the verifier is invoked and its decision applied. *)
Definition verify_turn (cfg : Config) (step : nat) (mt : ModelTurn)
    (answer_text : string) : M unit :=
  modify (upd_counters (fun c => set_verifier_rounds (S (verifier_rounds c)) c)) ;;
  decision <- deep_verify cfg answer_text (verifier_run mt) ;;
  modify (trace_event (EvVerifier step decision)) ;;
  modify (absorb_low_score decision) ;;
  if (3 <=? Verifier.score decision)%Z then
    modify (upd_epistemic set_verified) ;;
    return_ (resp mt)
  else
    rounds <- gets (fun st => verifier_rounds (counters st)) ;;
    if max_verifier_rounds cfg <=? rounds then
      modify (upd_epistemic
                (fun e => add_unresolved "verification_budget_exhausted"
                            (set_status UNRESOLVED e))) ;;
      return_ (budget_message +:+ resp mt)
    else
      let feedback := Verifier.format_verifier_feedback decision in
      modify (trace_event (EvVerifierToAgent step (Verifier.score decision)
                             (Py.take (20 * 1000) feedback))) ;;
      modify (absorb_gradient step decision) ;;
      modify (history_append "assistant" (resp mt)) ;;
      modify (history_append "user" feedback) ;;
      n <- gets (fun st => List.length (history st)) ;;
      modify (trace_event (EvAgentFromVerifier step n)).

(** The state in which [verify_turn] tests the score and the budget: the
    round is counted, the mini-agents have run, the verifier event is
    written and a low score has left its instructions. *)
Definition judged_state (cfg : Config) (step : nat) (mt : ModelTurn)
    (answer_text : string) (st : LoopState) : LoopState :=
  let decision := Verifier.deep_verify (task cfg) answer_text (verifier_run mt) in
  absorb_low_score decision
    (trace_event (EvVerifier step decision)
       (snd (deep_verify cfg answer_text (verifier_run mt)
               (upd_counters (fun c => set_verifier_rounds (S (verifier_rounds c)) c) st)))).

Definition is_length (mt : ModelTurn) : bool :=
  opt_eqb (finish_reason mt) (Some "length").

(** [answer_text] of line 951: a [final] payload is preferred. *)
Definition answer_text (mt : ModelTurn) : string :=
  match tool_args (parsed mt) with
  | Some a => if truthy_opt (a !! "final") then default EmptyString (a !! "final")
              else resp mt
  | None => resp mt
  end.

(** Lines 979-1139: what follows the citation contract in a no-tool turn:
    negative-claim exhaustion, stagnation, the pre-tool gate, the length
    nudge and the verifier. *)
Definition after_contract (cfg : Config) (step : nat) (mt : ModelTurn) : M unit :=
  modify (negative_claim_exhausted cfg step) ;;
  modify (stagnation cfg step) ;;
  made <- gets (fun st => tool_calls_made (counters st)) ;;
  if made <? 3 then
    modify (upd_counters (fun c => set_pre_tool_nudges (S (pre_tool_nudges c)) c)) ;;
    modify (trace_event (EvPolicy "policy_pre_tool_nudge" step)) ;;
    nudges <- gets (fun st => pre_tool_nudges (counters st)) ;;
    modify (history_append "assistant" (resp mt)) ;;
    modify (history_append "user"
              (if nudges <=? 6
               then "You have not used tools yet. Use the shell now to make concrete progress. You can chain commands with && to do multiple steps in one tool call."
               else "Stop planning and run a shell command that gathers evidence."))
  else
    truncated <-
      (if is_length mt then
         modify (upd_counters (fun c => set_length_nudges (S (length_nudges c)) c)) ;;
         modify (trace_event (EvPolicy "policy_length_nudge" step)) ;;
         gets (fun st => length_nudges (counters st) <=? 4)
       else ret false) ;;
    if truncated then
      modify (history_append "assistant" (resp mt)) ;;
      modify (history_append "user"
                "Your previous response was truncated. Keep it short and run a shell command now.")
    else verify_turn cfg step mt (answer_text mt).

(** [enforce_contract] of line 955. *)
Definition contract_applies (mt : ModelTurn) (st : LoopState) : bool :=
  (3 <=? tool_calls_made (counters st)) || _finalization_intent (resp mt).

(** Lines 949-1139: a turn without tool call. *)
Definition no_tool_turn (cfg : Config) (step : nat) (mt : ModelTurn) : M unit :=
  log_model_output step (resp mt) "no_tool" ;;
  applies <- gets (contract_applies mt) ;;
  when applies (modify (enforce_contract (resp mt))) ;;
  after_contract cfg step mt.

(** Lines 753-803: the advisory messages that open a turn and the notes
    cadence. *)
Definition pre_turn (cfg : Config) (step : nat) (st : LoopState) : LoopState :=
  let f := flags st in
  let lft := default EmptyString (last_failure_type st) in
  let st1 :=
    if force_tool_next f then
      history_append "user"
        ("STAGNATION DETECTED: You must run a tool now to obtain new evidence."
         +:+ (if Py.truthy lft
              then " Previous failures: " +:+ lft +:+ ". Try a different source/tool."
              else EmptyString)
         +:+ (if (FAILURE_ESCALATION_LIMIT cfg <=? last_failure_streak st) && Py.truthy lft
              then " Escalate to a different acquisition path (alternate domain, API, or browser automation)."
              else EmptyString))
        st
    else st in
  let st2 :=
    if force_query_mutation f then
      history_append "user"
        "QUERY MUTATION REQUIRED: propose a materially different query before retrying. Use different keywords, synonyms, or a different formulation."
        st1
    else st1 in
  let st3 :=
    if force_move_change f then
      history_append "user"
        "MOVE CHANGE REQUIRED: change your search move type (reformulate or domain shift). Avoid repeating the same move."
        st2
    else st2 in
  let st4 :=
    if force_source_shift f then
      history_append "user"
        "SOURCE CLASS SHIFT REQUIRED: switch to a different source class (e.g., registry -> primary literature -> regulatory -> commentary)."
        st3
    else st3 in
  let st5 :=
    if force_domain_shift f then
      history_append "user"
        ("DOMAIN SHIFT REQUIRED: use a different domain than the last attempt. For negative-claim tasks, ensure at least "
         +:+ Py.str_nat (NEGATIVE_CLAIM_MIN_OFFICIAL cfg) +:+ " official domains and "
         +:+ Py.str_nat (NEGATIVE_CLAIM_MIN_INDEPENDENT cfg)
         +:+ " independent domains are checked.")
        st4
    else st4 in
  if (0 <? NOTES_UPDATE_INTERVAL cfg) && (0 <? step)
     && (step mod NOTES_UPDATE_INTERVAL cfg =? 0)
  then upd_flags (set_notes_required true) st5
  else st5.

(** Lines 750-1523: one iteration of [while True] after the budget test. *)
Definition turn (cfg : Config) (step : nat) (mt : ModelTurn) : M unit :=
  modify (pre_turn cfg step) ;;
  modify (set_last (resp mt)) ;;
  modify (trace_event (EvAssistant step (Py.take (20 * 1000) (resp mt)))) ;;
  modify (trace_event (EvModelIO step)) ;;
  modify (trace_event (EvModel step)) ;;
  let none_extracted := match extracted mt with [] => true | _ => false end in
  if none_extracted && truthy_opt (parse_error (parsed mt)) then
    if is_length mt then
      modify (upd_counters (fun c => set_length_nudges (S (length_nudges c)) c)) ;;
      modify (trace_event (EvPolicy "policy_length_nudge" step)) ;;
      modify (history_append "assistant" (resp mt)) ;;
      modify (history_append "user"
                "Your response was truncated due to length limits. Please try again, but output a shorter response or split the content into multiple steps.") ;;
      log_model_output step (resp mt) "length_truncation"
    else
      modify (upd_counters (fun c => set_parse_error_hits (S (parse_error_hits c)) c)) ;;
      modify (trace_event (EvPolicy "policy_parse_error" step)) ;;
      modify (history_append "assistant" (resp mt)) ;;
      modify (history_append "user"
                ("SYSTEM FORMAT ERROR: "
                 +:+ default EmptyString (parse_error (parsed mt)))) ;;
      log_model_output step (resp mt) "parse_error" ;;
      hits <- gets (fun st => parse_error_hits (counters st)) ;;
      if 5 <=? hits
      then return_ "Stopped due to repeated format errors (missing THOUGHT/ACTION). See /work/notes.md."
      else ret tt
  else
    let tool_calls :=
      if none_extracted && truthy_opt (tool_name (parsed mt))
      then [{| tool := default EmptyString (tool_name (parsed mt));
               args := default ∅ (tool_args (parsed mt)) |}]
      else extracted mt in
    let no_calls := match tool_calls with [] => true | _ => false end in
    pending <- gets pending_gradient ;;
    reminded <-
      (if match pending with Some _ => no_calls | None => false end then
         modify (upd_counters
                   (fun c => set_gradient_reminders (S (gradient_reminders c)) c)) ;;
         modify (trace_event (EvPolicy "policy_reminder" step)) ;;
         n <- gets (fun st => gradient_reminders (counters st)) ;;
         if n <=? 4 then
           modify (history_append "assistant" (resp mt)) ;;
           modify (history_append "user"
                     "You have verifier feedback. Use tools to gather missing evidence and make progress now. Prefer next_actions when helpful, but you may choose any sensible action.") ;;
           ret true
         else
           when (6 <? n) (modify (set_pending_gradient None)) ;;
           ret false
       else ret false) ;;
    if reminded then ret tt
    else if no_calls then no_tool_turn cfg step mt
    else
      modify (upd_counters (set_parse_error_hits 0)) ;;
      modify (history_append "assistant" (resp mt)) ;;
      for_each (process_call cfg step (resp mt)) tool_calls.

(** ** Start-up, the loop and its epilogue *)

Definition initial_state (s : Tools.Sys) : LoopState :=
  {| flags := {| force_tool_next := false; force_query_mutation := false;
                 force_move_change := false; force_source_shift := false;
                 force_domain_shift := false; notes_required := false |};
     counters := {| verifier_rounds := 0; gradient_reminders := 0; tool_calls_made := 0;
                    pre_tool_nudges := 0; length_nudges := 0; finalization_hits := 0;
                    stagnation_streak := 0; parse_error_hits := 0;
                    last_evidence_count := 0 |};
     moves := {| last_move_sig := None; last_move_type := None; last_domain := None;
                 last_domain_key := None; last_query_family := None;
                 last_source_class := None; move_repeat_streak := 0;
                 domain_same_streak := 0; source_class_failure_streak := 0;
                 recent_query_families := [] |};
     domains := {| official_domain_hints := ∅; official_domains_checked := ∅;
                   independent_domains_checked := ∅; domain_attempts := ∅ |};
     ledgers := {| evidence_counter := 0; move_counter := 0; query_counter := 0;
                   evidence_ids := ∅; evidence := []; move_ledger := [];
                   query_ledger := []; trace := [] |};
     epistemic := {| status := IN_PROGRESS; unresolved := []; constraints := [];
                     blocked := [] |};
     last_failure_type := None; last_failure_streak := 0;
     history := []; pending_gradient := None; last := EmptyString; sys := s |}.

Definition negative_claim_constraint : string :=
  "Negative-claim task: require ≥2 official domains and ≥1 independent domain before concluding 'no official announcement found in sources checked'. Do not assert non-launch; explicit denial is optional (only cite it if found).".

(** Lines 299-326 and 491-496: what runs before the first turn. *)
Definition startup (cfg : Config) : M unit :=
  notes_reset ("# Task" +:+ nl +:+ task cfg +:+ nl +:+ nl +:+ "# Log" +:+ nl) ;;
  runtime_shell init_ledgers_script ;;
  modify (trace_event EvSandbox) ;;
  modify (trace_event (EvTask (task cfg))) ;;
  when (negative_claim_task cfg)
       (modify (upd_epistemic (add_constraint negative_claim_constraint))).

Definition repr_strings (l : list string) : string := py_repr (JList (map JStr l)).

Definition unresolved_report (header : string) (e : EpistemicState) : string :=
  header +:+ nl
  +:+ "Status: " +:+ status_str (status e) +:+ nl
  +:+ "Constraints: " +:+ repr_strings (constraints e) +:+ nl
  +:+ "Blocked: " +:+ repr_strings (blocked e) +:+ nl
  +:+ "Unresolved: " +:+ repr_strings (unresolved e) +:+ nl
  +:+ "See /work/notes.md and /work/evidence.jsonl.".

(** Lines 1525-1545: the value returned once the loop is left. *)
Definition after_loop (cfg : Config) (step : nat) (st : LoopState) : string :=
  let e := epistemic st in
  if (0 <? max_steps cfg)%Z && (max_steps cfg <=? Z.of_nat step)%Z then
    if negb (status_eqb (status e) VERIFIED)
    then unresolved_report
           "UNRESOLVED: Evidence requirements not satisfied within the step budget." e
    else "Did not reach a verifiable final answer within the step budget. See /work/notes.md."
  else if negb (status_eqb (status e) VERIFIED)
  then unresolved_report "UNRESOLVED: Evidence requirements not satisfied." e
  else "Stopped without a verifiable final answer. See /work/notes.md.".

(** How a run stands after a finite script of model turns: it returned, an
    exception escaped, or the loop is waiting for the next response. *)
Inductive RunResult :=
| Returned (s : string)
| Crashed (e : Tools.exn)
| Running.

(** The [while True] loop, [step] being the number of the last turn. *)
Fixpoint run_loop (cfg : Config) (turns : list ModelTurn) (step : nat) (st : LoopState)
  : RunResult * LoopState :=
  let step := S step in
  if (0 <? max_steps cfg)%Z && (max_steps cfg <? Z.of_nat step)%Z
  then (Returned (after_loop cfg step st), st)
  else
    match turns with
    | [] => (Running, st)
    | mt :: turns' =>
        match turn cfg step mt st with
        | (Next _, st') => run_loop cfg turns' step st'
        | (Return s, st') => (Returned s, st')
        | (Raise e, st') => (Crashed e, st')
        end
    end.

(** [run_agent] on a started sandbox. *)
Definition run_agent (cfg : Config) (turns : list ModelTurn) (s : Tools.Sys)
  : RunResult * LoopState :=
  match startup cfg (initial_state s) with
  | (Next _, st) => run_loop cfg turns 0 st
  | (Return r, st) => (Returned r, st)
  | (Raise e, st) => (Crashed e, st)
  end.

(** ** Views of the ledgers used in the statements *)


(** The tool events written by the tool branch: a step and no scope. *)
Definition agent_tool_event (ev : TraceEvent) : option (nat * string * Args * Obs) :=
  match ev with
  | EvTool None (Some step) tl a obs => Some (step, tl, a, obs)
  | _ => None
  end.
Definition agent_tool_events (tr : list TraceEvent) : list (nat * string * Args * Obs) :=
  omap agent_tool_event tr.

(** What a tool event and its evidence record have in common. *)
Definition CallKey : Type :=
  nat * string * Args * option Z * option string * option string.
Definition evidence_key (e : Evidence) : CallKey :=
  (ev_step e, ev_tool e, ev_args e, eo_exit_code (ev_obs e),
   eo_error_type (ev_obs e), eo_error (ev_obs e)).
Definition tool_key (x : nat * string * Args * Obs) : CallKey :=
  let '(step, tl, a, obs) := x in
  (step, tl, a, exit_code obs, error_type obs, error obs).

(** The evidence ledger mirrors the tool events of the tool branch, in
    order, and its ids are those of the counter values 1, 2, ... *)
Definition ledger_inv (st : LoopState) : Prop :=
  let l := ledgers st in
  map evidence_key (evidence l) = map tool_key (agent_tool_events (trace l))
  /\ evidence_counter l = List.length (evidence l)
  /\ map ev_id (evidence l) = map evidence_id (seq 1 (List.length (evidence l)))
  /\ evidence_ids l = list_to_set (map ev_id (evidence l)).

(** The part of the state [ledger_inv] reads. *)
Definition ledger_view (st : LoopState)
  : list Evidence * nat * gset string * list (nat * string * Args * Obs) :=
  (evidence (ledgers st), evidence_counter (ledgers st), evidence_ids (ledgers st),
   agent_tool_events (trace (ledgers st))).

(** An update that leaves that part alone. *)
Definition keeps_view (f : LoopState -> LoopState) : Prop :=
  forall st, ledger_view (f st) = ledger_view st.

(** A piece of the loop that maintains a state predicate, however it ends. *)
Definition preserves {A : Type} (P : LoopState -> Prop) (c : M A) : Prop :=
  forall st, P st -> P (snd (c st)).

(** The error types of the evidence records and the outcomes of the query
    records, in the order of the ledgers. *)
Definition evidence_error_types (st : LoopState) : list (option string) :=
  map (fun e => eo_error_type (ev_obs e)) (evidence (ledgers st)).
Definition query_outcomes (st : LoopState) : list string :=
  map q_outcome (query_ledger (ledgers st)).

(** The verifier events of the trace: the step of the turn and the score
    of the decision. *)
Definition verifier_events (st : LoopState) : list (nat * Z) :=
  omap (fun ev => match ev with
                  | EvVerifier step decision => Some (step, Verifier.score decision)
                  | _ => None
                  end)
       (trace (ledgers st)).

(** A predicate that reads the state through [ledger_view] only. *)
Definition view_predicate (P : LoopState -> Prop) : Prop :=
  forall st st', ledger_view st' = ledger_view st -> P st -> P st'.

(** An update that leaves the tool belt, the history, the evidence ledger
    and the trace alone, as the move and query records of a gate do; and
    one that leaves the move and query ledgers alone as well, as the
    setting of a flag does. *)
Definition plain_update (f : LoopState -> LoopState) : Prop :=
  forall x, sys (f x) = sys x /\ history (f x) = history x
            /\ evidence (ledgers (f x)) = evidence (ledgers x)
            /\ trace (ledgers (f x)) = trace (ledgers x).
Definition quiet_update (f : LoopState -> LoopState) : Prop :=
  plain_update f
  /\ forall x, move_ledger (ledgers (f x)) = move_ledger (ledgers x)
               /\ query_ledger (ledgers (f x)) = query_ledger (ledgers x).



(** ** Invariants of a run *)

(** An update under which a predicate is stable. *)
Definition stable (P : LoopState -> Prop) (f : LoopState -> LoopState) : Prop :=
  forall st, P st -> P (f st).


(** The deque of recent query families: within its [maxlen], without
    duplicate and without empty family. *)
Definition window_ok (cfg : Config) (st : LoopState) : Prop :=
  let w := recent_query_families (moves st) in
  List.length w <= Nat.max (QUERY_MUTATION_BUDGET cfg) 1
  /\ List.NoDup w
  /\ Forall (fun q => Py.truthy q = true) w.

(** Every counted tool call has its evidence record. *)
Definition calls_counted (st : LoopState) : Prop :=
  tool_calls_made (counters st) = evidence_counter (ledgers st).

(** What a query record shares with the move record written beside it. *)
Definition QueryKey : Type :=
  nat * option string * option string * option string * option string
  * string * string * string.
Definition query_key (q : Query) : QueryKey :=
  (q_step q, q_url q, q_domain q, q_query q, q_query_family q,
   q_source_class q, q_move_type q, q_outcome q).
Definition move_query_key (m : Move) : option QueryKey :=
  if truthy_opt (mv_query_family m)
  then Some (mv_step m, mv_url m, mv_domain m, mv_query m, mv_query_family m,
             mv_source_class m, mv_move_type m, mv_outcome m)
  else None.

(** The query ledger repeats the moves that carry a query family, in
    their order, and both ledgers number their records 1, 2, 3, ... *)
Definition ledgers_paired (st : LoopState) : Prop :=
  let l := ledgers st in
  map query_key (query_ledger l) = omap move_query_key (move_ledger l)
  /\ move_counter l = List.length (move_ledger l)
  /\ query_counter l = List.length (query_ledger l)
  /\ map mv_id (move_ledger l) = map move_id (seq 1 (List.length (move_ledger l)))
  /\ map q_id (query_ledger l) = map query_id (seq 1 (List.length (query_ledger l))).

(** The lists of the epistemic state hold each text once and no empty
    text. *)
Definition lists_ok (e : EpistemicState) : Prop :=
  List.NoDup (constraints e) /\ List.NoDup (unresolved e) /\ List.NoDup (blocked e)
  /\ Forall (fun t => Py.truthy t = true) (constraints e)
  /\ Forall (fun t => Py.truthy t = true) (unresolved e)
  /\ Forall (fun t => Py.truthy t = true) (blocked e).

Definition epistemic_ok (st : LoopState) : Prop := lists_ok (epistemic st).

(** [st] continues [st0]: what was written stays, in its place. *)
Definition extends (st0 st : LoopState) : Prop :=
  evidence (ledgers st0) `prefix_of` evidence (ledgers st)
  /\ move_ledger (ledgers st0) `prefix_of` move_ledger (ledgers st)
  /\ query_ledger (ledgers st0) `prefix_of` query_ledger (ledgers st)
  /\ trace (ledgers st0) `prefix_of` trace (ledgers st)
  /\ history st0 `prefix_of` history st
  /\ evidence_ids (ledgers st0) ⊆ evidence_ids (ledgers st)
  /\ tool_calls_made (counters st0) <= tool_calls_made (counters st)
  /\ verifier_rounds (counters st0) <= verifier_rounds (counters st).

(** The verifier rounds counted are the verifier events of the trace;
    while the loop goes on a round is left, and no round is run before
    three tool calls are counted. *)
Definition verifier_accounted (st : LoopState) : Prop :=
  List.length (verifier_events st) = verifier_rounds (counters st)
  /\ (0 < verifier_rounds (counters st) -> 3 <= tool_calls_made (counters st)).
Definition round_left (cfg : Config) (st : LoopState) : Prop :=
  verifier_rounds (counters st) = 0
  \/ verifier_rounds (counters st) < max_verifier_rounds cfg.
Definition rounds_bounded (cfg : Config) (st : LoopState) : Prop :=
  verifier_rounds (counters st) <= Nat.max 1 (max_verifier_rounds cfg).

(** What holds of the rounds while the loop goes on, once the verifier can
    be consulted, and once the run has stopped. *)
Definition going (cfg : Config) (st : LoopState) : Prop :=
  verifier_accounted st /\ round_left cfg st.
Definition ready (cfg : Config) (st : LoopState) : Prop :=
  going cfg st /\ 3 <= tool_calls_made (counters st).
Definition stopped (cfg : Config) (st : LoopState) : Prop :=
  verifier_accounted st /\ rounds_bounded cfg st.

(** The session of the tool belt is inside /work or /input. *)
Definition session_confined (st : LoopState) : Prop :=
  Tools.confined (Tools.cwd (Tools.tb (sys st))) = true.

(** A path in which the class [[^\\n]] of the notes patterns accepts
    every character once the command is put in lower case. *)
Definition plain_path (s : string) : bool :=
  forallb (fun c => negb (existsb (Ascii.eqb (Py.lower_char c)) ["\"%char; "n"%char]))
          (list_ascii_of_string s).

End WithExternals.

Arguments Next {A} a.
Arguments Return {A} s.
Arguments Raise {A} e.

End Loop.

(* ===================================================================== *)
(** * A concrete set of collaborators for closed examples                 *)
(* ===================================================================== *)

Module Fixture.

Definition b64_alphabet : string :=
  "ABCDEFGHIJKLMNOPQRSTUVWXYZabcdefghijklmnopqrstuvwxyz0123456789+/".
Definition b64_char (n : nat) : ascii := default "A"%char (String.get n b64_alphabet).

(** Standard base64 with padding. *)
Fixpoint b64 (s : string) : string :=
  match s with
  | EmptyString => EmptyString
  | String a EmptyString =>
      let x := Py.code a in
      String (b64_char (x / 4)) (String (b64_char (x mod 4 * 16)) "==")
  | String a (String b EmptyString) =>
      let x := Py.code a in
      let y := Py.code b in
      String (b64_char (x / 4))
        (String (b64_char (x mod 4 * 16 + y / 16))
           (String (b64_char (y mod 16 * 4)) "="))
  | String a (String b (String c s')) =>
      let x := Py.code a in
      let y := Py.code b in
      let z := Py.code c in
      String (b64_char (x / 4))
        (String (b64_char (x mod 4 * 16 + y / 16))
           (String (b64_char (y mod 16 * 4 + z / 64))
              (String (b64_char (z mod 64)) (b64 s'))))
  end.

(** A container that answers every exec with exit code 0 and the text
    "ok"; its state is the number of execs served.  The text formatters
    are constant, and paths are taken to be normal already. *)
Definition stub : Externals :=
  {| World := nat;
     docker_exec := fun w _ => (S w, (0%Z, "ok"));
     shlex_split := fun s => Some (Tools.split_ws s);
     normpath := fun s => s;
     b64encode := b64;
     json_dumps_args := fun _ => "{..}";
     json_dumps_obs := fun _ => "{..}";
     json_dumps_tool_obs := fun _ _ => "{..}";
     json_dumps := fun _ => "{..}";
     json_loads_list := fun _ => None;
     py_repr := fun _ => "[..]" |}.

Definition sys0 : @Tools.Sys stub :=
  @Tools.Build_Sys stub Tools.init_toolbelt O [].

Definition shell_call (cmd : string) : Loop.ToolCall :=
  {| Loop.tool := "shell"; Loop.args := {[ "cmd" := cmd ]} |}.

Definition no_parse : Loop.AgentOutput :=
  {| Loop.thought := EmptyString; Loop.tool_name := None; Loop.tool_args := None;
     Loop.parse_error := None |}.

Definition empty_meta : Verifier.Meta :=
  {| Verifier.gradient := None; Verifier.negative_claim := false;
     Verifier.needs_coverage := false; Verifier.unknown_checks := 0;
     Verifier.evidence_url_count := 0; Verifier.distinct_domains := [];
     Verifier.coverage_ok := None; Verifier.score_before_cap := None;
     Verifier.score_capped := false; Verifier.cap_reasons := None |}.

(** A decision as [_judge] returns it. *)
Definition judged (sc : Z) (items : list Verifier.CheckItem) : Verifier.VerifierDecision :=
  {| Verifier.score := sc; Verifier.explanation := "judged";
     Verifier.instructions := []; Verifier.checks := items;
     Verifier.meta := empty_meta |}.

Definition url_evidence (u : string) : json :=
  JObj [("type", JStr "url"); ("ref", JStr u); ("snippet", JStr "quoted")].

(** A support check answered yes with the given cited URLs. *)
Definition support_check (urls : list string) : Verifier.CheckItem :=
  {| Verifier.check := [("kind", JStr "support"); ("claim", JStr "c"); ("question", JStr "q")];
     Verifier.result := [("answer", JStr "yes"); ("evidence", JList (map url_evidence urls))] |}.

(** A verifier run without tool calls: the judge's score over the checks. *)
Definition verifier_says (sc : Z) (items : list Verifier.CheckItem) : Verifier.VerifierRun :=
  {| Verifier.vr_steps := []; Verifier.vr_results := items;
     Verifier.vr_judged := judged sc items |}.

(** Two citations from two domains: no SCOUT cap reason applies. *)
Definition two_domains : list Verifier.CheckItem :=
  [support_check ["https://a.example.org/x"; "https://b.example.net/y"]].

(** A turn whose response holds the given tool calls. *)
Definition tool_turn (calls : list Loop.ToolCall) : Loop.ModelTurn :=
  {| Loop.resp := "THOUGHT: next step"; Loop.finish_reason := Some "stop";
     Loop.extracted := calls; Loop.parsed := no_parse;
     Loop.verifier_run := verifier_says 2 [] |}.

(** A turn whose response is free text. *)
Definition answer_turn (text : string) (run : Verifier.VerifierRun) : Loop.ModelTurn :=
  {| Loop.resp := text; Loop.finish_reason := Some "stop";
     Loop.extracted := []; Loop.parsed := no_parse;
     Loop.verifier_run := run |}.

Definition curl (url : string) : Loop.ToolCall := shell_call ("curl -s '" +:+ url +:+ "'").

(** Two tasks under the defaults of the source: a plain search, and a
    task that [_is_negative_claim_task] classifies as a negative claim. *)
Definition search_cfg : Loop.Config := Loop.default_config "find foo" 120 72.
Definition acme_cfg : Loop.Config :=
  Loop.default_config "Acme has not launched the widget" 120 72.

(** Three calls to three domains, which open the way to the verifier, and
    an answer without markers that the verifier scores [sc]. *)
Definition explore : Loop.ModelTurn :=
  tool_turn [curl "https://a.example.org/x"; curl "https://b.example.net/y";
             curl "https://c.example.com/z"].
Definition answer_scored (sc : Z) : Loop.ModelTurn :=
  answer_turn "The answer is 42." (verifier_says sc two_domains).

(** The run of a script of model turns on the fixture: how it stands and
    its state. *)
Definition run (cfg : Loop.Config) (turns : list Loop.ModelTurn)
  : Loop.RunResult * @Loop.LoopState stub :=
  @Loop.run_agent stub cfg turns sys0.
Definition state_after (cfg : Loop.Config) (turns : list Loop.ModelTurn)
  : @Loop.LoopState stub :=
  snd (run cfg turns).

End Fixture.

(* ===================================================================== *)
(** * Facts on strings                                                    *)
(* ===================================================================== *)

Section StringFacts.

Lemma append_cons (c : ascii) (s t : string) : String c s +:+ t = String c (s +:+ t).
Proof. reflexivity. Qed.

Lemma append_empty_l (t : string) : EmptyString +:+ t = t.
Proof. reflexivity. Qed.

Lemma append_assoc (s t u : string) : (s +:+ t) +:+ u = s +:+ (t +:+ u).
Proof.
  induction s as [|c s IH]; [reflexivity|].
  rewrite !append_cons, IH. reflexivity.
Qed.

Lemma append_empty_r (s : string) : s +:+ EmptyString = s.
Proof.
  induction s as [|c s IH]; [reflexivity|].
  rewrite append_cons, IH. reflexivity.
Qed.

Lemma rev_acc_app (s acc : string) : Py.rev_acc s acc = Py.rev_acc s EmptyString +:+ acc.
Proof.
  revert acc. induction s as [|c s IH]; intros acc; cbn [Py.rev_acc]; [reflexivity|].
  rewrite IH, (IH (String c EmptyString)).
  rewrite append_assoc. reflexivity.
Qed.

Lemma rev_acc_rev_acc (s acc : string) :
  Py.rev_acc (Py.rev_acc s acc) EmptyString = Py.rev_acc acc EmptyString +:+ s.
Proof.
  revert acc. induction s as [|c s IH]; intros acc; cbn [Py.rev_acc].
  - rewrite append_empty_r. reflexivity.
  - rewrite IH. cbn [Py.rev_acc]. rewrite (rev_acc_app acc (String c EmptyString)).
    rewrite append_assoc. reflexivity.
Qed.

Lemma rev_involutive (s : string) : Py.rev (Py.rev s) = s.
Proof. unfold Py.rev. rewrite rev_acc_rev_acc. reflexivity. Qed.

Lemma prefix_app (a b : string) : String.prefix a (a +:+ b) = true.
Proof.
  induction a as [|c a IH]; [destruct b; reflexivity|].
  rewrite append_cons. cbn [String.prefix].
  destruct (ascii_dec c c); [exact IH|congruence].
Qed.

Lemma len_app (u v : string) : Py.len (u +:+ v) = Py.len u + Py.len v.
Proof.
  unfold Py.len. induction u as [|c u IH]; [reflexivity|].
  rewrite append_cons. cbn [String.length]. rewrite IH. reflexivity.
Qed.

End StringFacts.

(* ===================================================================== *)
(** * What the pattern matcher finds                                      *)
(* ===================================================================== *)

Section PatternSemantics.
Import Re.

(** ** [exec_re] explores exactly the continuations of [matches] *)

Lemma exec_sound {A : Type} (r : regex) :
  plain r = true ->
  forall prev s cap (k : option ascii -> string -> option string -> option A) a,
    exec_re r prev s cap k = Some a ->
    exists p' s', matches r prev s p' s' /\ k p' s' cap = Some a.
Proof.
  induction r as [|p|r1 IH1 r2 IH2|r1 IH1 r2 IH2|r1 IH1| | | | |];
    cbn [plain]; intros Hp prev s cap k a H; try discriminate.
  - exists prev, s. split; [constructor|exact H].
  - cbn [exec_re] in H. destruct s as [|c s]; [discriminate|].
    destruct (p c) eqn:Hc; [|discriminate].
    exists (Some c), s. split; [constructor; exact Hc|exact H].
  - apply andb_true_iff in Hp as [Hp1 Hp2]. cbn [exec_re] in H.
    apply (IH1 Hp1) in H. destruct H as (p1 & s1 & Hm1 & H).
    apply (IH2 Hp2) in H. destruct H as (p2 & s2 & Hm2 & H).
    exists p2, s2. split; [econstructor; eassumption|exact H].
  - apply andb_true_iff in Hp as [Hp1 Hp2]. cbn [exec_re] in H.
    destruct (exec_re r1 prev s cap k) as [a1|] eqn:H1.
    + injection H as <-. apply (IH1 Hp1) in H1. destruct H1 as (p1 & s1 & Hm & H1).
      exists p1, s1. split; [apply matches_alt_l; exact Hm|exact H1].
    + apply (IH2 Hp2) in H. destruct H as (p1 & s1 & Hm & H).
      exists p1, s1. split; [apply matches_alt_r; exact Hm|exact H].
  - cbn [exec_re] in H. revert H. generalize (Py.len s) at 1. intros n.
    revert prev s cap a. induction n as [|n IHn]; intros prev s cap a H.
    + exists prev, s. split; [apply matches_star_stop|exact H].
    + match type of H with
      | match ?m with Some _ => _ | None => _ end = _ => destruct m as [a1|] eqn:Hmore
      end.
      * injection H as <-. apply (IH1 Hp) in Hmore.
        destruct Hmore as (p1 & s1 & Hm1 & Hk).
        destruct (Py.len s1 <? Py.len s) eqn:Hlt; [|discriminate].
        apply Nat.ltb_lt in Hlt. apply IHn in Hk. destruct Hk as (p2 & s2 & Hm2 & Hk).
        exists p2, s2. split; [|exact Hk].
        eapply matches_star_more; eassumption.
      * exists prev, s. split; [apply matches_star_stop|exact H].
  - cbn [exec_re] in H. destruct (at_word_boundary prev s) eqn:Hb; [|discriminate].
    exists prev, s. split; [constructor; exact Hb|exact H].
Qed.

Lemma exec_complete {A : Type} (r : regex) (prev : option ascii) (s : string)
    (p' : option ascii) (s' : string) :
  matches r prev s p' s' ->
  forall cap (k : option ascii -> string -> option string -> option A),
    is_Some (k p' s' cap) ->
    is_Some (exec_re r prev s cap k)
    /\ forall r0, r = Star r0 -> forall n, Py.len s <= n ->
         is_Some (star_loop (exec_re r0) k n prev s cap).
Proof.
  induction 1 as [prev s|p prev c s Hc|r1 r2 p0 p1 p2 s0 s1 s2 _ IH1 _ IH2
                  |r1 r2 p0 p1 s0 s1 _ IH|r1 r2 p0 p1 s0 s1 _ IH
                  |r prev s|r p0 p1 p2 s0 s1 s2 _ IH1 Hlt _ IH2|prev s Hb];
    intros cap k Hk.
  - split; [exact Hk|discriminate].
  - split; [cbn [exec_re]; rewrite Hc; exact Hk|discriminate].
  - split; [|discriminate]. cbn [exec_re].
    apply IH1. apply IH2. exact Hk.
  - split; [|discriminate]. cbn [exec_re].
    destruct (IH cap k Hk) as [[a Ha] _]. rewrite Ha. eexists. reflexivity.
  - split; [|discriminate]. cbn [exec_re].
    destruct (exec_re r1 p0 s0 cap k); [eexists; reflexivity|].
    apply IH. exact Hk.
  - assert (Hn : forall n, is_Some (star_loop (exec_re r) k n prev s cap)).
    { intros n. destruct n; cbn [star_loop].
      - exact Hk.
      - match goal with
        | |- is_Some (match ?m with Some _ => _ | None => _ end) => destruct m
        end; [eexists; reflexivity|exact Hk]. }
    split; [apply Hn|]. intros r0 Heq n _. injection Heq as <-. apply Hn.
  - assert (Hn : forall n, Py.len s0 <= n -> is_Some (star_loop (exec_re r) k n p0 s0 cap)).
    { intros n Hle. destruct n as [|n]; [lia|]. cbn [star_loop].
      destruct (IH2 cap k Hk) as [_ IHloop].
      specialize (IHloop r eq_refl n ltac:(lia)).
      match goal with
      | |- is_Some (match ?m with Some _ => _ | None => _ end) =>
          assert (Hm : is_Some m)
      end.
      { apply IH1. apply Nat.ltb_lt in Hlt. rewrite Hlt. exact IHloop. }
      destruct Hm as [a Ha]. rewrite Ha. eexists. reflexivity. }
    split; [apply Hn; lia|]. intros r0 Heq n Hle. injection Heq as <-. apply Hn. exact Hle.
  - split; [cbn [exec_re]; rewrite Hb; exact Hk|discriminate].
Qed.


(** ** [re.search] *)

Lemma last_of_app (prev : option ascii) (u v : string) :
  last_of prev (u +:+ v) = last_of (last_of prev u) v.
Proof.
  revert prev. induction u as [|c u IH]; intros prev; [reflexivity|].
  rewrite append_cons. cbn [last_of]. apply IH.
Qed.

Lemma search_from_sound (r : regex) (prev : option ascii) (s : string) (h : hit) :
  plain r = true ->
  search_from r prev s = Some h ->
  exists u v p' s', s = u +:+ v /\ matches r (last_of prev u) v p' s'.
Proof.
  intros Hp. revert prev. induction s as [|c s IH]; intros prev H; cbn [search_from] in H.
  - destruct (match_here r prev EmptyString) as [h0|] eqn:Hh; [|discriminate].
    unfold match_here in Hh. apply (exec_sound r Hp) in Hh.
    destruct Hh as (p' & s' & Hm & _).
    exists EmptyString, EmptyString, p', s'. split; [reflexivity|exact Hm].
  - destruct (match_here r prev (String c s)) as [h0|] eqn:Hh.
    + unfold match_here in Hh. apply (exec_sound r Hp) in Hh.
      destruct Hh as (p' & s' & Hm & _).
      exists EmptyString, (String c s), p', s'. split; [reflexivity|exact Hm].
    + apply IH in H. destruct H as (u & v & p' & s' & Hs & Hm).
      exists (String c u), v, p', s'. split; [rewrite append_cons, Hs; reflexivity|exact Hm].
Qed.

Lemma search_from_complete (r : regex) (prev : option ascii) (u v : string)
    (p' : option ascii) (s' : string) :
  matches r (last_of prev u) v p' s' ->
  is_Some (search_from r prev (u +:+ v)).
Proof.
  revert prev. induction u as [|c u IH]; intros prev Hm.
  - cbn [last_of] in Hm. rewrite append_empty_l.
    assert (Hh : is_Some (match_here r prev v)).
    { unfold match_here. eapply (exec_complete r prev v p' s' Hm). eexists. reflexivity. }
    destruct Hh as [h Hh]. destruct v; cbn [search_from]; rewrite Hh; eexists; reflexivity.
  - rewrite append_cons. cbn [search_from].
    destruct (match_here r prev (String c (u +:+ v))); [eexists; reflexivity|].
    apply IH. exact Hm.
Qed.

(** ** A match depends on its surroundings through word classes only *)


Lemma word_after_app (a x x' : string) :
  (a = EmptyString -> word_after x = word_after x') ->
  word_after (a +:+ x) = word_after (a +:+ x').
Proof. destruct a; [intros H; apply H; reflexivity|reflexivity]. Qed.

(** The text after the match is replaced by one of the same word class. *)
Lemma matches_retail (r : regex) (prev : option ascii) (s : string)
    (p' : option ascii) (s' : string) :
  matches r prev s p' s' ->
  forall a x x',
    s' = a +:+ x ->
    (a = EmptyString -> word_after x = word_after x') ->
    exists w, s = w +:+ (a +:+ x) /\ last_of prev w = p'
              /\ matches r prev (w +:+ (a +:+ x')) p' (a +:+ x').
Proof.
  induction 1 as [prev s|p prev c s Hc|r1 r2 p0 p1 p2 s0 s1 s2 _ IH1 _ IH2
                  |r1 r2 p0 p1 s0 s1 _ IH|r1 r2 p0 p1 s0 s1 _ IH
                  |r prev s|r p0 p1 p2 s0 s1 s2 _ IH1 Hlt _ IH2|prev s Hb];
    intros a x x' Hs Hx.
  - exists EmptyString. split; [exact Hs|]. split; [reflexivity|constructor].
  - exists (String c EmptyString). rewrite Hs. split; [reflexivity|].
    split; [reflexivity|]. rewrite append_cons, append_empty_l. constructor. exact Hc.
  - destruct (IH2 a x x' Hs Hx) as (w2 & Hs1 & Hl2 & Hm2).
    assert (Hx1 : w2 +:+ a = EmptyString -> word_after x = word_after x').
    { intros He. apply Hx. destruct w2; [exact He|discriminate]. }
    destruct (IH1 (w2 +:+ a) x x') as (w1 & Hs0 & Hl1 & Hm1);
      [rewrite append_assoc; exact Hs1|exact Hx1|].
    exists (w1 +:+ w2). rewrite !append_assoc in *.
    split; [exact Hs0|]. split; [rewrite last_of_app, Hl1; exact Hl2|].
    econstructor; eassumption.
  - destruct (IH a x x' Hs Hx) as (w & Hs0 & Hl & Hm).
    exists w. split; [exact Hs0|]. split; [exact Hl|apply matches_alt_l; exact Hm].
  - destruct (IH a x x' Hs Hx) as (w & Hs0 & Hl & Hm).
    exists w. split; [exact Hs0|]. split; [exact Hl|apply matches_alt_r; exact Hm].
  - exists EmptyString. split; [exact Hs|]. split; [reflexivity|apply matches_star_stop].
  - destruct (IH2 a x x' Hs Hx) as (w2 & Hs1 & Hl2 & Hm2).
    assert (Hx1 : w2 +:+ a = EmptyString -> word_after x = word_after x').
    { intros He. apply Hx. destruct w2; [exact He|discriminate]. }
    destruct (IH1 (w2 +:+ a) x x') as (w1 & Hs0 & Hl1 & Hm1);
      [rewrite append_assoc; exact Hs1|exact Hx1|].
    exists (w1 +:+ w2). rewrite !append_assoc in *.
    split; [exact Hs0|]. split; [rewrite last_of_app, Hl1; exact Hl2|].
    eapply matches_star_more; [exact Hm1| |exact Hm2].
    rewrite Hs0, Hs1 in Hlt. rewrite !len_app in *. lia.
  - exists EmptyString. split; [exact Hs|]. split; [reflexivity|].
    rewrite append_empty_l. constructor.
    unfold at_word_boundary in *.
    change (match a +:+ x' with String c _ => Py.is_word c | EmptyString => false end)
      with (word_after (a +:+ x')).
    rewrite <- (word_after_app a x x' Hx), <- Hs. exact Hb.
Qed.

Lemma matches_len (r : regex) (prev : option ascii) (s : string)
    (p' : option ascii) (s' : string) :
  matches r prev s p' s' -> Py.len s' <= Py.len s.
Proof.
  intros H.
  destruct (matches_retail r prev s p' s' H EmptyString s' s' eq_refl (fun _ => eq_refl))
    as (w & Hs & _).
  rewrite Hs, append_empty_l, len_app. lia.
Qed.

(** The character before the match is replaced by one of the same word
    class. *)
Lemma matches_reprev (r : regex) (prev : option ascii) (s : string)
    (p' : option ascii) (s' : string) :
  matches r prev s p' s' ->
  forall prev2, word_before prev2 = word_before prev ->
    exists p2', matches r prev2 s p2' s' /\ word_before p2' = word_before p'.
Proof.
  induction 1 as [prev s|p prev c s Hc|r1 r2 p0 p1 p2 s0 s1 s2 _ IH1 _ IH2
                  |r1 r2 p0 p1 s0 s1 _ IH|r1 r2 p0 p1 s0 s1 _ IH
                  |r prev s|r p0 p1 p2 s0 s1 s2 _ IH1 Hlt _ IH2|prev s Hb];
    intros prev2 Hw.
  - exists prev2. split; [constructor|exact Hw].
  - exists (Some c). split; [constructor; exact Hc|reflexivity].
  - destruct (IH1 prev2 Hw) as (q1 & Hm1 & Hw1).
    destruct (IH2 q1 Hw1) as (q2 & Hm2 & Hw2).
    exists q2. split; [econstructor; eassumption|exact Hw2].
  - destruct (IH prev2 Hw) as (q & Hm & Hq).
    exists q. split; [apply matches_alt_l; exact Hm|exact Hq].
  - destruct (IH prev2 Hw) as (q & Hm & Hq).
    exists q. split; [apply matches_alt_r; exact Hm|exact Hq].
  - exists prev2. split; [apply matches_star_stop|exact Hw].
  - destruct (IH1 prev2 Hw) as (q1 & Hm1 & Hw1).
    destruct (IH2 q1 Hw1) as (q2 & Hm2 & Hw2).
    exists q2. split; [eapply matches_star_more; eassumption|exact Hw2].
  - exists prev2. split; [|exact Hw]. constructor.
    unfold at_word_boundary in *.
    change (match prev2 with Some c => Py.is_word c | None => false end)
      with (word_before prev2).
    rewrite Hw. exact Hb.
Qed.


(** ** Patterns that begin and end on text *)

Lemma consumes_nothing_wordb : consumes_nothing WordB.
Proof. intros prev s p' s' H. inversion H; subst. split; reflexivity. Qed.

Lemma starts_chr (c0 : ascii) : Py.is_space c0 = false -> starts_on_text (chr c0).
Proof.
  intros Hc prev s p' s' H. inversion H; subst.
  match goal with Hp : Ascii.eqb _ _ = true |- _ => apply Ascii.eqb_eq in Hp; subst end.
  eexists. eexists. split; [reflexivity|]. split; [exact Hc|]. lia.
Qed.

Lemma starts_seq_l (r1 r2 : regex) : starts_on_text r1 -> starts_on_text (Seq r1 r2).
Proof.
  intros H1 prev s p' s' H. inversion H; subst.
  match goal with
  | Ha : matches r1 _ _ _ _, Hb : matches r2 _ _ _ _ |- _ =>
      destruct (H1 _ _ _ _ Ha) as (c & t & Hs & Hc & Hl);
      pose proof (matches_len _ _ _ _ _ Hb) as Hl2
  end.
  exists c, t. split; [exact Hs|]. split; [exact Hc|]. lia.
Qed.

Lemma starts_seq_r (r1 r2 : regex) :
  consumes_nothing r1 -> starts_on_text r2 -> starts_on_text (Seq r1 r2).
Proof.
  intros H1 H2 prev s p' s' H. inversion H; subst.
  match goal with
  | Ha : matches r1 _ _ _ _, Hb : matches r2 _ _ _ _ |- _ =>
      destruct (H1 _ _ _ _ Ha) as [-> ->]; exact (H2 _ _ _ _ Hb)
  end.
Qed.

Lemma ends_chr (c0 : ascii) : Py.is_space c0 = false -> ends_on_text (chr c0).
Proof.
  intros Hc prev s p' s' H. inversion H; subst.
  match goal with Hp : Ascii.eqb _ _ = true |- _ => apply Ascii.eqb_eq in Hp; subst end.
  eexists. split; [reflexivity|]. split; [exact Hc|]. cbn. lia.
Qed.

Lemma ends_seq_r (r1 r2 : regex) : ends_on_text r2 -> ends_on_text (Seq r1 r2).
Proof.
  intros H2 prev s p' s' H. inversion H; subst.
  match goal with
  | Ha : matches r1 _ _ _ _, Hb : matches r2 _ _ _ _ |- _ =>
      destruct (H2 _ _ _ _ Hb) as (d & Hp & Hd & Hl);
      pose proof (matches_len _ _ _ _ _ Ha) as Hl1
  end.
  exists d. split; [exact Hp|]. split; [exact Hd|]. lia.
Qed.

Lemma ends_seq_l (r1 r2 : regex) :
  ends_on_text r1 -> consumes_nothing r2 -> ends_on_text (Seq r1 r2).
Proof.
  intros H1 H2 prev s p' s' H. inversion H; subst.
  match goal with
  | Ha : matches r1 _ _ _ _, Hb : matches r2 _ _ _ _ |- _ =>
      destruct (H2 _ _ _ _ Hb) as [-> ->]; exact (H1 _ _ _ _ Ha)
  end.
Qed.

Ltac on_text :=
  repeat first
    [ apply starts_chr; reflexivity
    | apply ends_chr; reflexivity
    | apply starts_seq_r; [apply consumes_nothing_wordb|]
    | apply starts_seq_l
    | apply ends_seq_l; [|apply consumes_nothing_wordb]
    | apply ends_seq_r ].

(** Every DENY_PATTERN is plain, and its matches begin and end on text. *)
Lemma deny_patterns_on_text (pat : string) (r : regex) :
  In (pat, r) Config.DENY_PATTERNS ->
  plain r = true /\ starts_on_text r /\ ends_on_text r.
Proof.
  intros Hin. unfold Config.DENY_PATTERNS in Hin. cbn [In] in Hin.
  repeat (destruct Hin as [Heq|Hin];
          [injection Heq as _ <-; split; [reflexivity|];
           split; cbn [seqs lit spaces1 spaces plus]; on_text|]).
  contradiction.
Qed.

End PatternSemantics.

(* ===================================================================== *)
(** * Stripping a command does not hide a denied pattern                  *)
(* ===================================================================== *)

Section StripInvariance.
Import Re.

(** ** [strip] around a piece of text *)

Lemma space_not_word (c : ascii) : Py.is_space c = true -> Py.is_word c = false.
Proof. destruct c as [[] [] [] [] [] [] [] []]; vm_compute; congruence. Qed.

Lemma lstrip_app_text (u : string) (c : ascii) (t : string) :
  Py.is_space c = false ->
  Py.lstrip (u +:+ String c t) = Py.lstrip u +:+ String c t.
Proof.
  intros Hc. induction u as [|x u IH].
  - rewrite append_empty_l. cbn [Py.lstrip]. rewrite Hc. reflexivity.
  - rewrite append_cons. cbn [Py.lstrip]. destruct (Py.is_space x); [exact IH|].
    rewrite append_cons. reflexivity.
Qed.

Lemma lstrip_split (u : string) :
  exists y, u = y +:+ Py.lstrip u /\ Urllib.all_chars Py.is_space y = true.
Proof.
  induction u as [|x u IH].
  - exists EmptyString. split; reflexivity.
  - cbn [Py.lstrip]. destruct (Py.is_space x) eqn:Hx.
    + destruct IH as (y & Hu & Hy). exists (String x y).
      split; [rewrite append_cons, <- Hu; reflexivity|].
      cbn [Urllib.all_chars]. rewrite Hx, Hy. reflexivity.
    + exists EmptyString. split; reflexivity.
Qed.

Lemma rev_acc_append (a b acc : string) :
  Py.rev_acc (a +:+ b) acc = Py.rev_acc b (Py.rev_acc a acc).
Proof.
  revert acc. induction a as [|c a IH]; intros acc; [reflexivity|].
  rewrite append_cons. cbn [Py.rev_acc]. apply IH.
Qed.

Lemma rev_app (a b : string) : Py.rev (a +:+ b) = Py.rev b +:+ Py.rev a.
Proof.
  unfold Py.rev. rewrite rev_acc_append, (rev_acc_app b). reflexivity.
Qed.

Lemma rev_cons (c : ascii) (a : string) :
  Py.rev (String c a) = Py.rev a +:+ String c EmptyString.
Proof. unfold Py.rev. cbn [Py.rev_acc]. apply rev_acc_app. Qed.

(** The last character of a string that is not empty. *)
Lemma last_of_snoc (prev : option ascii) (t : string) (d : ascii) :
  last_of prev t = Some d ->
  t <> EmptyString ->
  exists t0, t = t0 +:+ String d EmptyString.
Proof.
  revert prev. induction t as [|c t IH]; intros prev H Hne; [contradiction|].
  cbn [last_of] in H. destruct t as [|c' t'].
  - cbn [last_of] in H. injection H as ->. exists EmptyString. reflexivity.
  - destruct (IH (Some c) H) as (t0 & Ht0); [discriminate|].
    exists (String c t0). rewrite append_cons, <- Ht0. reflexivity.
Qed.

Lemma rstrip_app_text (t v : string) (d : ascii) :
  Py.is_space d = false ->
  Py.rstrip ((t +:+ String d EmptyString) +:+ v)
  = (t +:+ String d EmptyString) +:+ Py.rstrip v.
Proof.
  intros Hd. unfold Py.rstrip.
  rewrite rev_app, (rev_app t).
  change (Py.rev (String d EmptyString)) with (String d EmptyString).
  rewrite append_cons, append_empty_l.
  rewrite (lstrip_app_text _ _ _ Hd), rev_app, rev_cons, rev_involutive.
  reflexivity.
Qed.

Lemma rstrip_prefix (s : string) : exists z, s = Py.rstrip s +:+ z.
Proof.
  unfold Py.rstrip. destruct (lstrip_split (Py.rev s)) as (y & Hs & _).
  exists (Py.rev y).
  rewrite <- rev_app, <- Hs, rev_involutive. reflexivity.
Qed.

Lemma word_after_rstrip (s : string) : word_after (Py.rstrip s) = word_after s.
Proof.
  destruct s as [|c s]; [reflexivity|].
  cbn [word_after]. destruct (Py.is_word c) eqn:Hw.
  - assert (Hc : Py.is_space c = false).
    { destruct (Py.is_space c) eqn:Hs; [|reflexivity].
      apply space_not_word in Hs. congruence. }
    pose proof (rstrip_app_text EmptyString s c Hc) as H.
    rewrite !append_empty_l, !append_cons, !append_empty_l in H.
    rewrite H. cbn [word_after]. exact Hw.
  - destruct (rstrip_prefix (String c s)) as (z & Hz).
    destruct (Py.rstrip (String c s)) as [|c' t]; [reflexivity|].
    rewrite append_cons in Hz. injection Hz as <- _. cbn [word_after]. exact Hw.
Qed.

Lemma last_of_spaces (y : string) :
  Urllib.all_chars Py.is_space y = true -> word_before (last_of None y) = false.
Proof.
  assert (H : forall prev, word_before prev = false ->
                           Urllib.all_chars Py.is_space y = true ->
                           word_before (last_of prev y) = false).
  { induction y as [|c y IH]; intros prev Hp Hy; [exact Hp|].
    cbn [Urllib.all_chars] in Hy. apply andb_true_iff in Hy as [Hc Hy].
    cbn [last_of]. apply IH; [|exact Hy]. cbn [word_before].
    apply space_not_word. exact Hc. }
  apply H. reflexivity.
Qed.

Lemma word_before_lstrip (u : string) :
  word_before (last_of None (Py.lstrip u)) = word_before (last_of None u).
Proof.
  destruct (lstrip_split u) as (y & Hu & Hy).
  rewrite Hu at 2. rewrite last_of_app.
  destruct (Py.lstrip u) as [|c t].
  - cbn [last_of]. symmetry. apply last_of_spaces. exact Hy.
  - reflexivity.
Qed.

(** ** The search on the stripped text *)

Lemma found_strip (r : regex) (s : string) :
  plain r = true -> starts_on_text r -> ends_on_text r ->
  found r s = true -> found r (Py.strip s) = true.
Proof.
  intros Hp Hstart Hend Hf. unfold found, re_search in *.
  destruct (search_from r None s) as [h|] eqn:Hs; [|discriminate].
  apply (search_from_sound _ _ _ _ Hp) in Hs.
  destruct Hs as (u & v & p' & s' & Hsplit & Hm).
  destruct (Hstart _ _ _ _ Hm) as (c & t & Hv & Hc & Hlt).
  destruct (Hend _ _ _ _ Hm) as (d & Hp' & Hd & Hlen).
  destruct (matches_retail _ _ _ _ _ Hm EmptyString s' (Py.rstrip s') eq_refl)
    as (w & Hvw & Hlast & Hm').
  { intros _. symmetry. apply word_after_rstrip. }
  rewrite !append_empty_l in *.
  assert (Hw : w <> EmptyString).
  { intros ->. rewrite append_empty_l in Hvw. rewrite Hvw in Hlen. lia. }
  destruct w as [|c0 w0]; [contradiction|].
  assert (Hc0 : c0 = c).
  { rewrite Hv, append_cons in Hvw. injection Hvw as -> _. reflexivity. }
  subst c0.
  destruct (matches_reprev _ _ _ _ _ Hm' (last_of None (Py.lstrip u)))
    as (q & Hm2 & _); [apply word_before_lstrip|].
  assert (Hstrip : Py.strip s = Py.lstrip u +:+ (String c w0 +:+ Py.rstrip s')).
  { unfold Py.strip. rewrite Hsplit, Hvw, append_cons, (lstrip_app_text _ _ _ Hc).
    rewrite <- append_cons.
    assert (Hl : last_of None (Py.lstrip u +:+ String c w0) = Some d).
    { rewrite last_of_app. cbn [last_of]. cbn [last_of] in Hlast.
      rewrite <- Hp'. rewrite <- Hlast. reflexivity. }
    destruct (last_of_snoc _ _ _ Hl) as (t0 & Ht0).
    { destruct (Py.lstrip u); discriminate. }
    rewrite <- append_assoc, Ht0, (rstrip_app_text _ _ _ Hd), <- Ht0, append_assoc.
    reflexivity. }
  rewrite Hstrip.
  destruct (search_from_complete r None _ _ _ _ Hm2) as [h' Hh']. rewrite Hh'. reflexivity.
Qed.

End StripInvariance.

(* ===================================================================== *)
(** * Properties of the tool belt                                         *)
(* ===================================================================== *)

Section ToolBeltProperties.
Context {E : Externals}.

Lemma deny_check_fires (cmdline pat : string) (r : Re.regex) :
  In (pat, r) Config.DENY_PATTERNS ->
  Re.found r cmdline = true ->
  exists pat',
    In pat' (map fst Config.DENY_PATTERNS)
    /\ Tools._deny_check cmdline
       = Some (Tools.ValueError ("Denied command pattern matched: " +:+ pat')).
Proof.
  intros Hin Hfound. unfold Tools._deny_check.
  destruct (List.find (fun p => Re.found (snd p) cmdline) Config.DENY_PATTERNS)
    as [[pat' r']|] eqn:Hfind.
  - exists pat'. split; [|reflexivity].
    apply find_some in Hfind. destruct Hfind as [Hin' _].
    apply in_map_iff. exists (pat', r'). split; [reflexivity|exact Hin'].
  - exfalso. apply (find_none _ _ Hfind) in Hin. simpl in Hin. congruence.
Qed.

(** C10. A command whose text, as [shell] strips it, matches one of the
    DENY_PATTERNS makes [shell] raise the ValueError of [_deny_check]
    before anything else happens: the tracked cwd and the exported
    environment are those before the call, the container is untouched and
    no exec was started. *)
Theorem shell_denied_is_atomic (cmd pat : string) (r : Re.regex) (sys : Tools.Sys) :
  In (pat, r) Config.DENY_PATTERNS ->
  Re.found r (Py.strip cmd) = true ->
  exists pat',
    In pat' (map fst Config.DENY_PATTERNS)
    /\ fst (Tools.shell cmd sys)
       = inl (Tools.ValueError ("Denied command pattern matched: " +:+ pat'))
    /\ snd (Tools.shell cmd sys) = sys
    /\ Tools.cwd (Tools.tb (snd (Tools.shell cmd sys))) = Tools.cwd (Tools.tb sys)
    /\ Tools.env (Tools.tb (snd (Tools.shell cmd sys))) = Tools.env (Tools.tb sys)
    /\ Tools.exec_log (snd (Tools.shell cmd sys)) = Tools.exec_log sys.
Proof.
  intros Hin Hfound.
  destruct (deny_check_fires _ _ _ Hin Hfound) as [pat' [Hpat Hdeny]].
  exists pat'. unfold Tools.shell. rewrite Hdeny. simpl.
  split; [exact Hpat|]. repeat split.
Qed.

End ToolBeltProperties.

(** The command [sudo rm -rf /work/x] on the fixture. *)
Lemma shell_denied_is_atomic_witness :
  exists pat',
    In pat' (map fst Config.DENY_PATTERNS)
    /\ fst (@Tools.shell Fixture.stub "  sudo rm -rf /work/x " Fixture.sys0)
       = inl (Tools.ValueError ("Denied command pattern matched: " +:+ pat'))
    /\ snd (Tools.shell "  sudo rm -rf /work/x " Fixture.sys0) = Fixture.sys0
    /\ Tools.cwd (Tools.tb (snd (Tools.shell "  sudo rm -rf /work/x " Fixture.sys0)))
       = Tools.cwd (Tools.tb Fixture.sys0)
    /\ Tools.env (Tools.tb (snd (Tools.shell "  sudo rm -rf /work/x " Fixture.sys0)))
       = Tools.env (Tools.tb Fixture.sys0)
    /\ Tools.exec_log (snd (Tools.shell "  sudo rm -rf /work/x " Fixture.sys0))
       = Tools.exec_log Fixture.sys0.
Proof.
  apply (@shell_denied_is_atomic Fixture.stub "  sudo rm -rf /work/x " "\bsudo\b"
           (Re.seqs [Re.WordB; Re.lit "sudo"; Re.WordB])).
  - simpl. do 4 right. left. reflexivity.
  - vm_compute. reflexivity.
Defined.

(* ===================================================================== *)
(** * More on the tool belt                                               *)
(* ===================================================================== *)

Section ToolBeltSession.
Context {E : Externals}.

(** A command in which a DENY_PATTERN is found, before any stripping,
    makes [shell] raise the ValueError of [_deny_check]: the white space
    that [shell] strips off cannot hide a match.  Nothing is executed and
    the tool belt is unchanged. *)
Theorem shell_denies_unstripped_match (cmd pat : string) (r : Re.regex) (sys : Tools.Sys) :
  In (pat, r) Config.DENY_PATTERNS ->
  Re.found r cmd = true ->
  exists pat',
    In pat' (map fst Config.DENY_PATTERNS)
    /\ Tools.shell cmd sys
       = (inl (Tools.ValueError ("Denied command pattern matched: " +:+ pat')), sys).
Proof.
  intros Hin Hfound.
  destruct (deny_patterns_on_text pat r Hin) as (Hp & Hs & He).
  pose proof (found_strip r cmd Hp Hs He Hfound) as Hstrip.
  destruct (deny_check_fires _ _ _ Hin Hstrip) as [pat' [Hpat Hdeny]].
  exists pat'. split; [exact Hpat|]. unfold Tools.shell. rewrite Hdeny. reflexivity.
Qed.

(** ** The session state *)

Lemma normalize_cwd_confined (tb : Tools.ToolBelt) (target d : string) :
  Tools.confined (Tools.cwd tb) = true ->
  Tools._normalize_cwd tb target = inr d ->
  Tools.confined d = true.
Proof.
  intros Hc. unfold Tools._normalize_cwd. cbv zeta.
  destruct (negb (Py.truthy (Py.strip target))).
  - intros H. injection H as <-. exact Hc.
  - match goal with
    | |- (if ?b then _ else _) = _ -> _ => destruct b eqn:Hb
    end; [|discriminate].
    intros H. injection H as <-. exact Hb.
Qed.

Lemma export_token_cwd (tb : Tools.ToolBelt) (tok : string) :
  Tools.cwd (Tools.export_token tb tok) = Tools.cwd tb.
Proof.
  unfold Tools.export_token. destruct (Py.split_once "=" tok) as [[k v]|]; [|reflexivity].
  destruct (Re.re_match Tools.ident_re k); reflexivity.
Qed.

Lemma export_tokens_cwd (toks : list string) (tb : Tools.ToolBelt) :
  Tools.cwd (fold_left Tools.export_token toks tb) = Tools.cwd tb.
Proof.
  revert tb. induction toks as [|t toks IH]; intros tb; [reflexivity|].
  cbn [fold_left]. rewrite IH. apply export_token_cwd.
Qed.

Lemma update_parts_confined (parts : list string) (tb : Tools.ToolBelt) :
  Tools.confined (Tools.cwd tb) = true ->
  Tools.confined (Tools.cwd (fst (Tools.update_parts parts tb))) = true.
Proof.
  revert tb. induction parts as [|part parts IH]; intros tb Hc; [exact Hc|].
  cbn [Tools.update_parts]. cbv zeta.
  destruct (negb (Py.truthy (Py.strip part))); [apply IH; exact Hc|].
  destruct (Re.re_match Tools.cd_re (Py.strip part)) as [h|].
  - destruct (Tools._normalize_cwd tb _) as [e|d] eqn:Hn; [exact Hc|].
    apply IH. cbn [Tools.cwd]. exact (normalize_cwd_confined _ _ _ Hc Hn).
  - destruct (Re.re_match Tools.export_re (Py.strip part)) as [h|]; [|exact Hc].
    apply IH. rewrite export_tokens_cwd. exact Hc.
Qed.

Lemma update_state_confined (cmd : string) (tb : Tools.ToolBelt) :
  Tools.confined (Tools.cwd tb) = true ->
  Tools.confined (Tools.cwd (fst (Tools._update_persistent_state cmd tb))) = true.
Proof.
  intros Hc. unfold Tools._update_persistent_state. cbv zeta.
  destruct (negb (Py.truthy (Py.strip cmd))); [exact Hc|].
  apply update_parts_confined. exact Hc.
Qed.

(** The tracked working directory never leaves /work and /input: if it
    is /work, /input or below one of them before a call of [shell], it is
    so after the call, whether the call returns or raises; and the cwd
    reported in a returned observation is the tracked one. *)
Theorem shell_keeps_cwd_confined (cmd : string) (sys : Tools.Sys) :
  Tools.confined (Tools.cwd (Tools.tb sys)) = true ->
  let out := Tools.shell cmd sys in
  Tools.confined (Tools.cwd (Tools.tb (snd out))) = true
  /\ forall obs, fst out = inr obs ->
                 obs_cwd obs = Some (Tools.cwd (Tools.tb (snd out))).
Proof.
  intros Hc. cbv zeta. unfold Tools.shell. cbv zeta.
  destruct (Tools._deny_check (Py.strip cmd)) as [e|].
  - split; [exact Hc|discriminate].
  - pose proof (update_state_confined (Py.strip cmd) (Tools.tb sys) Hc) as Hu.
    destruct (Tools._update_persistent_state (Py.strip cmd) (Tools.tb sys))
      as [tb1 [e|]]; cbn [fst] in Hu.
    + split; [exact Hu|discriminate].
    + unfold Tools.sm_exec. cbn [Tools.world Tools.tb Tools.exec_log].
      destruct (docker_exec (Tools.world sys) _) as [w [code out]].
      cbn [fst snd Tools.tb]. split; [exact Hu|].
      intros obs H. injection H as <-. reflexivity.
Qed.





Lemma accepted_name_head (k : string) :
  Tools.accepted_name k ->
  exists c t, k = String c t /\ (Py.is_alpha c || Ascii.eqb c "_") = true.
Proof.
  unfold Tools.accepted_name, Re.re_match, Re.match_here, Tools.ident_re.
  cbn [Re.seqs Re.exec_re].
  destruct k as [|c t]; [intros [h H]; discriminate|].
  destruct (Py.is_alpha c || Ascii.eqb c "_") eqn:Hc; [|intros [h H]; discriminate].
  intros _. exists c, t. split; [reflexivity|exact Hc].
Qed.

Lemma export_token_names (tb : Tools.ToolBelt) (tok : string) :
  (forall k, is_Some (Tools.env tb !! k) -> Tools.accepted_name k) ->
  forall k, is_Some (Tools.env (Tools.export_token tb tok) !! k) -> Tools.accepted_name k.
Proof.
  intros Hall k. unfold Tools.export_token.
  destruct (Py.split_once "=" tok) as [[k0 v]|]; [|apply Hall].
  destruct (Re.re_match Tools.ident_re k0) as [h|] eqn:Hm; [|apply Hall].
  cbn [Tools.env]. destruct (decide (k0 = k)) as [->|Hne].
  - intros _. exists h. exact Hm.
  - rewrite lookup_insert_ne by exact Hne. apply Hall.
Qed.

Lemma export_tokens_names (toks : list string) (tb : Tools.ToolBelt) :
  (forall k, is_Some (Tools.env tb !! k) -> Tools.accepted_name k) ->
  forall k, is_Some (Tools.env (fold_left Tools.export_token toks tb) !! k) ->
            Tools.accepted_name k.
Proof.
  revert tb. induction toks as [|t toks IH]; intros tb Hall; [exact Hall|].
  cbn [fold_left]. apply IH. apply export_token_names. exact Hall.
Qed.

Lemma update_parts_names (parts : list string) (tb : Tools.ToolBelt) :
  (forall k, is_Some (Tools.env tb !! k) -> Tools.accepted_name k) ->
  forall k, is_Some (Tools.env (fst (Tools.update_parts parts tb)) !! k) ->
            Tools.accepted_name k.
Proof.
  revert tb. induction parts as [|part parts IH]; intros tb Hall; [exact Hall|].
  cbn [Tools.update_parts]. cbv zeta.
  destruct (negb (Py.truthy (Py.strip part))); [apply IH; exact Hall|].
  destruct (Re.re_match Tools.cd_re (Py.strip part)) as [h|].
  - destruct (Tools._normalize_cwd tb _) as [e|d]; [exact Hall|].
    apply IH. exact Hall.
  - destruct (Re.re_match Tools.export_re (Py.strip part)) as [h|]; [|exact Hall].
    apply IH. apply export_tokens_names. exact Hall.
Qed.

(** The exported environment only ever holds names that
    [^[A-Za-z_][A-Za-z0-9_]*$] accepts, so names that begin with a letter
    or an underscore: if that is so before a call of [shell], it is so
    after it, whatever the command exports. *)
Theorem shell_exports_accepted_names (cmd : string) (sys : Tools.Sys) :
  (forall k, is_Some (Tools.env (Tools.tb sys) !! k) -> Tools.accepted_name k) ->
  forall k, is_Some (Tools.env (Tools.tb (snd (Tools.shell cmd sys))) !! k) ->
            Tools.accepted_name k
            /\ exists c t, k = String c t /\ (Py.is_alpha c || Ascii.eqb c "_") = true.
Proof.
  intros Hall k Hk.
  assert (Hacc : Tools.accepted_name k).
  { revert Hk. unfold Tools.shell. cbv zeta.
    destruct (Tools._deny_check (Py.strip cmd)) as [e|]; [apply Hall|].
    pose proof (fun k => update_parts_names
                  (Re.split Tools.chain_re (Py.strip (Py.strip cmd))) (Tools.tb sys) Hall k)
      as Hu.
    unfold Tools._update_persistent_state. cbv zeta.
    destruct (negb (Py.truthy (Py.strip (Py.strip cmd)))).
    - unfold Tools.sm_exec. cbn [Tools.world Tools.tb Tools.exec_log].
      destruct (docker_exec (Tools.world sys) _) as [w [code out]]. apply Hall.
    - destruct (Tools.update_parts _ (Tools.tb sys)) as [tb1 [e|]]; cbn [fst] in Hu.
      + apply Hu.
      + unfold Tools.sm_exec. cbn [Tools.world Tools.tb Tools.exec_log].
        destruct (docker_exec (Tools.world sys) _) as [w [code out]]. apply Hu. }
  split; [exact Hacc|apply accepted_name_head; exact Hacc].
Qed.

End ToolBeltSession.

(** A command with white space around it, a tab and a newline included. *)
Lemma shell_denies_unstripped_match_witness :
  let cmd := String "009" " ls && sudo reboot " +:+ Py.nl in
  Re.found (Re.seqs [Re.WordB; Re.lit "sudo"; Re.WordB]) cmd = true
  /\ exists pat',
       In pat' (map fst Config.DENY_PATTERNS)
       /\ @Tools.shell Fixture.stub cmd Fixture.sys0
          = (inl (Tools.ValueError ("Denied command pattern matched: " +:+ pat')),
             Fixture.sys0).
Proof.
  cbv zeta.
  assert (H1 : In ("\bsudo\b", Re.seqs [Re.WordB; Re.lit "sudo"; Re.WordB])
                  Config.DENY_PATTERNS).
  { simpl. do 4 right. left. reflexivity. }
  assert (H2 : Re.found (Re.seqs [Re.WordB; Re.lit "sudo"; Re.WordB])
                 (String "009" " ls && sudo reboot " +:+ Py.nl) = true)
    by (vm_compute; reflexivity).
  split; [exact H2|].
  exact (@shell_denies_unstripped_match Fixture.stub _ _ _ Fixture.sys0 H1 H2).
Defined.

(** A cd below /work, chained with a command. *)
Lemma shell_keeps_cwd_confined_witness :
  let out := @Tools.shell Fixture.stub "cd data && ls" Fixture.sys0 in
  Tools.confined (Tools.cwd (Tools.tb Fixture.sys0)) = true
  /\ Tools.cwd (Tools.tb (snd out)) = "/work/data"
  /\ Tools.confined (Tools.cwd (Tools.tb (snd out))) = true.
Proof.
  cbv zeta.
  assert (H : Tools.confined (Tools.cwd (Tools.tb Fixture.sys0)) = true) by reflexivity.
  split; [exact H|]. split; [vm_compute; reflexivity|].
  exact (proj1 (@shell_keeps_cwd_confined Fixture.stub "cd data && ls" Fixture.sys0 H)).
Defined.

(** A cd out of /work is refused: [shell] raises, nothing is executed and
    the tracked directory stays, while the export before it is kept. *)
Lemma shell_refuses_cd_outside :
  let out := @Tools.shell Fixture.stub "export A=1; cd /etc && ls" Fixture.sys0 in
  fst out = inl (Tools.ValueError "Denied cwd outside /work or /input")
  /\ Tools.cwd (Tools.tb (snd out)) = "/work"
  /\ Tools.env (Tools.tb (snd out)) !! "A" = Some "1"
  /\ Tools.exec_log (snd out) = [].
Proof. vm_compute. repeat split. Qed.

(** An export of two names, one of them not a name. *)
Lemma shell_exports_accepted_names_witness :
  let out := @Tools.shell Fixture.stub "export GOOD=1 2BAD=2" Fixture.sys0 in
  Tools.env (Tools.tb (snd out)) !! "GOOD" = Some "1"
  /\ Tools.env (Tools.tb (snd out)) !! "2BAD" = None
  /\ Tools.accepted_name "GOOD".
Proof.
  cbv zeta.
  assert (H0 : forall k, is_Some (Tools.env (Tools.tb Fixture.sys0) !! k) ->
                         Tools.accepted_name k).
  { intros k [v Hv]. cbn in Hv. rewrite lookup_empty in Hv. discriminate. }
  assert (H1 : Tools.env (Tools.tb (snd (@Tools.shell Fixture.stub "export GOOD=1 2BAD=2"
                                           Fixture.sys0))) !! "GOOD" = Some "1")
    by (vm_compute; reflexivity).
  split; [exact H1|]. split; [vm_compute; reflexivity|].
  exact (proj1 (@shell_exports_accepted_names Fixture.stub "export GOOD=1 2BAD=2"
                  Fixture.sys0 H0 "GOOD" (ex_intro _ "1" H1))).
Defined.

(* ===================================================================== *)
(** * Properties of the SCOUT cap                                         *)
(* ===================================================================== *)

Section ScoutProperties.
Context {E : Externals}.
Import Verifier.


Lemma scout_cap_capped (need : bool) (items : list CheckItem) (d : VerifierDecision) :
  scout_reasons need items <> [] ->
  score (scout_cap need items d) = Z.min (score d) 2
  /\ instructions (scout_cap need items d)
     = firstn 3 (instructions d ++ canned_instructions (scout_reasons need items))
  /\ score_before_cap (meta (scout_cap need items d)) = Some (score d)
  /\ score_capped (meta (scout_cap need items d)) = true
  /\ cap_reasons (meta (scout_cap need items d)) = Some (scout_reasons need items).
Proof.
  intros H. unfold scout_cap.
  destruct (scout_reasons need items) as [|r rs] eqn:Hr; [congruence|].
  cbn. repeat split.
Qed.


End ScoutProperties.


(* ===================================================================== *)
(** * What a high score of the verifier rests on                          *)
(* ===================================================================== *)

Section ScoutGuarantees.
Context {E : Externals}.
Import Verifier.

Lemma scout_reasons_nil (need : bool) (items : list CheckItem) :
  scout_reasons need items = [] ->
  count_unknown items = 0
  /\ 2 <= List.length (_distinct_domains (_evidence_urls items))
  /\ (need = true -> coverage_of items = Some true).
Proof.
  unfold scout_reasons, compute_cap_reasons. intros H.
  apply app_eq_nil in H as [H1 H]. apply app_eq_nil in H as [H2 H3].
  split; [|split].
  - destruct (Nat.ltb_spec 0 (count_unknown items)); [discriminate|lia].
  - destruct (Nat.ltb_spec (List.length (_distinct_domains (_evidence_urls items))) 2);
      [discriminate|lia].
  - intros ->. cbn [andb] in H3.
    destruct (coverage_of items) as [[|]|]; cbn in H3; try discriminate. reflexivity.
Qed.

(** A decision of [deep_verify] with score 3 or more rests on evidence:
    no check is unknown, the cited URLs span at least two distinct
    domains, and when the answer is a negative one or the task asks for
    coverage, the last coverage check was answered yes.  Such a decision
    is the judge's, score and instructions unchanged. *)
Theorem high_score_rests_on_evidence (task answer : string) (run : VerifierRun) :
  let d := deep_verify task answer run in
  (3 <= score d)%Z ->
  count_unknown (vr_results run) = 0
  /\ 2 <= List.length (_distinct_domains (_evidence_urls (vr_results run)))
  /\ (_is_negative_answer answer = true \/ _needs_coverage task = true ->
      coverage_of (vr_results run) = Some true)
  /\ score d = score (vr_judged run)
  /\ instructions d = instructions (vr_judged run)
  /\ cap_reasons (meta d) = cap_reasons (meta (vr_judged run)).
Proof.
  cbv zeta. unfold deep_verify. cbv zeta.
  set (need := need_coverage_of task answer).
  destruct (scout_reasons need (vr_results run)) as [|r rs] eqn:Hr.
  - destruct (scout_reasons_nil _ _ Hr) as (Hu & Hd & Hc).
    unfold scout_cap. rewrite Hr. cbn [score instructions meta cap_reasons].
    intros _. split; [exact Hu|]. split; [exact Hd|]. split; [|repeat split].
    intros Hneed. apply Hc. unfold need, need_coverage_of.
    destruct Hneed as [-> | ->]; [reflexivity|apply orb_true_r].
  - match goal with
    | |- context [scout_cap need ?i ?d0] =>
        destruct (scout_cap_capped need i d0) as (Hs & _); [rewrite Hr; discriminate|]
    end.
    rewrite Hs. cbn [score]. lia.
Qed.

(** [deep_verify] never raises the judge's score, keeps the judge's
    checks, and always returns an explanation that is not empty. *)
Theorem deep_verify_never_raises_score (task answer : string) (run : VerifierRun) :
  let d := deep_verify task answer run in
  (score d <= score (vr_judged run))%Z
  /\ checks d = checks (vr_judged run)
  /\ Py.truthy (explanation d) = true
  /\ List.length (instructions d) <= Nat.max 3 (List.length (instructions (vr_judged run))).
Proof.
  cbv zeta. unfold deep_verify, scout_cap. cbv zeta.
  destruct (scout_reasons _ (vr_results run)) as [|r rs];
    cbn [score checks explanation instructions].
  - split; [lia|]. split; [reflexivity|]. split; [|lia].
    destruct (Py.truthy (explanation (vr_judged run))) eqn:He; [exact He|reflexivity].
  - split; [lia|]. split; [reflexivity|]. split.
    + destruct (Py.truthy (explanation (vr_judged run))) eqn:He.
      * destruct (explanation (vr_judged run)); [discriminate|reflexivity].
      * reflexivity.
    + rewrite length_firstn. lia.
Qed.

(** ** [_distinct_domains] *)

Lemma distinct_domains_from_spec (urls : list string) (seen : gset string)
    (domains : list string) :
  List.NoDup domains ->
  (forall x, x ∈ seen <-> In x domains) ->
  Forall (fun x => Py.truthy x = true) domains ->
  let out := distinct_domains_from urls seen domains in
  List.NoDup out /\ Forall (fun x => Py.truthy x = true) out
  /\ List.length out <= List.length domains + List.length urls.
Proof.
  revert seen domains. induction urls as [|u urls IH]; intros seen domains Hnd Hseen Ht;
    cbn [distinct_domains_from].
  - cbv zeta. split; [apply NoDup_rev; exact Hnd|]. split.
    + apply List.Forall_forall. intros x Hx. apply in_rev in Hx.
      exact (proj1 (List.Forall_forall _ _) Ht x Hx).
    + rewrite length_rev. cbn. lia.
  - destruct (Urllib.urlparse u) as [pr|].
    + cbv zeta.
      match goal with
      | |- context [if negb (Py.truthy ?n) || _ then _ else _] => set (netloc := n)
      end.
      destruct (Py.truthy netloc) eqn:Hn; cbn [negb orb].
      * destruct (bool_decide (netloc ∈ seen)) eqn:Hin.
        -- destruct (IH seen domains Hnd Hseen Ht) as (H1 & H2 & H3).
           cbv zeta in H1, H2, H3. repeat split; try assumption. cbn [List.length]. lia.
        -- apply bool_decide_eq_false in Hin.
           destruct (IH ({[netloc]} ∪ seen) (netloc :: domains)) as (H1 & H2 & H3).
           ++ constructor; [|exact Hnd]. intros Hc. apply Hin. apply Hseen. exact Hc.
           ++ intros x. rewrite elem_of_union, elem_of_singleton, Hseen. cbn [In].
              split; intros [H|H]; auto.
           ++ constructor; [exact Hn|exact Ht].
           ++ cbv zeta in H1, H2, H3. repeat split; try assumption.
              cbn [List.length] in *. lia.
      * destruct (IH seen domains Hnd Hseen Ht) as (H1 & H2 & H3).
        cbv zeta in H1, H2, H3. repeat split; try assumption. cbn [List.length]. lia.
    + destruct (IH seen domains Hnd Hseen Ht) as (H1 & H2 & H3).
      cbv zeta in H1, H2, H3. repeat split; try assumption. cbn [List.length]. lia.
Qed.

(** [_distinct_domains] returns each domain once: the list has no
    duplicate and no empty entry, and is no longer than the list of URLs. *)
Theorem distinct_domains_are_distinct (urls : list string) :
  List.NoDup (_distinct_domains urls)
  /\ Forall (fun x => Py.truthy x = true) (_distinct_domains urls)
  /\ List.length (_distinct_domains urls) <= List.length urls.
Proof.
  unfold _distinct_domains.
  destruct (distinct_domains_from_spec urls ∅ []) as (H1 & H2 & H3).
  - constructor.
  - intros x. rewrite elem_of_empty. cbn. tauto.
  - constructor.
  - cbv zeta in H1, H2, H3. repeat split; assumption.
Qed.

End ScoutGuarantees.

(** Two citations from two domains, no coverage needed, judge score 4. *)
Lemma high_score_rests_on_evidence_witness :
  let run := Fixture.verifier_says 4 Fixture.two_domains in
  let d := @Verifier.deep_verify Fixture.stub "find foo" "The answer is 42." run in
  (3 <= Verifier.score d)%Z
  /\ @Verifier.count_unknown Fixture.stub (Verifier.vr_results run) = 0
  /\ 2 <= List.length (@Verifier._distinct_domains
                         (@Verifier._evidence_urls Fixture.stub (Verifier.vr_results run)))
  /\ Verifier.score d = 4%Z.
Proof.
  cbv zeta.
  assert (H : (3 <= Verifier.score
                      (@Verifier.deep_verify Fixture.stub "find foo" "The answer is 42."
                         (Fixture.verifier_says 4 Fixture.two_domains)))%Z)
    by (apply Z.leb_le; vm_compute; reflexivity).
  destruct (@high_score_rests_on_evidence Fixture.stub "find foo" "The answer is 42."
              (Fixture.verifier_says 4 Fixture.two_domains) H) as (H1 & H2 & _ & H4 & _).
  split; [exact H|]. split; [exact H1|]. split; [exact H2|]. exact H4.
Defined.

(* ===================================================================== *)
(** * Stability of the derived dimensions                                 *)
(* ===================================================================== *)

Section Dimensions.
Import Loop.

(** ** Facts on strings *)









(** ** The scan for maximal runs *)












Context {E : Externals}.




End Dimensions.



(* ===================================================================== *)
(** * The evidence ledger and the trace                                   *)
(* ===================================================================== *)

Section Ledger.
Context {E : Externals}.
Import Loop.

(** ** What [record_evidence] changes *)

Lemma record_evidence_id (step : nat) (tl : string) (a : Args) (obs : Obs)
    (st : LoopState) :
  fst (record_evidence step tl a obs st) = evidence_id (S (evidence_counter (ledgers st))).
Proof. reflexivity. Qed.

Lemma record_evidence_ledgers (step : nat) (tl : string) (a : Args) (obs : Obs)
    (st : LoopState) :
  let l := ledgers st in
  ledgers (snd (record_evidence step tl a obs st))
  = {| evidence_counter := S (evidence_counter l);
       move_counter := move_counter l;
       query_counter := query_counter l;
       evidence_ids := {[ evidence_id (S (evidence_counter l)) ]} ∪ evidence_ids l;
       evidence := evidence l ++ [new_evidence step tl a obs st];
       move_ledger := move_ledger l;
       query_ledger := query_ledger l;
       trace := trace l |}.
Proof.
  unfold record_evidence. cbv zeta. cbn [snd].
  match goal with |- context [if Py.truthy ?f then _ else _] => destruct (Py.truthy f) end.
  - match goal with |- context [if opt_eqb ?x ?y then _ else _] => destruct (opt_eqb x y) end;
      reflexivity.
  - reflexivity.
Qed.

Lemma record_evidence_frame (step : nat) (tl : string) (a : Args) (obs : Obs)
    (st : LoopState) :
  let st' := snd (record_evidence step tl a obs st) in
  sys st' = sys st /\ history st' = history st /\ flags st' = flags st
  /\ counters st' = counters st /\ moves st' = moves st /\ domains st' = domains st
  /\ pending_gradient st' = pending_gradient st /\ last st' = last st.
Proof.
  unfold record_evidence. cbv zeta. cbn [snd].
  match goal with |- context [if Py.truthy ?f then _ else _] => destruct (Py.truthy f) end.
  - match goal with |- context [if opt_eqb ?x ?y then _ else _] => destruct (opt_eqb x y) end;
      repeat split; reflexivity.
  - repeat split; reflexivity.
Qed.

(** ** Running the monad *)

Lemma bind_modify {B : Type} (f : LoopState -> LoopState) (k : unit -> M B)
    (st : LoopState) :
  bind (modify f) k st = k tt (f st).
Proof. reflexivity. Qed.

Lemma bind_gets {A B : Type} (f : LoopState -> A) (k : A -> M B) (st : LoopState) :
  bind (gets f) k st = k (f st) st.
Proof. reflexivity. Qed.


Lemma bind_lift {A B : Type} (g : LoopState -> A * LoopState) (k : A -> M B)
    (st : LoopState) :
  bind (lift g) k st = k (fst (g st)) (snd (g st)).
Proof. unfold bind, lift. destruct (g st). reflexivity. Qed.

Lemma bind_notes_append {B : Type} (text : string) (k : unit -> M B) (st : LoopState) :
  bind (notes_append text) k st
  = match Tools.shell (append_script text) (sys st) with
    | (inl e, sys') => (Raise e, set_sys sys' st)
    | (inr o, sys') =>
        k tt (trace_event
                (EvTool (Some "runtime") (Some 0) "shell"
                        {[ "cmd" := append_script text ]} o)
                (set_sys sys' st))
    end.
Proof.
  unfold notes_append, runtime_shell, bind, ret.
  destruct (Tools.shell (append_script text) (sys st)) as [[e|o] sys']; reflexivity.
Qed.

Lemma bind_step {A B : Type} (c : M A) (k : A -> M B) (st : LoopState) (a : A) :
  fst (c st) = Next a -> bind c k st = k a (snd (c st)).
Proof. unfold bind. destruct (c st) as [[x|s|e] st']; cbn; congruence. Qed.

End Ledger.

Section LedgerInvariant.
Context {E : Externals}.
Import Loop.

(** ** Maintaining a predicate through the monad *)

Lemma preserves_ret {A : Type} (P : LoopState -> Prop) (a : A) : preserves P (ret a).
Proof. intros st H. exact H. Qed.

Lemma preserves_return {A : Type} (P : LoopState -> Prop) (s : string) :
  preserves P (@return_ E A s).
Proof. intros st H. exact H. Qed.

Lemma preserves_gets {A : Type} (P : LoopState -> Prop) (f : LoopState -> A) :
  preserves P (gets f).
Proof. intros st H. exact H. Qed.

Lemma preserves_bind {A B : Type} (P : LoopState -> Prop) (c : M A) (k : A -> M B) :
  preserves P c -> (forall a, preserves P (k a)) -> preserves P (bind c k).
Proof.
  intros Hc Hk st H. unfold bind. specialize (Hc st H).
  destruct (c st) as [[a|s|e] st']; cbn [snd] in *; [|exact Hc|exact Hc].
  apply Hk. exact Hc.
Qed.

Lemma preserves_when (P : LoopState -> Prop) (b : bool) (c : M unit) :
  preserves P c -> preserves P (when b c).
Proof. intros Hc. destruct b; [exact Hc|apply preserves_ret]. Qed.

Lemma preserves_for_each {A : Type} (P : LoopState -> Prop) (f : A -> M unit)
    (l : list A) :
  (forall x, preserves P (f x)) -> preserves P (for_each f l).
Proof.
  intros Hf. induction l as [|x l IH]; cbn [for_each]; [apply preserves_ret|].
  apply preserves_bind; [apply Hf|intros _; exact IH].
Qed.

(** ** Updates that leave the ledger view alone *)

Lemma ledger_inv_view (st st' : LoopState) :
  ledger_view st' = ledger_view st -> ledger_inv st -> ledger_inv st'.
Proof.
  unfold ledger_view, ledger_inv. cbv zeta. intros Hv. injection Hv as He Hc Hi Ht.
  rewrite He, Hc, Hi, Ht. exact (fun H => H).
Qed.

Lemma view_predicate_ledger_inv : view_predicate ledger_inv.
Proof. intros st st'. apply ledger_inv_view. Qed.

Lemma view_predicate_evidence (l : list Evidence) :
  view_predicate (fun st => evidence (ledgers st) = l).
Proof.
  intros st st' Hv H. unfold ledger_view in Hv. injection Hv as He _ _ _.
  rewrite He. exact H.
Qed.

Lemma preserves_modify (P : LoopState -> Prop) (f : LoopState -> LoopState) :
  view_predicate P -> keeps_view f -> preserves P (modify f).
Proof. intros HP Hf st H. cbn [modify snd]. exact (HP _ _ (Hf st) H). Qed.

Lemma agent_tool_events_app (tr : list TraceEvent) (ev : TraceEvent) :
  agent_tool_events (tr ++ [ev])
  = agent_tool_events tr ++ match agent_tool_event ev with Some x => [x] | None => [] end.
Proof.
  unfold agent_tool_events. rewrite omap_app. reflexivity.
Qed.

Lemma keeps_view_trace_event (ev : TraceEvent) :
  agent_tool_event ev = None -> keeps_view (trace_event ev).
Proof.
  intros Hev st. unfold ledger_view, trace_event, upd_ledgers.
  cbn [ledgers set_ledgers set_trace evidence evidence_counter evidence_ids trace].
  rewrite agent_tool_events_app, Hev, app_nil_r. reflexivity.
Qed.

(** Rewriting rules for the view. *)
Lemma view_set_flags (v : Flags) (st : LoopState) :
  ledger_view (set_flags v st) = ledger_view st.
Proof. reflexivity. Qed.
Lemma view_set_counters (v : Counters) (st : LoopState) :
  ledger_view (set_counters v st) = ledger_view st.
Proof. reflexivity. Qed.
Lemma view_set_moves (v : Moves) (st : LoopState) :
  ledger_view (set_moves v st) = ledger_view st.
Proof. reflexivity. Qed.
Lemma view_set_domains (v : Domains) (st : LoopState) :
  ledger_view (set_domains v st) = ledger_view st.
Proof. reflexivity. Qed.
Lemma view_set_epistemic (v : EpistemicState) (st : LoopState) :
  ledger_view (set_epistemic v st) = ledger_view st.
Proof. reflexivity. Qed.
Lemma view_set_last_failure_type (v : option string) (st : LoopState) :
  ledger_view (set_last_failure_type v st) = ledger_view st.
Proof. reflexivity. Qed.
Lemma view_set_last_failure_streak (v : nat) (st : LoopState) :
  ledger_view (set_last_failure_streak v st) = ledger_view st.
Proof. reflexivity. Qed.
Lemma view_set_history (v : list Message) (st : LoopState) :
  ledger_view (set_history v st) = ledger_view st.
Proof. reflexivity. Qed.
Lemma view_set_pending_gradient (v : option dict) (st : LoopState) :
  ledger_view (set_pending_gradient v st) = ledger_view st.
Proof. reflexivity. Qed.
Lemma view_set_last (v : string) (st : LoopState) :
  ledger_view (set_last v st) = ledger_view st.
Proof. reflexivity. Qed.
Lemma view_set_sys (v : Tools.Sys) (st : LoopState) :
  ledger_view (set_sys v st) = ledger_view st.
Proof. reflexivity. Qed.
Lemma view_upd_flags (f : Flags -> Flags) (st : LoopState) :
  ledger_view (upd_flags f st) = ledger_view st.
Proof. reflexivity. Qed.
Lemma view_upd_counters (f : Counters -> Counters) (st : LoopState) :
  ledger_view (upd_counters f st) = ledger_view st.
Proof. reflexivity. Qed.
Lemma view_upd_moves (f : Moves -> Moves) (st : LoopState) :
  ledger_view (upd_moves f st) = ledger_view st.
Proof. reflexivity. Qed.
Lemma view_upd_domains (f : Domains -> Domains) (st : LoopState) :
  ledger_view (upd_domains f st) = ledger_view st.
Proof. reflexivity. Qed.
Lemma view_upd_epistemic (f : EpistemicState -> EpistemicState) (st : LoopState) :
  ledger_view (upd_epistemic f st) = ledger_view st.
Proof. reflexivity. Qed.
Lemma view_history_append (r text : string) (st : LoopState) :
  ledger_view (history_append r text st) = ledger_view st.
Proof. reflexivity. Qed.
Lemma view_record_move (step : nat) (tl : string) (d : Dims) (ft : option string) (oc : string) (st : LoopState) :
  ledger_view (record_move step tl d ft oc st) = ledger_view st.
Proof. reflexivity. Qed.
Lemma view_record_query (step : nat) (d : Dims) (oc : string) (st : LoopState) :
  ledger_view (record_query step d oc st) = ledger_view st.
Proof. reflexivity. Qed.
Lemma view_trace_event (ev : TraceEvent) (st : LoopState) :
  agent_tool_event ev = None -> ledger_view (trace_event ev st) = ledger_view st.
Proof. intros H. apply keeps_view_trace_event. exact H. Qed.

Create Rewrite HintDb view.
#[local] Hint Rewrite @view_set_flags @view_set_counters @view_set_moves @view_set_domains @view_set_epistemic @view_set_last_failure_type @view_set_last_failure_streak @view_set_history @view_set_pending_gradient @view_set_last @view_set_sys @view_upd_flags @view_upd_counters @view_upd_moves @view_upd_domains @view_upd_epistemic @view_history_append @view_record_move @view_record_query : view.
#[local] Hint Rewrite @view_trace_event using reflexivity : view.

(** Case analysis on the tests of an update, then the rewriting rules. *)
Ltac keeps_view_tac :=
  intros ?st;
  repeat match goal with
         | |- context [if ?b then _ else _] => destruct b
         | |- context [match ?o with Some _ => _ | None => _ end] => destruct o
         | |- context [match ?o with [] => _ | _ :: _ => _ end] => destruct o
         end;
  autorewrite with view; reflexivity.

Lemma keeps_view_id : keeps_view id.
Proof. intros st. reflexivity. Qed.
Lemma keeps_tool_seen : keeps_view tool_seen.
Proof. unfold tool_seen. keeps_view_tac. Qed.
Lemma keeps_bump_tool_calls : keeps_view bump_tool_calls.
Proof. unfold bump_tool_calls. keeps_view_tac. Qed.
Lemma keeps_drop_gradient (step : nat) : keeps_view (drop_gradient step).
Proof. unfold drop_gradient. keeps_view_tac. Qed.
Lemma keeps_raise_domain_shift (cfg : Config) (d : Dims) :
  keeps_view (raise_domain_shift cfg d).
Proof. unfold raise_domain_shift. keeps_view_tac. Qed.
Lemma keeps_update_domains (cfg : Config) (d : Dims) : keeps_view (update_domains cfg d).
Proof. unfold update_domains. cbv zeta. keeps_view_tac. Qed.
Lemma keeps_update_queries (cfg : Config) (d : Dims) : keeps_view (update_queries cfg d).
Proof. unfold update_queries. cbv zeta. keeps_view_tac. Qed.
Lemma keeps_update_moves (d : Dims) : keeps_view (update_moves d).
Proof. unfold update_moves. cbv zeta. keeps_view_tac. Qed.
Lemma keeps_update_source (cfg : Config) (d : Dims) (ft : option string) :
  keeps_view (update_source cfg d ft).
Proof. unfold update_source. cbv zeta. keeps_view_tac. Qed.
Lemma keeps_update_move_change (cfg : Config) (d : Dims) :
  keeps_view (update_move_change cfg d).
Proof. unfold update_move_change. keeps_view_tac. Qed.
Lemma keeps_enforce_contract (resp : string) : keeps_view (enforce_contract resp).
Proof. unfold enforce_contract. keeps_view_tac. Qed.
Lemma keeps_negative_claim_exhausted (cfg : Config) (step : nat) :
  keeps_view (negative_claim_exhausted cfg step).
Proof. unfold negative_claim_exhausted. keeps_view_tac. Qed.
Lemma keeps_stagnation (cfg : Config) (step : nat) : keeps_view (stagnation cfg step).
Proof. unfold stagnation. cbv zeta. keeps_view_tac. Qed.
Lemma keeps_absorb_gradient (step : nat) (d : Verifier.VerifierDecision) :
  keeps_view (absorb_gradient step d).
Proof. unfold absorb_gradient. cbv zeta. keeps_view_tac. Qed.
Lemma keeps_absorb_low_score (d : Verifier.VerifierDecision) :
  keeps_view (absorb_low_score d).
Proof. unfold absorb_low_score. keeps_view_tac. Qed.
Lemma keeps_pre_turn (cfg : Config) (step : nat) : keeps_view (pre_turn cfg step).
Proof. unfold pre_turn. cbv zeta. keeps_view_tac. Qed.

(** ** The pieces of the loop maintain every view predicate *)

Section ViewPredicate.
Variable P : LoopState -> Prop.
Hypothesis P_view : view_predicate P.

Lemma preserves_runtime_shell (cmd : string) : preserves P (runtime_shell cmd).
Proof.
  intros st H. unfold runtime_shell.
  destruct (Tools.shell cmd (sys st)) as [[e|obs] sys']; cbn [snd];
    refine (P_view _ _ _ H); autorewrite with view; reflexivity.
Qed.

Lemma preserves_notes_append (text : string) : preserves P (notes_append text).
Proof.
  unfold notes_append. apply preserves_bind;
    [apply preserves_runtime_shell|intros _; apply preserves_ret].
Qed.

Lemma preserves_notes_reset (text : string) : preserves P (notes_reset text).
Proof.
  unfold notes_reset. apply preserves_bind;
    [apply preserves_runtime_shell|intros _; apply preserves_ret].
Qed.

Lemma preserves_log_model_output (step : nat) (text tag : string) :
  preserves P (log_model_output step text tag).
Proof.
  unfold log_model_output. destruct (negb (Py.truthy text));
    [apply preserves_ret|apply preserves_notes_append].
Qed.

Lemma preserves_execute_tool (call : ToolCall) : preserves P (execute_tool call).
Proof.
  intros st H. unfold execute_tool.
  destruct (negb (is_shell call)); [exact H|].
  destruct (Tools.shell (args_cmd (args call)) (sys st)) as [[e|obs] sys']; cbn [snd];
    refine (P_view _ _ _ H); autorewrite with view; reflexivity.
Qed.

Lemma preserves_mini_step (ms : Verifier.MiniStep) : preserves P (mini_step ms).
Proof.
  intros st H. unfold mini_step.
  match goal with
  | |- context [let '(_, _) := ?x in _] => destruct x as [obs sys']
  end.
  cbn [snd]. refine (P_view _ _ _ H).
  destruct (Verifier.ms_traced ms); autorewrite with view; reflexivity.
Qed.

Lemma preserves_deep_verify (cfg : Config) (answer : string) (run : Verifier.VerifierRun) :
  preserves P (deep_verify cfg answer run).
Proof.
  unfold deep_verify. apply preserves_bind.
  - apply preserves_for_each. apply preserves_mini_step.
  - intros _. apply preserves_ret.
Qed.

End ViewPredicate.

(** A tool event of the tool branch followed by its evidence record. *)
Lemma preserves_tool_evidence {A : Type} (step : nat) (tl : string) (a : Args)
    (obs : Obs) (k : string -> M A) :
  (forall id, preserves ledger_inv (k id)) ->
  preserves ledger_inv
    (bind (modify (trace_event (EvTool None (Some step) tl a obs)))
          (fun _ => bind (lift (record_evidence step tl a obs)) k)).
Proof.
  intros Hk st H. unfold bind at 1. cbn [modify].
  set (st1 := trace_event (EvTool None (Some step) tl a obs) st).
  unfold bind, lift.
  destruct (record_evidence step tl a obs st1) as [id st2] eqn:Hrec.
  assert (Hl : ledgers st2 = ledgers (snd (record_evidence step tl a obs st1)))
    by (rewrite Hrec; reflexivity).
  rewrite record_evidence_ledgers in Hl. cbv zeta in Hl.
  assert (Hinv : ledger_inv st2).
  { destruct H as (Hkeys & Hcount & Hids & Hset).
    unfold ledger_inv. cbv zeta. rewrite Hl.
    cbn [evidence evidence_counter evidence_ids trace].
    change (ledgers st1) with (set_trace
      (trace (ledgers st) ++ [EvTool None (Some step) tl a obs]) (ledgers st)).
    cbn [evidence evidence_counter evidence_ids trace set_trace].
    rewrite agent_tool_events_app. cbn [agent_tool_event].
    rewrite !map_app, !length_app. cbn [List.length map].
    rewrite Hkeys, Hcount, Hset.
    replace (List.length (evidence (ledgers st)) + 1)
      with (S (List.length (evidence (ledgers st)))) by lia.
    rewrite seq_S, map_app, <- Hids. cbn [map].
    assert (Hid : ev_id (new_evidence step tl a obs st1)
                  = evidence_id (S (List.length (evidence (ledgers st))))).
    { unfold new_evidence. cbn [ev_id].
      change (evidence_counter (ledgers st1)) with (evidence_counter (ledgers st)).
      rewrite Hcount. reflexivity. }
    rewrite Hid. repeat split.
    rewrite list_to_set_app_L. cbn [list_to_set].
    rewrite (right_id_L ∅ (∪)). apply (comm_L (∪)). }
  specialize (Hk id st2 Hinv).
  destruct (k id st2) as [[x|r|e] st3]; exact Hk.
Qed.

Lemma keeps_trace_policy (kind : string) (step : nat) :
  keeps_view (trace_event (EvPolicy kind step)).
Proof. apply keeps_view_trace_event. reflexivity. Qed.

Create HintDb keeps.
#[local] Hint Resolve keeps_view_id keeps_tool_seen keeps_bump_tool_calls
  keeps_drop_gradient keeps_raise_domain_shift keeps_update_domains
  keeps_update_queries keeps_update_moves keeps_update_source
  keeps_update_move_change keeps_enforce_contract keeps_negative_claim_exhausted
  keeps_stagnation keeps_absorb_gradient keeps_absorb_low_score keeps_pre_turn
  keeps_trace_policy : keeps.

Ltac solve_keeps :=
  first [ solve [eauto with keeps]
        | apply keeps_view_trace_event; reflexivity
        | keeps_view_tac ].

Create HintDb viewpred.
#[local] Hint Resolve view_predicate_ledger_inv view_predicate_evidence : viewpred.

(** One step through a monadic term. *)
Ltac pres_step :=
  match goal with
  | |- preserves ledger_inv (bind (modify (trace_event (EvTool None _ _ _ _))) _) =>
      apply preserves_tool_evidence; intros ?
  | |- preserves _ (bind _ _) => apply preserves_bind; [|intros ?]
  | |- preserves _ (ret _) => apply preserves_ret
  | |- preserves _ (return_ _) => apply preserves_return
  | |- preserves _ (gets _) => apply preserves_gets
  | |- preserves _ (when _ _) => apply preserves_when
  | |- preserves _ (modify _) =>
      apply preserves_modify; [solve [eauto with viewpred]|solve_keeps]
  | |- preserves _ (notes_append _) =>
      apply preserves_notes_append; solve [eauto with viewpred]
  | |- preserves _ (log_model_output _ _ _) =>
      apply preserves_log_model_output; solve [eauto with viewpred]
  | |- preserves _ (execute_tool _) =>
      apply preserves_execute_tool; solve [eauto with viewpred]
  | |- preserves _ (deep_verify _ _ _) =>
      apply preserves_deep_verify; solve [eauto with viewpred]
  | |- preserves _ (runtime_shell _) =>
      apply preserves_runtime_shell; solve [eauto with viewpred]
  | |- preserves _ (notes_reset _) =>
      apply preserves_notes_reset; solve [eauto with viewpred]
  | |- preserves _ (if ?b then _ else _) => destruct b
  | |- preserves _ (match ?x with _ => _ end) => destruct x
  end.



(** ** What an accepted call adds to the evidence ledger *)

Lemma execute_tool_runs (call : ToolCall) (st : LoopState) :
  exists obs sys', execute_tool call st = (Next obs, set_sys sys' st).
Proof.
  unfold execute_tool. destruct (negb (is_shell call)).
  - eexists. exists (sys st). destruct st. reflexivity.
  - destruct (Tools.shell (args_cmd (args call)) (sys st)) as [[e|obs] sys'];
      eexists; exists sys'; reflexivity.
Qed.

(** The observation of the dispatch is the one recorded. *)
Lemma run_call_evidence (cfg : Config) (step : nat) (resp : string) (call : ToolCall)
    (d : Dims) (st : LoopState) :
  exists obs sys',
    execute_tool call st = (Next obs, set_sys sys' st)
    /\ evidence (ledgers (snd (run_call cfg step resp call d st)))
       = evidence (ledgers st) ++ [new_evidence step (tool call) (args call) obs st].
Proof.
  destruct (execute_tool_runs call st) as (obs & sys' & He).
  exists obs, sys'. split; [exact He|].
  unfold run_call. unfold bind at 1. rewrite He.
  rewrite !bind_modify, bind_lift.
  match goal with
  | |- evidence (ledgers (snd (?k ?s))) = ?X =>
      assert (Hp : preserves (fun x => evidence (ledgers x) = X) k)
  end.
  { repeat pres_step. }
  apply Hp. rewrite record_evidence_ledgers. reflexivity.
Qed.










End LedgerInvariant.

(* ===================================================================== *)
(** * Evidence ids                                                        *)
(* ===================================================================== *)

Section EvidenceIds.
Import Loop.













End EvidenceIds.

(* ===================================================================== *)
(** * C8: tool events and evidence records                                *)
(* ===================================================================== *)

Section EvidencePairing.
Context {E : Externals}.
Import Loop.




End EvidencePairing.



(* ===================================================================== *)
(** * The policy gates of the tool branch                                 *)
(* ===================================================================== *)

Section Gates.
Context {E : Externals}.
Import Loop.

(** Unfolding of the projections of an updated state. *)
Ltac state_simpl :=
  cbn [fst snd
       flags counters moves domains ledgers epistemic last_failure_type
       last_failure_streak history pending_gradient last sys
       set_flags set_counters set_moves set_domains set_ledgers set_epistemic
       set_last_failure_type set_last_failure_streak set_history
       set_pending_gradient set_last set_sys
       upd_flags upd_counters upd_moves upd_domains upd_ledgers upd_epistemic
       evidence_counter move_counter query_counter evidence_ids evidence
       move_ledger query_ledger trace
       set_evidence_counter set_move_counter set_query_counter set_evidence_ids
       set_evidence set_move_ledger set_query_ledger set_trace
       trace_event history_append tool_seen bump_tool_calls record_move record_query
       drop_gradient] in *.

Lemma drop_gradient_frame (step : nat) (st : LoopState) :
  let st' := drop_gradient step st in
  flags st' = flags st /\ moves st' = moves st /\ domains st' = domains st
  /\ epistemic st' = epistemic st /\ history st' = history st /\ sys st' = sys st
  /\ last_failure_type st' = last_failure_type st
  /\ evidence (ledgers st') = evidence (ledgers st)
  /\ evidence_counter (ledgers st') = evidence_counter (ledgers st)
  /\ move_ledger (ledgers st') = move_ledger (ledgers st)
  /\ query_ledger (ledgers st') = query_ledger (ledgers st)
  /\ move_counter (ledgers st') = move_counter (ledgers st)
  /\ query_counter (ledgers st') = query_counter (ledgers st)
  /\ exists pre, trace (ledgers st') = trace (ledgers st) ++ pre.
Proof.
  unfold drop_gradient. destruct (pending_gradient st); state_simpl;
    repeat split; try reflexivity.
  - eexists. reflexivity.
  - exists []. rewrite app_nil_r. reflexivity.
Qed.

Lemma dims_drop_gradient (cfg : Config) (step : nat) (st : LoopState) (call : ToolCall) :
  dims_of cfg (drop_gradient step st) call = dims_of cfg st call.
Proof. unfold drop_gradient. destruct (pending_gradient st); reflexivity. Qed.

Lemma gate_drop_gradient (cfg : Config) (step : nat) (st : LoopState) (call : ToolCall)
    (d : Dims) :
  gate_of cfg call d (drop_gradient step st) = gate_of cfg call d st.
Proof.
  unfold drop_gradient. destruct (pending_gradient st); [|reflexivity].
  unfold gate_of, raise_domain_shift, minima_unmet. state_simpl.
  repeat match goal with
         | |- context [if ?b then upd_flags _ _ else _] => destruct b
         end; reflexivity.
Qed.

(** [process_call] is the handler of its gate, run after the pending
    gradient is dropped. *)
Lemma process_call_unfold (cfg : Config) (step : nat) (resp : string) (call : ToolCall)
    (st : LoopState) :
  let d := dims_of cfg st call in
  process_call cfg step resp call st
  = match gate_of cfg call d st with
    | GNotesOverwrite =>
        block_call step call notes_overwrite_obs "policy_notes_guard" id id
    | GNotesRequired =>
        block_call step call notes_update_obs "policy_notes_gate" id id
    | GQueryMutation =>
        block_call step call
          (query_mutation_obs cfg (List.length (recent_query_families (moves st))))
          "policy_query_mutation"
          (fun st => record_query step d "blocked"
                       (record_move step (tool call) d (last_failure_type st) "blocked" st))
          (upd_flags (set_force_query_mutation true))
    | GDomainShift =>
        bind (modify (raise_domain_shift cfg d))
          (fun _ =>
             block_call step call domain_shift_obs "policy_domain_shift"
               (fun st =>
                  let st' := record_move step (tool call) d (last_failure_type st)
                               "blocked" st in
                  if truthy_opt (d_query_family d)
                  then record_query step d "blocked" st' else st')
               id)
    | GRun =>
        bind (modify (raise_domain_shift cfg d))
          (fun _ => run_call cfg step resp call d)
    end (drop_gradient step st).
Proof.
  cbv zeta. unfold process_call, bind at 1 2 3, modify at 1, gets at 1 2.
  rewrite dims_drop_gradient, gate_drop_gradient.
  destruct (gate_of cfg call (dims_of cfg st call) st); try reflexivity.
  unfold bind at 1, gets.
  destruct (drop_gradient_frame step st) as (_ & Hm & _). cbv zeta in Hm.
  rewrite Hm. reflexivity.
Qed.

(** A blocked call, spelled out: the policy event, the observation in the
    history, the tool event and its evidence record, the ledger writes of
    the gate, and the runtime command that appends the step block to
    notes.md, which is the only command handed to the tool belt. *)
Lemma block_call_unfold (step : nat) (call : ToolCall) (obs : Obs) (policy : string)
    (writes after : LoopState -> LoopState) (st : LoopState) :
  let st1 :=
    trace_event (EvTool None (Some step) (tool call) (args call) obs)
      (history_append "user" (observation_text (tool call) obs)
         (trace_event (EvPolicy policy step) st)) in
  let st2 :=
    bump_tool_calls
      (writes (snd (record_evidence step (tool call) (args call) obs st1))) in
  let script :=
    append_script (step_block step (tool call) (args call) obs
                     (evidence_id (S (evidence_counter (ledgers st))))) in
  block_call step call obs policy writes after st
  = match Tools.shell script (sys st2) with
    | (inl e, sys') => (Raise e, set_sys sys' st2)
    | (inr o, sys') =>
        (Next tt,
         tool_seen
           (after
              (trace_event
                 (EvTool (Some "runtime") (Some 0) "shell" {[ "cmd" := script ]} o)
                 (set_sys sys' st2))))
    end.
Proof.
  cbv zeta. unfold block_call.
  rewrite !bind_modify, bind_lift, !bind_modify, bind_notes_append.
  rewrite record_evidence_id.
  change (evidence_counter (ledgers (trace_event _ (history_append _ _ (trace_event _ st)))))
    with (evidence_counter (ledgers st)).
  match goal with
  | |- context [Tools.shell ?c ?s] => destruct (Tools.shell c s) as [[e|o] sys']
  end; reflexivity.
Qed.

(** The state fields a blocked call leaves or extends, whatever the
    ledger writes of its gate are, as long as these touch only the move
    and query ledgers and [after] only the flags. *)
Lemma block_call_effect (step : nat) (call : ToolCall) (obs : Obs) (policy : string)
    (writes after : LoopState -> LoopState) (st : LoopState) :
  plain_update writes -> quiet_update after ->
  let out := block_call step call obs policy writes after st in
  let script :=
    append_script (step_block step (tool call) (args call) obs
                     (evidence_id (S (evidence_counter (ledgers st))))) in
  (fst out = Next tt \/ exists e, fst out = Raise e)
  /\ evidence (ledgers (snd out))
     = evidence (ledgers st) ++ [new_evidence step (tool call) (args call) obs st]
  /\ In (EvTool None (Some step) (tool call) (args call) obs) (trace (ledgers (snd out)))
  /\ history (snd out)
     = history st ++ [{| role := "user"; content := observation_text (tool call) obs |}]
  /\ sys (snd out) = snd (Tools.shell script (sys st))
  /\ exists mid,
       move_ledger (ledgers mid) = move_ledger (ledgers st)
       /\ query_ledger (ledgers mid) = query_ledger (ledgers st)
       /\ move_counter (ledgers mid) = move_counter (ledgers st)
       /\ query_counter (ledgers mid) = query_counter (ledgers st)
       /\ move_ledger (ledgers (snd out)) = move_ledger (ledgers (writes mid))
       /\ query_ledger (ledgers (snd out)) = query_ledger (ledgers (writes mid)).
Proof.
  intros Hw [Ha Haq]. cbv zeta. rewrite block_call_unfold. cbv zeta.
  set (st1 := trace_event _ (history_append _ _ (trace_event _ st))).
  set (st1' := snd (record_evidence step (tool call) (args call) obs st1)).
  destruct (record_evidence_frame step (tool call) (args call) obs st1)
    as (Hsys & Hhist & _). cbv zeta in Hsys, Hhist. fold st1' in Hsys, Hhist.
  pose proof (record_evidence_ledgers step (tool call) (args call) obs st1) as Hled.
  cbv zeta in Hled. fold st1' in Hled.
  destruct (Hw st1') as (Hwsys & Hwhist & Hwev & Hwtr).
  assert (Hsys2 : sys (bump_tool_calls (writes st1')) = sys st).
  { state_simpl. rewrite Hwsys, Hsys. reflexivity. }
  rewrite Hsys2.
  assert (Hhist2 : history (bump_tool_calls (writes st1'))
                   = history st
                     ++ [{| role := "user"; content := observation_text (tool call) obs |}]).
  { state_simpl. rewrite Hwhist, Hhist. reflexivity. }
  assert (Hev2 : evidence (ledgers (bump_tool_calls (writes st1')))
                 = evidence (ledgers st)
                   ++ [new_evidence step (tool call) (args call) obs st]).
  { state_simpl. rewrite Hwev, Hled. reflexivity. }
  assert (Htr2 : In (EvTool None (Some step) (tool call) (args call) obs)
                    (trace (ledgers (bump_tool_calls (writes st1'))))).
  { state_simpl. rewrite Hwtr, Hled. cbn [trace]. unfold st1. state_simpl.
    apply in_or_app. right. left. reflexivity. }
  assert (Hmid : move_ledger (ledgers st1') = move_ledger (ledgers st)
                 /\ query_ledger (ledgers st1') = query_ledger (ledgers st)
                 /\ move_counter (ledgers st1') = move_counter (ledgers st)
                 /\ query_counter (ledgers st1') = query_counter (ledgers st)).
  { rewrite Hled. repeat split. }
  destruct Hmid as (Hm1 & Hm2 & Hm3 & Hm4).
  destruct (Tools.shell _ (sys st)) as [[e|o] sys']; cbn [fst snd].
  - split; [right; eexists; reflexivity|].
    state_simpl. repeat split; try assumption.
    exists st1'. repeat split; assumption.
  - split; [left; reflexivity|].
    match goal with
    | |- context [after ?x] =>
        destruct (Ha x) as (Hasys & Hahist & Haev & Hatr);
        destruct (Haq x) as (Hamv & Haqr)
    end.
    state_simpl. rewrite Hasys, Hahist, Haev, Hatr, Hamv, Haqr. state_simpl.
    repeat split; try assumption.
    + apply in_or_app. left. exact Htr2.
    + exists st1'. repeat split; assumption.
Qed.

Lemma quiet_update_id : quiet_update id.
Proof. split; intros x; repeat split. Qed.

Lemma quiet_update_flags (f : Flags -> Flags) : quiet_update (upd_flags f).
Proof. split; intros x; repeat split. Qed.

Lemma plain_update_id : plain_update id.
Proof. intros x. repeat split. Qed.

(** C1. A shell call whose command is classified as an overwrite of
    notes.md is blocked before dispatch: the loop synthesizes the
    observation with error_type notes_overwrite_blocked, appends it to the
    history, writes the tool event and one evidence record carrying that
    error type and message, writes no move or query record, and does not
    make [run_agent] return.  The only command that reaches the tool belt
    is the supervisor's own append of the step block, so the command of
    the call is never executed. *)
Theorem notes_overwrite_is_blocked (cfg : Config) (step : nat) (resp : string)
    (call : ToolCall) (st : LoopState) :
  tool call = "shell" ->
  _notes_write_mode (args_cmd (args call)) = Some Overwrite ->
  let out := process_call cfg step resp call st in
  let rec := new_evidence step "shell" (args call) notes_overwrite_obs st in
  let script :=
    append_script (step_block step "shell" (args call) notes_overwrite_obs
                     (evidence_id (S (evidence_counter (ledgers st))))) in
  (fst out = Next tt \/ exists e, fst out = Raise e)
  /\ evidence (ledgers (snd out)) = evidence (ledgers st) ++ [rec]
  /\ eo_error_type (ev_obs rec) = Some "notes_overwrite_blocked"
  /\ eo_error (ev_obs rec)
     = Some "Action Blocked: Overwriting notes.md is not allowed. Use append (>> or tee -a)."
  /\ ev_step rec = step /\ ev_args rec = args call
  /\ In (EvTool None (Some step) "shell" (args call) notes_overwrite_obs)
        (trace (ledgers (snd out)))
  /\ history (snd out)
     = history st
       ++ [{| role := "user"; content := observation_text "shell" notes_overwrite_obs |}]
  /\ sys (snd out) = snd (Tools.shell script (sys st))
  /\ move_ledger (ledgers (snd out)) = move_ledger (ledgers st)
  /\ query_ledger (ledgers (snd out)) = query_ledger (ledgers st).
Proof.
  intros Htool Hmode. cbv zeta. rewrite process_call_unfold. cbv zeta.
  assert (Hgate : gate_of cfg call (dims_of cfg st call) st = GNotesOverwrite).
  { unfold gate_of, dims_of, is_shell. cbn [d_notes_mode].
    rewrite Htool. cbn [String.eqb Ascii.eqb Bool.eqb andb]. rewrite Hmode. reflexivity. }
  rewrite Hgate.
  destruct (drop_gradient_frame step st)
    as (_ & _ & _ & _ & Hh & Hs & _ & He & Hc & Hml & Hql & _ & _ & pre & Htr).
  cbv zeta in Hh, Hs, He, Hc, Hml, Hql, Htr.
  pose proof (block_call_effect step call notes_overwrite_obs "policy_notes_guard" id id
                (drop_gradient step st) plain_update_id quiet_update_id) as Heff.
  cbv zeta in Heff. rewrite Htool in Heff.
  destruct Heff as (Hout & Hev & Hin & Hhist & Hsys & mid & Hm1 & Hm2 & _ & _ & Hm5 & Hm6).
  rewrite Hc, Hs in Hsys. rewrite He in Hev. rewrite Hh in Hhist.
  split; [exact Hout|]. split.
  { rewrite Hev. unfold new_evidence. rewrite Hc. reflexivity. }
  repeat split; try assumption.
  - rewrite Hm5. unfold id. rewrite Hm1. exact Hml.
  - rewrite Hm6. unfold id. rewrite Hm2. exact Hql.
Qed.


(** ** The query-mutation gate *)

Lemma plain_update_blocked_records (step : nat) (tl : string) (d : Dims) :
  plain_update
    (fun st => record_query step d "blocked"
                 (record_move step tl d (last_failure_type st) "blocked" st)).
Proof. intros x. repeat split. Qed.

(** C6, amended.  A shell call that neither overwrites notes.md nor is
    stopped by a pending notes update, whose query family is already in
    the window of recent families while the window holds fewer than
    QUERY_MUTATION_BUDGET entries, is blocked before dispatch: its evidence
    record carries error_type query_mutation_required, one move record and
    one query record with outcome blocked are appended, the flag
    force_query_mutation is raised unless the notes append fails, and the
    only command handed to the tool belt is the append of the step block. *)
Theorem repeated_query_is_blocked (cfg : Config) (step : nat) (resp : string)
    (call : ToolCall) (st : LoopState) (qf : string) :
  let d := dims_of cfg st call in
  let recent := recent_query_families (moves st) in
  tool call = "shell" ->
  is_overwrite (d_notes_mode d) = false ->
  notes_required (flags st) && negb (is_append (d_notes_mode d)) = false ->
  d_query_family d = Some qf ->
  Py.truthy qf = true ->
  Py.mem qf recent = true ->
  List.length recent < QUERY_MUTATION_BUDGET cfg ->
  let out := process_call cfg step resp call st in
  let obs := query_mutation_obs cfg (List.length recent) in
  let rec := new_evidence step "shell" (args call) obs st in
  let script :=
    append_script (step_block step "shell" (args call) obs
                     (evidence_id (S (evidence_counter (ledgers st))))) in
  (fst out = Next tt /\ force_query_mutation (flags (snd out)) = true
   \/ exists e, fst out = Raise e)
  /\ evidence (ledgers (snd out)) = evidence (ledgers st) ++ [rec]
  /\ eo_error_type (ev_obs rec) = Some "query_mutation_required"
  /\ (exists m, move_ledger (ledgers (snd out)) = move_ledger (ledgers st) ++ [m]
                /\ mv_step m = step /\ mv_query_family m = Some qf
                /\ mv_outcome m = "blocked")
  /\ (exists q, query_ledger (ledgers (snd out)) = query_ledger (ledgers st) ++ [q]
                /\ q_step q = step /\ q_query_family q = Some qf
                /\ q_outcome q = "blocked")
  /\ sys (snd out) = snd (Tools.shell script (sys st)).
Proof.
  cbv zeta. intros Htool Hover Hnotes Hqf Htruthy Hmem Hlen.
  rewrite process_call_unfold. cbv zeta.
  assert (Hgate : gate_of cfg call (dims_of cfg st call) st = GQueryMutation).
  { unfold gate_of. rewrite Hover, andb_false_r.
    assert (Hshell : is_shell call = true) by (unfold is_shell; rewrite Htool; reflexivity).
    rewrite Hshell in *. rewrite andb_true_r.
    destruct (notes_required (flags st)); cbn [andb] in Hnotes |- *;
      rewrite ?Hnotes; rewrite Hqf; cbn [truthy_opt];
      change (default EmptyString (Some qf)) with qf; rewrite Htruthy, Hmem;
      cbn [andb]; apply Nat.ltb_lt in Hlen; rewrite Hlen; reflexivity. }
  rewrite Hgate.
  destruct (drop_gradient_frame step st)
    as (Hf & _ & _ & _ & Hh & Hs & _ & He & Hc & Hml & Hql & _ & _ & _).
  cbv zeta in Hf, Hh, Hs, He, Hc, Hml, Hql.
  set (obs := query_mutation_obs cfg (List.length (recent_query_families (moves st)))).
  set (d := dims_of cfg st call) in *.
  set (writes := fun st0 : LoopState =>
         record_query step d "blocked"
           (record_move step (tool call) d (last_failure_type st0) "blocked" st0)).
  pose proof (block_call_unfold step call obs "policy_query_mutation" writes
                (upd_flags (set_force_query_mutation true)) (drop_gradient step st)) as Hun.
  pose proof (block_call_effect step call obs "policy_query_mutation" writes
                (upd_flags (set_force_query_mutation true)) (drop_gradient step st)
                (plain_update_blocked_records step (tool call) d)
                (quiet_update_flags _)) as Heff.
  cbv zeta in Heff, Hun.
  destruct Heff as (Hout & Hev & _ & _ & Hsys & mid & Hm1 & Hm2 & _ & _ & Hm5 & Hm6).
  rewrite Htool in Hev, Hsys. rewrite Hc, Hs in Hsys. rewrite He in Hev.
  split.
  { rewrite Hun.
    match goal with
    | |- context [Tools.shell ?c ?s] => destruct (Tools.shell c s) as [[e|o] sys']
    end; cbn [fst snd].
    - right. eexists. reflexivity.
    - left. split; reflexivity. }
  split.
  { rewrite Hev. unfold new_evidence. rewrite Hc. reflexivity. }
  split; [reflexivity|]. split.
  { eexists. split.
    - rewrite Hm5. unfold writes. state_simpl. rewrite Hm1, Hml. reflexivity.
    - cbn [mv_step mv_query_family mv_outcome]. repeat split. exact Hqf. }
  split.
  { eexists. split.
    - rewrite Hm6. unfold writes. state_simpl. rewrite Hm2, Hql. reflexivity.
    - cbn [q_step q_query_family q_outcome]. repeat split. exact Hqf. }
  exact Hsys.
Qed.


(** ** The domain-shift gate *)

Lemma gate_of_passes (cfg : Config) (call : ToolCall) (d : Dims) (st : LoopState) :
  passes_earlier_gates cfg call d st = true ->
  gate_of cfg call d st
  = if negative_claim_task cfg
       && force_domain_shift (flags (raise_domain_shift cfg d st))
       && truthy_opt (d_domain d)
       && opt_eqb (last_domain_key (moves st)) (d_domain d)
    then GDomainShift else GRun.
Proof.
  unfold passes_earlier_gates, gate_of. cbv zeta. intros H.
  apply andb_true_iff in H as [H H3]. apply andb_true_iff in H as [H1 H2].
  apply negb_true_iff in H1, H2, H3. rewrite H1, H2, H3. reflexivity.
Qed.

Lemma raise_domain_shift_frame (cfg : Config) (d : Dims) (st : LoopState) :
  let st' := raise_domain_shift cfg d st in
  sys st' = sys st /\ history st' = history st /\ ledgers st' = ledgers st
  /\ moves st' = moves st /\ last_failure_type st' = last_failure_type st.
Proof.
  unfold raise_domain_shift.
  match goal with |- context [if ?b then _ else _] => destruct b end;
    repeat split; reflexivity.
Qed.

Lemma raise_drop_gradient_flags (cfg : Config) (d : Dims) (step : nat) (st : LoopState) :
  flags (raise_domain_shift cfg d (drop_gradient step st))
  = flags (raise_domain_shift cfg d st).
Proof.
  unfold drop_gradient. destruct (pending_gradient st); [|reflexivity].
  unfold raise_domain_shift, minima_unmet. state_simpl.
  match goal with |- context [if ?b then _ else _] => destruct b end; reflexivity.
Qed.

Lemma opt_eqb_refl (o : option string) : opt_eqb o o = true.
Proof. destruct o; cbn; [apply String.eqb_refl|reflexivity]. Qed.

Lemma opt_eqb_eq (a b : option string) : opt_eqb a b = true <-> a = b.
Proof.
  split; [|intros ->; apply opt_eqb_refl].
  destruct a, b; cbn; try congruence. intros H. apply String.eqb_eq in H. congruence.
Qed.

Lemma plain_update_domain_records (step : nat) (tl : string) (d : Dims) :
  plain_update
    (fun st =>
       let st' := record_move step tl d (last_failure_type st) "blocked" st in
       if truthy_opt (d_query_family d) then record_query step d "blocked" st' else st').
Proof. intros x. cbv zeta. destruct (truthy_opt (d_query_family d)); repeat split. Qed.

Lemma execute_tool_fst (call : ToolCall) (st st' : LoopState) :
  sys st = sys st' -> fst (execute_tool call st) = fst (execute_tool call st').
Proof.
  intros H. unfold execute_tool. rewrite H.
  destruct (negb (is_shell call)); [reflexivity|].
  destruct (Tools.shell (args_cmd (args call)) (sys st')) as [[e|obs] sys']; reflexivity.
Qed.

(** C5, amended.  On a negative-claim task, take a call that reaches the
    domain-shift gate and whose URL has the domain [dom].  If [dom] is the
    domain of the last executed call and either the same-domain streak has
    reached DOMAIN_SHIFT_LIMIT while the official and independent minima
    are unmet, or force_domain_shift is already raised, the call is
    blocked before dispatch: its evidence record carries error_type
    domain_shift_required, a move record with outcome blocked is written,
    force_domain_shift stays raised, and only the append of the step block
    reaches the tool belt.  If [dom] differs from the domain of the last
    executed call, the call is dispatched and the observation of its
    execution is the one recorded. *)
Theorem domain_shift_gate (cfg : Config) (step : nat) (resp : string)
    (call : ToolCall) (st : LoopState) (dom : string) :
  let d := dims_of cfg st call in
  negative_claim_task cfg = true ->
  passes_earlier_gates cfg call d st = true ->
  d_domain d = Some dom ->
  Py.truthy dom = true ->
  let out := process_call cfg step resp call st in
  (last_domain_key (moves st) = Some dom ->
   (DOMAIN_SHIFT_LIMIT cfg <= domain_same_streak (moves st) /\ minima_unmet cfg st = true)
   \/ force_domain_shift (flags st) = true ->
   let rec := new_evidence step (tool call) (args call) domain_shift_obs st in
   let script :=
     append_script (step_block step (tool call) (args call) domain_shift_obs
                      (evidence_id (S (evidence_counter (ledgers st))))) in
   (fst out = Next tt \/ exists e, fst out = Raise e)
   /\ evidence (ledgers (snd out)) = evidence (ledgers st) ++ [rec]
   /\ eo_error_type (ev_obs rec) = Some "domain_shift_required"
   /\ force_domain_shift (flags (snd out)) = true
   /\ (exists m, move_ledger (ledgers (snd out)) = move_ledger (ledgers st) ++ [m]
                 /\ mv_step m = step /\ mv_domain m = Some dom
                 /\ mv_outcome m = "blocked")
   /\ sys (snd out) = snd (Tools.shell script (sys st)))
  /\ (last_domain_key (moves st) <> Some dom ->
      exists obs,
        fst (execute_tool call st) = Next obs
        /\ evidence (ledgers (snd out))
           = evidence (ledgers st)
             ++ [new_evidence step (tool call) (args call) obs st]).
Proof.
  cbv zeta. intros Hneg Hpass Hdom Htruthy.
  destruct (drop_gradient_frame step st)
    as (Hf & Hmv & _ & _ & Hh & Hs & _ & He & Hc & Hml & Hql & _ & _ & _).
  cbv zeta in Hf, Hmv, Hh, Hs, He, Hc, Hml, Hql.
  set (d := dims_of cfg st call) in *.
  set (st0 := raise_domain_shift cfg d (drop_gradient step st)).
  destruct (raise_domain_shift_frame cfg d (drop_gradient step st))
    as (Hrs & Hrh & Hrl & Hrm & _).
  cbv zeta in Hrs, Hrh, Hrl, Hrm. fold st0 in Hrs, Hrh, Hrl, Hrm.
  split.
  - intros Hlast Hwhy.
    assert (Hforce : force_domain_shift (flags (raise_domain_shift cfg d st)) = true).
    { unfold raise_domain_shift. rewrite Hneg, Hdom, Hlast. cbn [truthy_opt andb].
      rewrite Htruthy, opt_eqb_refl. cbn [andb].
      destruct Hwhy as [[Hlim Hmin]|Hflag].
      - apply Nat.leb_le in Hlim. rewrite Hlim, Hmin. reflexivity.
      - match goal with |- context [if ?b then _ else _] => destruct b end;
          [reflexivity|exact Hflag]. }
    assert (Hforce0 : force_domain_shift (flags st0) = true).
    { unfold st0. rewrite raise_drop_gradient_flags. exact Hforce. }
    rewrite process_call_unfold. cbv zeta. fold d.
    rewrite (gate_of_passes _ _ _ _ Hpass), Hneg, Hforce, Hdom, Hlast. cbn [truthy_opt andb].
    rewrite Htruthy, opt_eqb_refl. cbn [andb].
    rewrite bind_modify. fold st0.
    set (writes := fun st1 : LoopState =>
           let st' := record_move step (tool call) d (last_failure_type st1) "blocked" st1 in
           if truthy_opt (d_query_family d) then record_query step d "blocked" st' else st').
    pose proof (block_call_unfold step call domain_shift_obs "policy_domain_shift" writes id
                  st0) as Hun.
    pose proof (block_call_effect step call domain_shift_obs "policy_domain_shift" writes id
                  st0 (plain_update_domain_records step (tool call) d)
                  quiet_update_id) as Heff.
    cbv zeta in Heff, Hun.
    destruct Heff as (Hout & Hev & _ & _ & Hsys & mid & Hm1 & _ & _ & _ & Hm5 & _).
    rewrite Hrl, Hc in Hsys. rewrite Hrs, Hs in Hsys. rewrite Hrl, He in Hev.
    split; [exact Hout|]. split.
    { rewrite Hev. unfold new_evidence. rewrite Hrl, Hc. reflexivity. }
    split; [reflexivity|]. split.
    { rewrite Hun.
      destruct (record_evidence_frame step (tool call) (args call) domain_shift_obs
                  (trace_event (EvTool None (Some step) (tool call) (args call)
                                       domain_shift_obs)
                     (history_append "user" (observation_text (tool call) domain_shift_obs)
                        (trace_event (EvPolicy "policy_domain_shift" step) st0))))
        as (_ & _ & Hfl & _).
      cbv zeta in Hfl.
      match goal with
      | |- context [Tools.shell ?c ?s] => destruct (Tools.shell c s) as [[e|o] sys']
      end; cbn [fst snd]; unfold writes, id; cbv zeta;
        destruct (truthy_opt (d_query_family d)); state_simpl;
        rewrite Hfl; state_simpl; try exact Hforce0;
        destruct (flags st0); exact Hforce0. }
    split; [|exact Hsys].
    eexists. split.
    + rewrite Hm5. unfold writes. cbv zeta.
      destruct (truthy_opt (d_query_family d)); state_simpl;
        rewrite Hm1, Hrl, Hml; reflexivity.
    + cbn [mv_step mv_domain mv_outcome]. repeat split. exact Hdom.
  - intros Hlast.
    rewrite process_call_unfold. cbv zeta. fold d.
    rewrite (gate_of_passes _ _ _ _ Hpass), Hdom.
    assert (Hne : opt_eqb (last_domain_key (moves st)) (Some dom) = false).
    { destruct (opt_eqb (last_domain_key (moves st)) (Some dom)) eqn:Heq; [|reflexivity].
      apply opt_eqb_eq in Heq. contradiction. }
    rewrite Hne, andb_false_r. rewrite bind_modify. fold st0.
    destruct (run_call_evidence cfg step resp call d st0) as (obs & sys' & Hex & Hev).
    exists obs. split.
    + rewrite (execute_tool_fst call st st0), Hex; [reflexivity|].
      rewrite Hrs, Hs. reflexivity.
    + rewrite Hev, Hrl, He. unfold new_evidence. rewrite Hrl, Hc. reflexivity.
Qed.

End Gates.

(** ** The gates on the fixture *)

Section GateExamples.
#[local] Existing Instance Fixture.stub.

(** A redirection onto notes.md at the first step of a run. *)
Lemma notes_overwrite_is_blocked_witness :
  let call := Fixture.shell_call "echo done > /work/notes.md" in
  let st := Fixture.state_after Fixture.search_cfg [] in
  let out := Loop.process_call Fixture.search_cfg 1 "THOUGHT: next step" call st in
  Loop.tool call = "shell"
  /\ Loop._notes_write_mode (args_cmd (Loop.args call)) = Some Loop.Overwrite
  /\ Loop.evidence (Loop.ledgers (snd out))
     = Loop.evidence (Loop.ledgers st)
       ++ [Loop.new_evidence 1 "shell" (Loop.args call) Loop.notes_overwrite_obs st]
  /\ Loop.sys (snd out)
     = snd (Tools.shell
              (Loop.append_script
                 (Loop.step_block 1 "shell" (Loop.args call) Loop.notes_overwrite_obs
                    (Loop.evidence_id (S (Loop.evidence_counter (Loop.ledgers st))))))
              (Loop.sys st)).
Proof.
  cbv zeta.
  assert (H1 : Loop.tool (Fixture.shell_call "echo done > /work/notes.md") = "shell")
    by reflexivity.
  assert (H2 : Loop._notes_write_mode
                 (args_cmd (Loop.args (Fixture.shell_call "echo done > /work/notes.md")))
               = Some Loop.Overwrite) by (vm_compute; reflexivity).
  pose proof (@notes_overwrite_is_blocked Fixture.stub Fixture.search_cfg 1
                "THOUGHT: next step" _ (Fixture.state_after Fixture.search_cfg []) H1 H2)
    as H.
  cbv zeta in H. destruct H as (_ & Hev & _ & _ & _ & _ & _ & _ & Hsys & _).
  split; [exact H1|]. split; [exact H2|]. split; [exact Hev|exact Hsys].
Defined.

(** The blocked command is not among the commands the container has
    served: the log grows by the append of the step block only. *)
Lemma notes_overwrite_exec_log :
  let call := Fixture.shell_call "echo done > /work/notes.md" in
  let st := Fixture.state_after Fixture.search_cfg [] in
  let out := Loop.process_call Fixture.search_cfg 1 "THOUGHT: next step" call st in
  fst out = Loop.Next tt
  /\ Loop.evidence_error_types (snd out) = [Some "notes_overwrite_blocked"]
  /\ List.length (Tools.exec_log (Loop.sys (snd out)))
     = S (List.length (Tools.exec_log (Loop.sys st)))
  /\ forallb (fun c => negb (Py.contains "echo done" (Py.join " " c)))
             (Tools.exec_log (Loop.sys (snd out))) = true.
Proof. vm_compute. repeat split. Qed.

(** C6, counterexample.  Three successive turns ask for foo bar, foo bar
    and then foo bar again or baz.  Before the third turn the family foo
    bar is in the window, which holds one entry where the budget is 2; the
    third turn is step 3, where the notes cadence raises notes_required,
    so the third call is stopped by the notes gate with
    notes_update_required whichever query it carries, it is not executed,
    and the query ledger holds two entries. *)
Lemma notes_gate_precedes_query_mutation :
  let cfg := Fixture.search_cfg in
  let q := Fixture.curl "https://duckduckgo.com/?q=foo+bar" in
  let z := Fixture.curl "https://duckduckgo.com/?q=baz" in
  let st2 := Fixture.state_after cfg [Fixture.tool_turn [q]; Fixture.tool_turn [q]] in
  let st3 :=
    Fixture.state_after cfg
      [Fixture.tool_turn [q]; Fixture.tool_turn [q]; Fixture.tool_turn [q]] in
  let st3' :=
    Fixture.state_after cfg
      [Fixture.tool_turn [q]; Fixture.tool_turn [q]; Fixture.tool_turn [z]] in
  Loop.d_query_family (Loop.dims_of cfg st2 q) = Some "foo bar"
  /\ Loop.recent_query_families (Loop.moves st2) = ["foo bar"]
  /\ Loop.QUERY_MUTATION_BUDGET cfg = 2
  /\ Loop.evidence_error_types st3
     = [None; Some "query_mutation_required"; Some "notes_update_required"]
  /\ Loop.query_outcomes st3 = ["ok"; "blocked"]
  /\ Loop.evidence_error_types st3'
     = [None; Some "query_mutation_required"; Some "notes_update_required"]
  /\ Loop.query_outcomes st3' = ["ok"; "blocked"]
  /\ List.length (Tools.exec_log (Loop.sys st3'))
     = S (List.length (Tools.exec_log (Loop.sys st2))).
Proof. vm_compute. repeat split. Qed.

(** The three calls in one response, where no notes update is pending. *)
Lemma query_mutation_in_one_turn :
  let q := Fixture.curl "https://duckduckgo.com/?q=foo+bar" in
  let z := Fixture.curl "https://duckduckgo.com/?q=baz" in
  let st := Fixture.state_after Fixture.search_cfg [Fixture.tool_turn [q; q; z]] in
  Loop.evidence_error_types st = [None; Some "query_mutation_required"; None]
  /\ Loop.query_outcomes st = ["ok"; "blocked"; "ok"]
  /\ map Loop.q_query_family (Loop.query_ledger (Loop.ledgers st))
     = [Some "foo bar"; Some "foo bar"; Some "baz"].
Proof. vm_compute. repeat split. Qed.

(** The second request for foo bar, one turn after the first. *)
Lemma repeated_query_is_blocked_witness :
  let cfg := Fixture.search_cfg in
  let q := Fixture.curl "https://duckduckgo.com/?q=foo+bar" in
  let st := Fixture.state_after cfg [Fixture.tool_turn [q]] in
  let out := Loop.process_call cfg 2 "THOUGHT: next step" q st in
  Loop.d_query_family (Loop.dims_of cfg st q) = Some "foo bar"
  /\ Py.mem "foo bar" (Loop.recent_query_families (Loop.moves st)) = true
  /\ List.length (Loop.recent_query_families (Loop.moves st))
     < Loop.QUERY_MUTATION_BUDGET cfg
  /\ exists r, Loop.query_ledger (Loop.ledgers (snd out))
               = Loop.query_ledger (Loop.ledgers st) ++ [r]
               /\ Loop.q_step r = 2 /\ Loop.q_query_family r = Some "foo bar"
               /\ Loop.q_outcome r = "blocked".
Proof.
  cbv zeta.
  set (cfg := Fixture.search_cfg).
  set (q := Fixture.curl "https://duckduckgo.com/?q=foo+bar").
  set (st := Fixture.state_after cfg [Fixture.tool_turn [q]]).
  assert (H1 : Loop.tool q = "shell") by reflexivity.
  assert (H2 : Loop.is_overwrite (Loop.d_notes_mode (Loop.dims_of cfg st q)) = false)
    by (vm_compute; reflexivity).
  assert (H3 : Loop.notes_required (Loop.flags st)
               && negb (Loop.is_append (Loop.d_notes_mode (Loop.dims_of cfg st q))) = false)
    by (vm_compute; reflexivity).
  assert (H4 : Loop.d_query_family (Loop.dims_of cfg st q) = Some "foo bar")
    by (vm_compute; reflexivity).
  assert (H5 : Py.truthy "foo bar" = true) by reflexivity.
  assert (H6 : Py.mem "foo bar" (Loop.recent_query_families (Loop.moves st)) = true)
    by (vm_compute; reflexivity).
  assert (H7 : List.length (Loop.recent_query_families (Loop.moves st))
               < Loop.QUERY_MUTATION_BUDGET cfg) by (vm_compute; lia).
  pose proof (@repeated_query_is_blocked Fixture.stub cfg 2 "THOUGHT: next step" q st
                "foo bar" H1 H2 H3 H4 H5 H6 H7) as H.
  cbv zeta in H. destruct H as (_ & _ & _ & _ & Hq & _).
  split; [exact H4|]. split; [exact H6|]. split; [exact H7|]. exact Hq.
Defined.

(** C5, counterexample.  On a negative-claim task whose minima are unmet,
    after two executed calls to example.org the third call to example.org
    is executed as well: the same-domain streak counts the repetitions, it
    stands at 1 after the second call, below DOMAIN_SHIFT_LIMIT = 2.  The
    fourth call is the one blocked. *)
Lemma third_same_domain_call_is_executed :
  let cfg := Fixture.acme_cfg in
  let a := Fixture.curl "https://example.org/news" in
  let st2 := Fixture.state_after cfg [Fixture.tool_turn [a; a]] in
  let st3 := Fixture.state_after cfg [Fixture.tool_turn [a; a; a]] in
  let st4 := Fixture.state_after cfg [Fixture.tool_turn [a; a; a; a]] in
  Loop.negative_claim_task cfg = true
  /\ Loop.DOMAIN_SHIFT_LIMIT cfg = 2
  /\ Loop.evidence_error_types st2 = [None; None]
  /\ map Loop.mv_domain (Loop.move_ledger (Loop.ledgers st2))
     = [Some "example.org"; Some "example.org"]
  /\ Loop.minima_unmet cfg st2 = true
  /\ Loop.domain_same_streak (Loop.moves st2) = 1
  /\ Loop.evidence_error_types st3 = [None; None; None]
  /\ map Loop.mv_outcome (Loop.move_ledger (Loop.ledgers st3)) = ["ok"; "ok"; "ok"]
  /\ List.length (Tools.exec_log (Loop.sys st3))
     = 2 + List.length (Tools.exec_log (Loop.sys st2))
  /\ Loop.evidence_error_types st4 = [None; None; None; Some "domain_shift_required"].
Proof. vm_compute. repeat split. Qed.

(** After three executed calls to example.org: the fourth is blocked, a
    call to other.net is dispatched. *)
Lemma domain_shift_gate_witness :
  let cfg := Fixture.acme_cfg in
  let a := Fixture.curl "https://example.org/news" in
  let b := Fixture.curl "https://other.net/press" in
  let st := Fixture.state_after cfg [Fixture.tool_turn [a; a; a]] in
  let out := Loop.process_call cfg 1 "THOUGHT: next step" a st in
  Loop.negative_claim_task cfg = true
  /\ Loop.passes_earlier_gates cfg a (Loop.dims_of cfg st a) st = true
  /\ Loop.d_domain (Loop.dims_of cfg st a) = Some "example.org"
  /\ Loop.last_domain_key (Loop.moves st) = Some "example.org"
  /\ Loop.DOMAIN_SHIFT_LIMIT cfg <= Loop.domain_same_streak (Loop.moves st)
  /\ Loop.minima_unmet cfg st = true
  /\ Loop.evidence (Loop.ledgers (snd out))
     = Loop.evidence (Loop.ledgers st)
       ++ [Loop.new_evidence 1 "shell" (Loop.args a) Loop.domain_shift_obs st]
  /\ Loop.force_domain_shift (Loop.flags (snd out)) = true.
Proof.
  cbv zeta.
  set (cfg := Fixture.acme_cfg).
  set (a := Fixture.curl "https://example.org/news").
  set (st := Fixture.state_after cfg [Fixture.tool_turn [a; a; a]]).
  assert (H1 : Loop.negative_claim_task cfg = true) by (vm_compute; reflexivity).
  assert (H2 : Loop.passes_earlier_gates cfg a (Loop.dims_of cfg st a) st = true)
    by (vm_compute; reflexivity).
  assert (H3 : Loop.d_domain (Loop.dims_of cfg st a) = Some "example.org")
    by (vm_compute; reflexivity).
  assert (H4 : Py.truthy "example.org" = true) by reflexivity.
  assert (H5 : Loop.last_domain_key (Loop.moves st) = Some "example.org")
    by (vm_compute; reflexivity).
  assert (H6 : Loop.DOMAIN_SHIFT_LIMIT cfg <= Loop.domain_same_streak (Loop.moves st))
    by (vm_compute; lia).
  assert (H7 : Loop.minima_unmet cfg st = true) by (vm_compute; reflexivity).
  pose proof (@domain_shift_gate Fixture.stub cfg 1 "THOUGHT: next step" a st
                "example.org" H1 H2 H3 H4) as H.
  cbv zeta in H. destruct H as [H _].
  specialize (H H5 (or_introl (conj H6 H7))).
  destruct H as (_ & Hev & _ & Hflag & _).
  split; [exact H1|]. split; [exact H2|]. split; [exact H3|]. split; [exact H5|].
  split; [exact H6|]. split; [exact H7|]. split; [exact Hev|exact Hflag].
Defined.

(** The whole sequence in one response: three calls to example.org are
    executed, the fourth is blocked, the call to other.net passes. *)
Lemma domain_shift_in_one_turn :
  let a := Fixture.curl "https://example.org/news" in
  let b := Fixture.curl "https://other.net/press" in
  let st := Fixture.state_after Fixture.acme_cfg [Fixture.tool_turn [a; a; a; a; b]] in
  Loop.evidence_error_types st
  = [None; None; None; Some "domain_shift_required"; None]
  /\ map Loop.mv_outcome (Loop.move_ledger (Loop.ledgers st))
     = ["ok"; "ok"; "ok"; "blocked"; "ok"].
Proof. vm_compute. repeat split. Qed.

End GateExamples.

(* ===================================================================== *)
(** * The no-tool branch: citation contract and verifier                  *)
(* ===================================================================== *)

Section NoToolBranch.
Context {E : Externals}.
Import Loop.

(** ** The verification mini-agents *)

(** The mini-agents act on the tool belt and the trace; they end normally. *)
Lemma mini_steps_frame (l : list Verifier.MiniStep) (st : LoopState) :
  let r := for_each mini_step l st in
  fst r = Next tt
  /\ counters (snd r) = counters st /\ epistemic (snd r) = epistemic st
  /\ flags (snd r) = flags st /\ history (snd r) = history st
  /\ exists tr, trace (ledgers (snd r)) = trace (ledgers st) ++ tr.
Proof.
  revert st. induction l as [|ms l IH]; intros st; cbn [for_each].
  - cbn. repeat split. exists []. rewrite app_nil_r. reflexivity.
  - rewrite (bind_step _ _ st tt).
    2:{ unfold mini_step.
        match goal with
        | |- context [let '(_, _) := ?x in _] => destruct x as [obs sys']
        end. reflexivity. }
    specialize (IH (snd (mini_step ms st))). cbv zeta in IH.
    destruct IH as (Hn & Hc & He & Hf & Hh & tr & Ht).
    cbv zeta. rewrite Hn, Hc, He, Hf, Hh, Ht.
    unfold mini_step.
    match goal with
    | |- context [let '(_, _) := ?x in _] => destruct x as [obs sys']
    end.
    cbn [snd]. destruct (Verifier.ms_traced ms); repeat split;
      eexists; cbn; rewrite <- ?app_assoc; reflexivity.
Qed.

Lemma bind_deep_verify {B : Type} (cfg : Config) (answer : string)
    (run : Verifier.VerifierRun) (k : Verifier.VerifierDecision -> M B) (st : LoopState) :
  bind (deep_verify cfg answer run) k st
  = k (Verifier.deep_verify (task cfg) answer run) (snd (deep_verify cfg answer run st)).
Proof.
  unfold deep_verify.
  destruct (mini_steps_frame (Verifier.vr_steps run) st) as (Hn & _).
  cbv zeta in Hn. unfold bind at 1 2 3.
  destruct (for_each mini_step (Verifier.vr_steps run) st) as [[[]|s|e] st'];
    cbn [fst] in Hn; try discriminate. reflexivity.
Qed.

Lemma deep_verify_frame (cfg : Config) (answer : string) (run : Verifier.VerifierRun)
    (st : LoopState) :
  let st' := snd (deep_verify cfg answer run st) in
  counters st' = counters st /\ epistemic st' = epistemic st
  /\ exists tr, trace (ledgers st') = trace (ledgers st) ++ tr.
Proof.
  unfold deep_verify.
  destruct (mini_steps_frame (Verifier.vr_steps run) st) as (Hn & Hc & He & _ & _ & Ht).
  cbv zeta in Hn, Hc, He, Ht. unfold bind.
  destruct (for_each mini_step (Verifier.vr_steps run) st) as [[[]|s|e] st'];
    cbn [fst] in Hn; try discriminate. cbn [ret snd] in *. repeat split; assumption.
Qed.




(** ** [verify_turn], spelled out *)

(** ** [verify_turn], spelled out *)

Lemma absorb_low_score_frame (decision : Verifier.VerifierDecision) (st : LoopState) :
  counters (absorb_low_score decision st) = counters st
  /\ ledgers (absorb_low_score decision st) = ledgers st
  /\ sys (absorb_low_score decision st) = sys st.
Proof.
  unfold absorb_low_score. destruct (Verifier.score decision <? 3)%Z; repeat split.
Qed.

Lemma judged_state_rounds (cfg : Config) (step : nat) (mt : ModelTurn) (answer : string)
    (st : LoopState) :
  verifier_rounds (counters (judged_state cfg step mt answer st))
  = S (verifier_rounds (counters st)).
Proof.
  unfold judged_state. cbv zeta.
  destruct (absorb_low_score_frame
              (Verifier.deep_verify (task cfg) answer (verifier_run mt))
              (trace_event
                 (EvVerifier step (Verifier.deep_verify (task cfg) answer (verifier_run mt)))
                 (snd (deep_verify cfg answer (verifier_run mt)
                         (upd_counters
                            (fun c => set_verifier_rounds (S (verifier_rounds c)) c) st)))))
    as (Hc & _).
  rewrite Hc.
  destruct (deep_verify_frame cfg answer (verifier_run mt)
              (upd_counters (fun c => set_verifier_rounds (S (verifier_rounds c)) c) st))
    as (Hc' & _).
  cbv zeta in Hc'. cbn [trace_event upd_ledgers counters set_ledgers]. rewrite Hc'.
  reflexivity.
Qed.


Lemma verify_turn_unfold (cfg : Config) (step : nat) (mt : ModelTurn) (answer : string)
    (st : LoopState) :
  let decision := Verifier.deep_verify (task cfg) answer (verifier_run mt) in
  let st3 := judged_state cfg step mt answer st in
  verify_turn cfg step mt answer st
  = if (3 <=? Verifier.score decision)%Z
    then (Return (resp mt), upd_epistemic set_verified st3)
    else if max_verifier_rounds cfg <=? S (verifier_rounds (counters st))
    then (Return (budget_message +:+ resp mt),
          upd_epistemic
            (fun e => add_unresolved "verification_budget_exhausted"
                        (set_status UNRESOLVED e)) st3)
    else
      (Next tt,
       let feedback := Verifier.format_verifier_feedback decision in
       let st4 :=
         history_append "user" feedback
           (history_append "assistant" (resp mt)
              (absorb_gradient step decision
                 (trace_event (EvVerifierToAgent step (Verifier.score decision)
                                 (Py.take (20 * 1000) feedback)) st3))) in
       trace_event (EvAgentFromVerifier step (List.length (history st4))) st4).
Proof.
  cbv zeta. unfold verify_turn.
  rewrite bind_modify, bind_deep_verify, !bind_modify.
  fold (judged_state cfg step mt answer st).
  destruct (3 <=? Verifier.score _)%Z; [reflexivity|].
  rewrite bind_gets, judged_state_rounds.
  destruct (max_verifier_rounds cfg <=? S (verifier_rounds (counters st))); reflexivity.
Qed.

(** ** The epistemic state *)

Lemma mem_In (x : string) (l : list string) : Py.mem x l = true <-> In x l.
Proof.
  unfold Py.mem. rewrite existsb_exists. split.
  - intros (y & Hin & Heq). apply String.eqb_eq in Heq. subst. exact Hin.
  - intros Hin. exists x. split; [exact Hin|apply String.eqb_refl].
Qed.



Lemma add_blocked_status (t : string) (e : EpistemicState) :
  status (add_blocked t e) = status e.
Proof. unfold add_blocked. destruct (_ && _); reflexivity. Qed.




(** C3.  When the verifier, invoked on a no-tool turn, returns a decision
    with score at least 3, the epistemic status is set to VERIFIED, the
    lists of constraints, unresolved items and blocked items are emptied,
    and the loop returns the assistant response of that turn, unchanged. *)
Theorem verified_answer_is_returned (cfg : Config) (step : nat) (mt : ModelTurn)
    (answer : string) (st : LoopState) :
  (3 <= Verifier.score (Verifier.deep_verify (task cfg) answer (verifier_run mt)))%Z ->
  let out := verify_turn cfg step mt answer st in
  fst out = Return (resp mt)
  /\ status (epistemic (snd out)) = VERIFIED
  /\ constraints (epistemic (snd out)) = []
  /\ unresolved (epistemic (snd out)) = []
  /\ blocked (epistemic (snd out)) = [].
Proof.
  intros Hscore. cbv zeta. rewrite verify_turn_unfold. cbv zeta.
  apply Z.leb_le in Hscore. rewrite Hscore. repeat split.
Qed.

(** What [turn] returns is what [run_agent] returns. *)
Lemma run_loop_returns (cfg : Config) (mt : ModelTurn) (turns : list ModelTurn)
    (step : nat) (st st' : LoopState) (s : string) :
  (0 <? max_steps cfg)%Z && (max_steps cfg <? Z.of_nat (S step))%Z = false ->
  turn cfg (S step) mt st = (Return s, st') ->
  run_loop cfg (mt :: turns) step st = (Returned s, st').
Proof. intros Hb Ht. cbn [run_loop]. rewrite Hb, Ht. reflexivity. Qed.


(** ** The citation contract *)








End NoToolBranch.

(** ** The no-tool branch on the fixture *)

Section NoToolExamples.
#[local] Existing Instance Fixture.stub.


(** An answer that cites an id the ledger does not hold. *)
Lemma citation_contract_unknown_id :
  let st := Fixture.state_after Fixture.search_cfg [Fixture.explore] in
  let text := "STATUS_UPDATE: VERIFIED" +:+ Py.nl +:+ "EVIDENCE_USED: ev_0001, ev_0099" in
  Loop._extract_evidence_used text = ["ev_0001"; "ev_0099"]
  /\ Loop.status (Loop.epistemic (Loop.enforce_contract text st)) = Loop.UNRESOLVED
  /\ Loop.constraints (Loop.epistemic (Loop.enforce_contract text st))
     = ["Unknown EVIDENCE_USED ids: ev_0099"].
Proof. vm_compute. repeat split. Qed.

(** After three tool calls, an answer the verifier scores 4: the run
    returns that answer. *)
Lemma verified_answer_is_returned_witness :
  let cfg := Fixture.search_cfg in
  let mt := Fixture.answer_scored 4 in
  let st := Fixture.state_after cfg [Fixture.explore] in
  let out := Loop.verify_turn cfg 2 mt (Loop.answer_text mt) st in
  (3 <= Verifier.score
          (Verifier.deep_verify (Loop.task cfg) (Loop.answer_text mt)
             (Loop.verifier_run mt)))%Z
  /\ fst out = Loop.Return "The answer is 42."
  /\ Loop.epistemic (snd out)
     = {| Loop.status := Loop.VERIFIED; Loop.unresolved := [];
          Loop.constraints := []; Loop.blocked := [] |}
  /\ fst (Fixture.run cfg [Fixture.explore; mt]) = Loop.Returned "The answer is 42.".
Proof.
  cbv zeta.
  set (cfg := Fixture.search_cfg).
  set (mt := Fixture.answer_scored 4).
  set (st := Fixture.state_after cfg [Fixture.explore]).
  assert (H1 : (3 <= Verifier.score
                      (Verifier.deep_verify (Loop.task cfg) (Loop.answer_text mt)
                         (Loop.verifier_run mt)))%Z)
    by (apply Z.leb_le; vm_compute; reflexivity).
  pose proof (@verified_answer_is_returned Fixture.stub cfg 2 mt (Loop.answer_text mt) st H1)
    as H.
  cbv zeta in H. destruct H as (Hr & Hs & Hc & Hu & Hb).
  split; [exact H1|]. split; [exact Hr|]. split.
  - destruct (Loop.epistemic _). cbn in Hs, Hc, Hu, Hb. subst. reflexivity.
  - vm_compute. reflexivity.
Defined.



End NoToolExamples.
(* ===================================================================== *)
(** * Invariants of a run                                                 *)
(* ===================================================================== *)

Import Loop.

Ltac state_simpl :=
  cbn [fst snd
       flags counters moves domains ledgers epistemic last_failure_type
       last_failure_streak history pending_gradient last sys
       set_flags set_counters set_moves set_domains set_ledgers set_epistemic
       set_last_failure_type set_last_failure_streak set_history
       set_pending_gradient set_last set_sys
       upd_flags upd_counters upd_moves upd_domains upd_ledgers upd_epistemic
       evidence_counter move_counter query_counter evidence_ids evidence
       move_ledger query_ledger trace
       set_evidence_counter set_move_counter set_query_counter set_evidence_ids
       set_evidence set_move_ledger set_query_ledger set_trace
       trace_event history_append tool_seen bump_tool_calls record_move record_query
       drop_gradient
       verifier_rounds gradient_reminders tool_calls_made pre_tool_nudges length_nudges
       finalization_hits stagnation_streak parse_error_hits last_evidence_count
       set_verifier_rounds set_gradient_reminders set_tool_calls_made
       set_pre_tool_nudges set_length_nudges set_finalization_hits
       set_stagnation_streak set_parse_error_hits set_last_evidence_count] in *.

Ltac unfold_updates :=
  cbv delta [tool_seen bump_tool_calls drop_gradient raise_domain_shift update_domains
             update_queries update_moves update_source update_move_change
             enforce_contract negative_claim_exhausted stagnation absorb_gradient
             absorb_low_score pre_turn id] beta zeta.

Ltac leaf_cases :=
  repeat match goal with
         | |- context [if ?b then _ else _] => destruct b
         | |- context [match ?o with Some _ => _ | None => _ end] => destruct o
         | |- context [match ?o with [] => _ | _ :: _ => _ end] => destruct o
         end.

Section RunInvariants.
Context {E : Externals}.
Import Loop.

Lemma stable_modify (P : LoopState -> Prop) (f : LoopState -> LoopState) :
  stable P f -> preserves P (modify f).
Proof. intros Hf st H. cbn [modify snd]. apply Hf. exact H. Qed.

(** [pre_turn] appends advisory messages to the history and may raise
    [notes_required]; the rest of the state is as it was. *)
Lemma pre_turn_frame (cfg : Config) (step : nat) (st : LoopState) :
  let st' := pre_turn cfg step st in
  counters st' = counters st /\ moves st' = moves st /\ domains st' = domains st
  /\ ledgers st' = ledgers st /\ epistemic st' = epistemic st /\ sys st' = sys st
  /\ history st `prefix_of` history st'.
Proof.
  cbv zeta.
  set (F := fun x : LoopState =>
              counters x = counters st /\ moves x = moves st /\ domains x = domains st
              /\ ledgers x = ledgers st /\ epistemic x = epistemic st /\ sys x = sys st
              /\ history st `prefix_of` history x).
  change (F (pre_turn cfg step st)).
  assert (Hmsg : forall (b : bool) (r t : string) (x : LoopState),
             F x -> F (if b then history_append r t x else x)).
  { intros [|] r t x Hx; [|exact Hx]. unfold F in *. state_simpl.
    destruct Hx as (H1 & H2 & H3 & H4 & H5 & H6 & H7).
    repeat split; try assumption. apply prefix_app_r. exact H7. }
  assert (Hflag : forall (b : bool) (x : LoopState),
             F x -> F (if b then upd_flags (set_notes_required true) x else x)).
  { intros [|] x Hx; exact Hx. }
  unfold pre_turn. cbv zeta. apply Hflag. repeat apply Hmsg.
  unfold F. repeat split; reflexivity.
Qed.

Lemma stable_pre_turn (P : LoopState -> Prop) (cfg : Config) (step : nat) :
  (forall st st',
     counters st' = counters st -> moves st' = moves st -> domains st' = domains st ->
     ledgers st' = ledgers st -> epistemic st' = epistemic st -> sys st' = sys st ->
     history st `prefix_of` history st' -> P st -> P st') ->
  stable P (pre_turn cfg step).
Proof.
  intros HP st H.
  destruct (pre_turn_frame cfg step st) as (Hc & Hm & Hd & Hl & He & Hs & Hh).
  exact (HP st _ Hc Hm Hd Hl He Hs Hh H).
Qed.

(** ** The pieces that run a command *)

Section Pieces.
Variable P : LoopState -> Prop.
Hypothesis P_shell :
  forall cmd st, P st -> P (set_sys (snd (Tools.shell cmd (sys st))) st).
Hypothesis P_tool :
  forall scope step tl a obs st,
    P st -> P (trace_event (EvTool (Some scope) step tl a obs) st).

Lemma stable_runtime_shell (cmd : string) : preserves P (runtime_shell cmd).
Proof.
  intros st H. unfold runtime_shell. pose proof (P_shell cmd st H) as Hs.
  destruct (Tools.shell cmd (sys st)) as [[e|obs] sys']; cbn [snd] in *;
    [exact Hs|apply P_tool; exact Hs].
Qed.

Lemma stable_notes_append (text : string) : preserves P (notes_append text).
Proof.
  unfold notes_append. apply preserves_bind;
    [apply stable_runtime_shell|intros _; apply preserves_ret].
Qed.

Lemma stable_notes_reset (text : string) : preserves P (notes_reset text).
Proof.
  unfold notes_reset. apply preserves_bind;
    [apply stable_runtime_shell|intros _; apply preserves_ret].
Qed.

Lemma stable_log_model_output (step : nat) (text tag : string) :
  preserves P (log_model_output step text tag).
Proof.
  unfold log_model_output. destruct (negb (Py.truthy text));
    [apply preserves_ret|apply stable_notes_append].
Qed.

Lemma stable_execute_tool (call : ToolCall) : preserves P (execute_tool call).
Proof.
  intros st H. unfold execute_tool.
  destruct (negb (is_shell call)); [exact H|].
  pose proof (P_shell (args_cmd (args call)) st H) as Hs.
  destruct (Tools.shell (args_cmd (args call)) (sys st)) as [[e|obs] sys'];
    cbn [snd] in *; exact Hs.
Qed.

Lemma stable_mini_step (ms : Verifier.MiniStep) : preserves P (mini_step ms).
Proof.
  intros st H. unfold mini_step.
  destruct (negb (String.eqb (Verifier.ms_tool ms) "shell")).
  - cbn [snd]. assert (Hs : P (set_sys (sys st) st)) by (destruct st; exact H).
    destruct (Verifier.ms_traced ms); [apply P_tool|]; exact Hs.
  - pose proof (P_shell (Py.strip (args_cmd (Verifier.ms_args ms))) st H) as Hs.
    destruct (Tools.shell (Py.strip (args_cmd (Verifier.ms_args ms))) (sys st))
      as [[e|obs] sys']; cbn [snd] in *;
      (destruct (Verifier.ms_traced ms); [apply P_tool|]; exact Hs).
Qed.

Lemma stable_deep_verify (cfg : Config) (answer : string) (run : Verifier.VerifierRun) :
  preserves P (deep_verify cfg answer run).
Proof.
  unfold deep_verify. apply preserves_bind.
  - apply preserves_for_each. apply stable_mini_step.
  - intros _. apply preserves_ret.
Qed.

(** What every turn maintains, a run maintains. *)
Lemma stable_run_loop (cfg : Config) (turns : list ModelTurn) (step : nat)
    (st : LoopState) :
  (forall step mt, preserves P (turn cfg step mt)) ->
  P st -> P (snd (run_loop cfg turns step st)).
Proof.
  intros Hturn. revert step st.
  induction turns as [|mt turns IH]; intros step st H; cbn [run_loop].
  - destruct (_ && _); exact H.
  - destruct (_ && _); [exact H|].
    pose proof (Hturn (S step) mt st H) as Ht.
    destruct (turn cfg (S step) mt st) as [[u|r|e] st']; cbn [snd] in *;
      [apply IH; exact Ht|exact Ht|exact Ht].
Qed.

Lemma stable_run_agent (cfg : Config) (turns : list ModelTurn) (s : Tools.Sys) :
  (forall step mt, preserves P (turn cfg step mt)) ->
  preserves P (startup cfg) ->
  P (initial_state s) -> P (snd (run_agent cfg turns s)).
Proof.
  intros Hturn Hstart H0. unfold run_agent.
  pose proof (Hstart (initial_state s) H0) as H1.
  destruct (startup cfg (initial_state s)) as [[u|r|e] st]; cbn [snd] in *;
    [apply stable_run_loop; assumption|exact H1|exact H1].
Qed.

End Pieces.

End RunInvariants.

(** A predicate that reads the counters, the moves, the domains, the
    ledgers, the epistemic state and the tool belt, and the history as a
    list that grows. *)
Ltac frame_leaf :=
  let Hc := fresh "Hc" in let Hm := fresh "Hm" in let Hd := fresh "Hd" in
  let Hl := fresh "Hl" in let He := fresh "He" in let Hs := fresh "Hs" in
  let Hh := fresh "Hh" in let H := fresh "H" in
  intros ?st ?st' Hc Hm Hd Hl He Hs Hh H;
  cbv delta [window_ok calls_counted ledgers_paired going ready stopped
             verifier_accounted round_left rounds_bounded verifier_events
             epistemic_ok extends session_confined] beta in *;
  rewrite ?Hc, ?Hm, ?Hd, ?Hl, ?He, ?Hs;
  first [ exact H
        | destruct H as (? & ? & ? & ? & ? & ? & ? & ?); repeat split;
          first [ assumption | etransitivity; eassumption ] ].

(** One step through a monadic term; [leaf] settles an update, [sh] and
    [tl] are the two facts on commands and their trace events. *)
Ltac step leaf sh tl :=
  match goal with
  | |- preserves _ (bind _ _) => apply preserves_bind; [|intros ?]
  | |- preserves _ (ret _) => apply preserves_ret
  | |- preserves _ (return_ _) => apply preserves_return
  | |- preserves _ (gets _) => apply preserves_gets
  | |- preserves _ (when _ _) => apply preserves_when
  | |- preserves _ (for_each _ _) => apply preserves_for_each; intros ?
  | |- preserves _ (modify (pre_turn _ _)) =>
      apply stable_modify; apply stable_pre_turn; frame_leaf
  | |- preserves _ (modify _) => apply stable_modify; leaf
  | |- preserves _ (notes_append _) => apply (stable_notes_append _ sh tl)
  | |- preserves _ (log_model_output _ _ _) => apply (stable_log_model_output _ sh tl)
  | |- preserves _ (execute_tool _) => apply (stable_execute_tool _ sh)
  | |- preserves _ (deep_verify _ _ _) => apply (stable_deep_verify _ sh tl)
  | |- preserves _ (runtime_shell _) => apply (stable_runtime_shell _ sh tl)
  | |- preserves _ (notes_reset _) => apply (stable_notes_reset _ sh tl)
  | |- preserves _ (if ?b then _ else _) => destruct b
  | |- preserves _ (match ?x with _ => _ end) => destruct x
  end.

(** ** The window of recent query families *)

Section QueryWindow.
Context {E : Externals}.
Import Loop.

Lemma deque_append_ok (n : nat) (x : string) (q : list string) :
  0 < n -> List.length q <= n -> List.NoDup q -> ~ In x q ->
  Forall (fun y => Py.truthy y = true) q -> Py.truthy x = true ->
  let q' := deque_append n x q in
  List.length q' <= n /\ List.NoDup q' /\ Forall (fun y => Py.truthy y = true) q'.
Proof.
  intros Hn Hlen Hnd Hx Ht Htx. unfold deque_append. cbv zeta.
  assert (Hnd' : List.NoDup (q ++ [x])).
  { rewrite <- (List.rev_involutive (q ++ [x])). apply List.NoDup_rev.
    rewrite rev_app_distr. cbn [rev app]. constructor.
    - rewrite <- in_rev. exact Hx.
    - apply List.NoDup_rev. exact Hnd. }
  assert (Ht' : Forall (fun y => Py.truthy y = true) (q ++ [x])).
  { apply Forall_app. split; [exact Ht|constructor; [exact Htx|constructor]]. }
  assert (Hl' : List.length (q ++ [x]) = S (List.length q))
    by (rewrite length_app; cbn [List.length]; lia).
  destruct (n <? List.length (q ++ [x])) eqn:Hfull.
  - destruct (q ++ [x]) as [|a r]; [cbn in Hl'; lia|]. cbn [List.tl].
    cbn [List.length] in Hl'. inversion Hnd'; subst. inversion Ht'; subst.
    repeat split; [lia|assumption|assumption].
  - apply Nat.ltb_ge in Hfull. repeat split; [lia|assumption|assumption].
Qed.

Lemma window_update_queries (cfg : Config) (d : Dims) :
  stable (window_ok cfg) (update_queries cfg d).
Proof.
  intros st (Hlen & Hnd & Ht). unfold update_queries. cbv zeta.
  destruct (truthy_opt (d_query_family d)) eqn:Hq; cbn [andb];
    [|repeat split; assumption].
  destruct (Py.mem _ _) eqn:Hm; cbn [negb]; [repeat split; assumption|].
  unfold window_ok. state_simpl. cbn [recent_query_families set_recent_query_families].
  apply deque_append_ok; try assumption.
  - lia.
  - intros Hin. apply mem_In in Hin. congruence.
  - destruct (d_query_family d) as [q|]; [exact Hq|discriminate].
Qed.

Ltac window_leaf :=
  first [ apply window_update_queries
        | intros ?st ?H; unfold window_ok in *; unfold_updates; leaf_cases;
          state_simpl; assumption ].

Lemma window_shell (cfg : Config) (cmd : string) (st : LoopState) :
  window_ok cfg st -> window_ok cfg (set_sys (snd (Tools.shell cmd (sys st))) st).
Proof. exact (fun H => H). Qed.

Lemma window_tool (cfg : Config) (scope : string) (step : option nat) (tl : string)
    (a : Args) (obs : Obs) (st : LoopState) :
  window_ok cfg st -> window_ok cfg (trace_event (EvTool (Some scope) step tl a obs) st).
Proof. exact (fun H => H). Qed.

Ltac wstep cfg := step ltac:(window_leaf) (window_shell cfg) (window_tool cfg).

Lemma window_record_evidence (cfg : Config) (step : nat) (tl : string) (a : Args)
    (obs : Obs) :
  preserves (window_ok cfg) (lift (record_evidence step tl a obs)).
Proof.
  intros st H. unfold lift.
  destruct (record_evidence step tl a obs st) as [id st'] eqn:Hr. cbn [snd].
  destruct (record_evidence_frame step tl a obs st) as (_ & _ & _ & _ & Hm & _).
  rewrite Hr in Hm. cbn [snd] in Hm. unfold window_ok. rewrite Hm. exact H.
Qed.

Lemma window_block_call (cfg : Config) (step : nat) (call : ToolCall) (obs : Obs)
    (policy : string) (writes after : LoopState -> LoopState) :
  stable (window_ok cfg) writes -> stable (window_ok cfg) after ->
  preserves (window_ok cfg) (block_call step call obs policy writes after).
Proof.
  intros Hw Ha. unfold block_call.
  repeat first [ apply window_record_evidence | wstep cfg ]; assumption.
Qed.

Lemma window_run_call (cfg : Config) (step : nat) (resp : string) (call : ToolCall)
    (d : Dims) :
  preserves (window_ok cfg) (run_call cfg step resp call d).
Proof.
  unfold run_call. repeat first [ apply window_record_evidence | wstep cfg ].
Qed.

Lemma window_process_call (cfg : Config) (step : nat) (resp : string) (call : ToolCall) :
  preserves (window_ok cfg) (process_call cfg step resp call).
Proof.
  unfold process_call.
  repeat wstep cfg;
    try (apply window_block_call; window_leaf);
    try apply window_run_call.
Qed.

Lemma window_turn (cfg : Config) (step : nat) (mt : ModelTurn) :
  preserves (window_ok cfg) (turn cfg step mt).
Proof.
  unfold turn, no_tool_turn, after_contract, verify_turn. cbv zeta.
  repeat wstep cfg; try apply window_process_call.
Qed.

Lemma window_startup (cfg : Config) : preserves (window_ok cfg) (startup cfg).
Proof. unfold startup. repeat wstep cfg. Qed.

(** The deque of recent query families keeps its bound through a run:
    it never holds more than max(QUERY_MUTATION_BUDGET, 1) families, never
    the same family twice and never an empty one. *)
Theorem query_window_is_bounded (cfg : Config) (turns : list ModelTurn) (s : Tools.Sys) :
  let w := recent_query_families (moves (snd (run_agent cfg turns s))) in
  List.length w <= Nat.max (QUERY_MUTATION_BUDGET cfg) 1
  /\ List.NoDup w
  /\ Forall (fun q => Py.truthy q = true) w.
Proof.
  apply (stable_run_agent (window_ok cfg)).
  - apply window_turn.
  - apply window_startup.
  - unfold window_ok. cbn. repeat split; [lia|constructor|constructor].
Qed.

End QueryWindow.
(* ===================================================================== *)
(** * The step budget and the counters of a run                           *)
(* ===================================================================== *)

Section StepBudget.
Context {E : Externals}.
Import Loop.

Lemma run_loop_ends (cfg : Config) (turns : list ModelTurn) (step : nat) (st : LoopState) :
  (0 < max_steps cfg)%Z ->
  (max_steps cfg <= Z.of_nat (step + List.length turns))%Z ->
  fst (run_loop cfg turns step st) <> Running.
Proof.
  intros Hpos. revert step st.
  induction turns as [|mt turns IH]; intros step st Hle; cbn [run_loop].
  - destruct ((0 <? max_steps cfg)%Z && (max_steps cfg <? Z.of_nat (S step))%Z) eqn:Hb;
      [discriminate|].
    exfalso. apply andb_false_iff in Hb. cbn [List.length] in Hle.
    destruct Hb as [Hb|Hb]; apply Z.ltb_ge in Hb; lia.
  - destruct (_ && _); [discriminate|].
    destruct (turn cfg (S step) mt st) as [[u|r|e] st']; cbn [fst]; try discriminate.
    apply IH. cbn [List.length] in Hle. lia.
Qed.

Lemma run_loop_app (cfg : Config) (turns more : list ModelTurn) (step : nat)
    (st : LoopState) :
  fst (run_loop cfg turns step st) <> Running ->
  run_loop cfg (turns ++ more) step st = run_loop cfg turns step st.
Proof.
  revert step st. induction turns as [|mt turns IH]; intros step st Hne;
    cbn [run_loop app] in *.
  - destruct (_ && _) eqn:Hb.
    + destruct more; cbn [run_loop]; rewrite Hb; reflexivity.
    + exfalso. apply Hne. reflexivity.
  - destruct (_ && _); [reflexivity|].
    destruct (turn cfg (S step) mt st) as [[u|r|e] st']; try reflexivity.
    apply IH. exact Hne.
Qed.

(** With a positive step budget a run ends after at most [max_steps]
    responses of the model: given that many it has returned or an
    exception has escaped, and responses beyond them are never read. *)
Theorem run_stops_within_step_budget (cfg : Config) (turns more : list ModelTurn)
    (s : Tools.Sys) :
  (0 < max_steps cfg)%Z ->
  (max_steps cfg <= Z.of_nat (List.length turns))%Z ->
  fst (run_agent cfg turns s) <> Running
  /\ run_agent cfg (turns ++ more) s = run_agent cfg turns s.
Proof.
  intros Hpos Hle. unfold run_agent.
  destruct (startup cfg (initial_state s)) as [[u|r|e] st];
    [|split; [discriminate|reflexivity]..].
  assert (Hends : fst (run_loop cfg turns 0 st) <> Running)
    by (apply run_loop_ends; [exact Hpos|exact Hle]).
  split; [exact Hends|apply run_loop_app; exact Hends].
Qed.

End StepBudget.

(** A budget of two steps and a script of three responses. *)
Lemma run_stops_within_step_budget_witness :
  let cfg := Loop.default_config "find foo" 2 72 in
  let turns := [Fixture.explore; Fixture.answer_scored 2] in
  (0 < Loop.max_steps cfg)%Z
  /\ (Loop.max_steps cfg <= Z.of_nat (List.length turns))%Z
  /\ fst (@Loop.run_agent Fixture.stub cfg turns Fixture.sys0) <> Loop.Running
  /\ @Loop.run_agent Fixture.stub cfg (turns ++ [Fixture.explore]) Fixture.sys0
     = @Loop.run_agent Fixture.stub cfg turns Fixture.sys0.
Proof.
  cbv zeta.
  assert (H1 : (0 < Loop.max_steps (Loop.default_config "find foo" 2 72))%Z)
    by (vm_compute; reflexivity).
  assert (H2 : (Loop.max_steps (Loop.default_config "find foo" 2 72)
                <= Z.of_nat (List.length [Fixture.explore; Fixture.answer_scored 2]))%Z)
    by (vm_compute; discriminate).
  pose proof (@run_stops_within_step_budget Fixture.stub
                (Loop.default_config "find foo" 2 72)
                [Fixture.explore; Fixture.answer_scored 2] [Fixture.explore]
                Fixture.sys0 H1 H2) as H.
  destruct H as (Ha & Hb).
  split; [exact H1|]. split; [exact H2|]. split; [exact Ha|exact Hb].
Defined.

(** ** Tool calls counted and evidence records *)

Section CallsCounted.
Context {E : Externals}.
Import Loop.














End CallsCounted.
(* ===================================================================== *)
(** * The move ledger and the query ledger                                *)
(* ===================================================================== *)

Section LedgersPaired.
Context {E : Externals}.
Import Loop.



















End LedgersPaired.
(* ===================================================================== *)
(** * The rounds of the verifier                                          *)
(* ===================================================================== *)

Section VerifierRounds.
Context {E : Externals}.
Import Loop.

(** ** Triples *)




(** ** The invariant *)











(** ** One round *)




(** ** A turn *)










End VerifierRounds.

(* ===================================================================== *)
(** * Dispatched calls and the notes cadence                              *)
(* ===================================================================== *)

Section Dispatch.
Context {E : Externals}.
Import Loop.

Ltac flags_simpl :=
  cbn [notes_required force_tool_next force_query_mutation force_move_change
       force_source_shift force_domain_shift
       set_notes_required set_force_tool_next set_force_query_mutation
       set_force_move_change set_force_source_shift set_force_domain_shift] in *.

(** Updates that leave the tool belt and the flag [notes_required]. *)
Ltac kept_leaf :=
  intros ?st ?H; cbv beta in *; unfold_updates; leaf_cases; state_simpl; flags_simpl;
  assumption.

Ltac kstep := step ltac:(kept_leaf) tt tt.

(** An accepted call, spelled out up to the notes append: the dispatch,
    the evidence record, and the one runtime command that follows. *)
Lemma run_call_effect (cfg : Config) (step : nat) (resp : string) (call : ToolCall)
    (d : Dims) (st : LoopState) (obs : Obs) (sys' : Tools.Sys) :
  execute_tool call st = (Next obs, set_sys sys' st) ->
  let out := run_call cfg step resp call d st in
  let script :=
    append_script (step_block step (tool call) (args call) obs
                     (evidence_id (S (evidence_counter (ledgers st))))) in
  evidence (ledgers (snd out))
  = evidence (ledgers st) ++ [new_evidence step (tool call) (args call) obs st]
  /\ (sys (snd out) = snd (Tools.shell script sys')
      /\ notes_required (flags (snd out))
         = notes_required (flags st)
           && negb (is_shell call && is_append (d_notes_mode d)))
  /\ forall e, fst out = Raise e -> fst (Tools.shell script sys') = inl e.
Proof.
  intros He. cbv zeta. split.
  { destruct (run_call_evidence cfg step resp call d st) as (obs0 & sys0 & He0 & Hev).
    rewrite He in He0. injection He0 as Ho _. subst obs0. exact Hev. }
  remember (run_call cfg step resp call d st) as out eqn:Hout.
  unfold run_call in Hout. unfold bind at 1 in Hout. rewrite He in Hout.
  rewrite !bind_modify, bind_lift, bind_modify, bind_gets, bind_modify in Hout.
  rewrite record_evidence_id in Hout.
  set (st1 := trace_event _ (history_append _ _ (set_sys sys' st))) in Hout.
  change (evidence_counter (ledgers st1)) with (evidence_counter (ledgers st)) in Hout.
  destruct (record_evidence_frame step (tool call) (args call) obs st1)
    as (Hsys & _ & Hfl & _). cbv zeta in Hsys, Hfl.
  set (st1' := snd (record_evidence step (tool call) (args call) obs st1)) in *.
  set (ft := last_failure_type (bump_tool_calls st1')) in Hout.
  set (oc := if truthy_opt ft then "failed" else "ok") in Hout.
  set (st3 := record_move step (tool call) d ft oc (bump_tool_calls st1')) in Hout.
  assert (Hs3 : sys st3 = sys' /\ notes_required (flags st3) = notes_required (flags st)).
  { unfold st3. state_simpl. rewrite Hsys, Hfl. split; reflexivity. }
  assert (Hq : exists st4,
             (sys st4 = sys' /\ notes_required (flags st4) = notes_required (flags st))
             /\ forall (k : unit -> M unit),
                  bind (when (truthy_opt (d_query_family d))
                             (modify (record_query step d oc))) k st3
                  = k tt st4).
  { destruct (truthy_opt (d_query_family d)); cbn [when].
    - exists (record_query step d oc st3). split; [exact Hs3|reflexivity].
    - exists st3. split; [exact Hs3|reflexivity]. }
  destruct Hq as (st4 & (Hs4 & Hf4) & Hk). rewrite Hk in Hout. clear Hk.
  rewrite bind_gets, Hf4 in Hout.
  assert (Hw : exists st5,
             (sys st5 = sys'
              /\ notes_required (flags st5)
                 = notes_required (flags st)
                   && negb (is_shell call && is_append (d_notes_mode d)))
             /\ forall (k : unit -> M unit),
                  bind (when (notes_required (flags st) && is_shell call
                              && is_append (d_notes_mode d))
                             (modify (upd_flags (set_notes_required false)))) k st4
                  = k tt st5).
  { destruct (notes_required (flags st)) eqn:Hn;
      destruct (is_shell call && is_append (d_notes_mode d)) eqn:Hb;
      rewrite <- ?andb_assoc, ?Hb; cbn [andb negb when].
    - exists (upd_flags (set_notes_required false) st4).
      split; [split; [exact Hs4|reflexivity]|reflexivity].
    - exists st4. split; [split; [exact Hs4|rewrite Hf4; reflexivity]|reflexivity].
    - exists st4. split; [split; [exact Hs4|rewrite Hf4; reflexivity]|reflexivity].
    - exists st4. split; [split; [exact Hs4|rewrite Hf4; reflexivity]|reflexivity]. }
  destruct Hw as (st5 & (Hs5 & Hf5) & Hk). rewrite Hk in Hout. clear Hk.
  rewrite bind_notes_append, Hs5 in Hout.
  destruct (Tools.shell _ sys') as [[e|o] s''] eqn:Hsh; cbn [snd]; subst out.
  - state_simpl. split; [split; [reflexivity|exact Hf5]|].
    intros e' He'. injection He' as ->. reflexivity.
  - cbv beta. split.
    2:{ rewrite !bind_modify.
        destruct (_ && _ && _); [rewrite !bind_modify, bind_gets; destruct (3 <=? _)|];
          cbn; intros; discriminate. }
    match goal with
    | |- sys (snd (?c ?x)) = _ /\ _ =>
        assert (Hp : preserves
                       (fun y => sys y = s''
                                 /\ notes_required (flags y)
                                    = notes_required (flags st)
                                      && negb (is_shell call
                                               && is_append (d_notes_mode d))) c)
          by (repeat kstep);
        apply Hp
    end.
    split; [reflexivity|exact Hf5].
Qed.


Lemma execute_tool_sys (call : ToolCall) (st x : LoopState) (obs : Obs)
    (sys' : Tools.Sys) :
  sys x = sys st ->
  execute_tool call st = (Next obs, set_sys sys' st) ->
  execute_tool call x = (Next obs, set_sys sys' x).
Proof.
  intros Hs. unfold execute_tool. rewrite Hs.
  destruct (negb (is_shell call)).
  - intros H. injection H as Ho Hst.
    assert (Hsys : sys' = sys st)
      by (apply (f_equal sys) in Hst; exact (eq_sym Hst)).
    rewrite <- Ho, Hsys, <- Hs. destruct x; reflexivity.
  - destruct (Tools.shell (args_cmd (args call)) (sys st)) as [[e|o] s1];
      intros H; injection H as Ho Hst; rewrite Ho, Hst; reflexivity.
Qed.

Lemma new_evidence_counter (step : nat) (tl : string) (a : Args) (obs : Obs)
    (st x : LoopState) :
  evidence_counter (ledgers x) = evidence_counter (ledgers st) ->
  new_evidence step tl a obs x = new_evidence step tl a obs st.
Proof. intros H. unfold new_evidence. rewrite H. reflexivity. Qed.

(** A call that passes the gates: what [process_call] does with it, read
    from the state in which the call arrives. *)
Lemma process_run_effect (cfg : Config) (step : nat) (resp : string) (call : ToolCall)
    (st : LoopState) (obs : Obs) (sys' : Tools.Sys) :
  gate_of cfg call (dims_of cfg st call) st = GRun ->
  execute_tool call st = (Next obs, set_sys sys' st) ->
  let out := process_call cfg step resp call st in
  let script :=
    append_script (step_block step (tool call) (args call) obs
                     (evidence_id (S (evidence_counter (ledgers st))))) in
  evidence (ledgers (snd out))
  = evidence (ledgers st) ++ [new_evidence step (tool call) (args call) obs st]
  /\ (sys (snd out) = snd (Tools.shell script sys')
      /\ notes_required (flags (snd out))
         = notes_required (flags st)
           && negb (is_shell call && is_append (d_notes_mode (dims_of cfg st call))))
  /\ forall e, fst out = Raise e -> fst (Tools.shell script sys') = inl e.
Proof.
  intros Hg He. cbv zeta. rewrite process_call_unfold. cbv zeta. rewrite Hg.
  rewrite bind_modify.
  set (d := dims_of cfg st call).
  set (x := raise_domain_shift cfg d (drop_gradient step st)).
  destruct (drop_gradient_frame step st)
    as (Hf & _ & _ & _ & _ & Hs & _ & Hev & Hc & _). cbv zeta in Hf, Hs, Hev, Hc.
  assert (Hx : sys x = sys st /\ evidence (ledgers x) = evidence (ledgers st)
               /\ evidence_counter (ledgers x) = evidence_counter (ledgers st)
               /\ notes_required (flags x) = notes_required (flags st)).
  { unfold x, raise_domain_shift.
    destruct (_ && _ && _ && _ && _); state_simpl; flags_simpl;
      rewrite ?Hs, ?Hev, ?Hc, ?Hf; repeat split. }
  destruct Hx as (Hxs & Hxe & Hxc & Hxf).
  pose proof (run_call_effect cfg step resp call d x obs sys'
                (execute_tool_sys call st x obs sys' Hxs He)) as H.
  cbv zeta in H. rewrite Hxe, Hxc, Hxf in H.
  rewrite (new_evidence_counter _ _ _ _ st x Hxc) in H. exact H.
Qed.

Lemma gate_of_other_tool (cfg : Config) (call : ToolCall) (st : LoopState) :
  is_shell call = false -> gate_of cfg call (dims_of cfg st call) st = GRun.
Proof.
  intros Hsh. unfold gate_of, dims_of. cbv zeta. rewrite Hsh.
  cbn [andb d_notes_mode d_query_family d_domain head truthy_opt].
  rewrite ?andb_false_r. cbn [andb]. reflexivity.
Qed.

(** A call of a tool other than the shell is not dispatched: the loop
    records the observation "Unknown tool (shell-only mode)" as evidence
    and hands nothing to the tool belt but its own append to notes.md. *)
Theorem unknown_tool_is_not_dispatched (cfg : Config) (step : nat) (resp : string)
    (call : ToolCall) (st : LoopState) :
  tool call <> "shell" ->
  let out := process_call cfg step resp call st in
  let obs :=
    {| exit_code := None; output := None; obs_cwd := None;
       error := Some ("Unknown tool (shell-only mode): " +:+ tool call);
       error_type := None;
       hint := Some "Use the shell tool only. If you need the internet, do it from the shell." |} in
  let rec := new_evidence step (tool call) (args call) obs st in
  let script :=
    append_script (step_block step (tool call) (args call) obs
                     (evidence_id (S (evidence_counter (ledgers st))))) in
  evidence (ledgers (snd out)) = evidence (ledgers st) ++ [rec]
  /\ eo_error (ev_obs rec) = Some ("Unknown tool (shell-only mode): " +:+ tool call)
  /\ eo_exit_code (ev_obs rec) = None
  /\ sys (snd out) = snd (Tools.shell script (sys st)).
Proof.
  intros Hne. cbv zeta.
  assert (Hsh : is_shell call = false).
  { unfold is_shell. apply String.eqb_neq. exact Hne. }
  match goal with
  | |- context [new_evidence step (tool call) (args call) ?o st] => set (obs := o)
  end.
  assert (He : execute_tool call st = (Next obs, set_sys (sys st) st)).
  { unfold execute_tool. rewrite Hsh. cbn [negb]. destruct st; reflexivity. }
  destruct (process_run_effect cfg step resp call st obs (sys st)
              (gate_of_other_tool cfg call st Hsh) He) as (Hev & (Hs & _) & _).
  repeat split; assumption.
Qed.

(** An exception of the tool belt does not escape from the dispatch of a
    call: its text and class become the observation, which is recorded as
    evidence, and the loop goes on to the notes append.  If the call raises
    at all, it is this append that raised. *)
Theorem tool_exception_becomes_observation (cfg : Config) (step : nat) (resp : string)
    (call : ToolCall) (st : LoopState) (e : Tools.exn) :
  tool call = "shell" ->
  gate_of cfg call (dims_of cfg st call) st = GRun ->
  fst (Tools.shell (args_cmd (args call)) (sys st)) = inl e ->
  let out := process_call cfg step resp call st in
  let obs := blocked_obs (Tools.exn_str e) (Tools.exn_class e) in
  let rec := new_evidence step "shell" (args call) obs st in
  let after_call := snd (Tools.shell (args_cmd (args call)) (sys st)) in
  let script :=
    append_script (step_block step "shell" (args call) obs
                     (evidence_id (S (evidence_counter (ledgers st))))) in
  evidence (ledgers (snd out)) = evidence (ledgers st) ++ [rec]
  /\ eo_error (ev_obs rec) = Some (Tools.exn_str e)
  /\ eo_error_type (ev_obs rec) = Some (Tools.exn_class e)
  /\ sys (snd out) = snd (Tools.shell script after_call)
  /\ forall e', fst out = Raise e' -> fst (Tools.shell script after_call) = inl e'.
Proof.
  intros Htool Hg Hexn. cbv zeta.
  assert (He : execute_tool call st
               = (Next (blocked_obs (Tools.exn_str e) (Tools.exn_class e)),
                  set_sys (snd (Tools.shell (args_cmd (args call)) (sys st))) st)).
  { unfold execute_tool, is_shell. rewrite Htool. cbn [String.eqb Ascii.eqb Bool.eqb negb].
    destruct (Tools.shell (args_cmd (args call)) (sys st)) as [[e0|o] s1];
      cbn [fst snd] in *; [|discriminate].
    injection Hexn as ->. reflexivity. }
  destruct (process_run_effect cfg step resp call st _ _ Hg He) as (Hev & (Hs & _) & Hr).
  rewrite Htool in Hev, Hs, Hr.
  repeat split; assumption.
Qed.

(** Once an append to notes.md was dispatched, no notes update is
    pending: whatever [notes_required] was, it is false after a shell call
    classified as an append has passed the gates. *)
Theorem dispatched_append_clears_notes_required (cfg : Config) (step : nat)
    (resp : string) (call : ToolCall) (st : LoopState) :
  tool call = "shell" ->
  _notes_write_mode (args_cmd (args call)) = Some Append ->
  gate_of cfg call (dims_of cfg st call) st = GRun ->
  notes_required (flags (snd (process_call cfg step resp call st))) = false.
Proof.
  intros Htool Hmode Hg.
  destruct (execute_tool_runs call st) as (obs & sys' & He).
  destruct (process_run_effect cfg step resp call st obs sys' Hg He) as (_ & (_ & Hn) & _).
  rewrite Hn. unfold dims_of, is_shell. cbv zeta. cbn [d_notes_mode].
  rewrite Htool. cbn [String.eqb Ascii.eqb Bool.eqb]. rewrite Hmode.
  cbn [is_append andb negb]. apply andb_false_r.
Qed.

(** ** The notes gate *)

Lemma block_call_keeps_flag (step : nat) (call : ToolCall) (obs : Obs)
    (policy : string) (b : bool) :
  preserves (fun x => notes_required (flags x) = b)
    (block_call step call obs policy id id).
Proof.
  unfold block_call.
  repeat match goal with
         | |- preserves _ (lift (record_evidence _ _ _ _)) =>
             intros x Hx; unfold lift;
             destruct (record_evidence_frame step (tool call) (args call) obs x)
               as (_ & _ & Hf & _); cbv zeta in Hf;
             destruct (record_evidence step (tool call) (args call) obs x);
             cbn [snd] in *; rewrite Hf; exact Hx
         | _ => step ltac:(kept_leaf) (fun (_ : string) (x : LoopState)
                                           (H : notes_required (flags x) = b) => H)
                     (fun (_ : string) (_ : option nat) (_ : string) (_ : Args)
                          (_ : Obs) (x : LoopState)
                          (H : notes_required (flags x) = b) => H)
         end.
Qed.

(** While a notes update is pending, a shell call that does not write to
    notes.md is blocked before dispatch: the observation with error_type
    notes_update_required is recorded as evidence and put in the history,
    no move or query record is written, the only command handed to the
    tool belt is the append of the step block, and the update stays
    pending. *)
Theorem pending_notes_update_blocks (cfg : Config) (step : nat) (resp : string)
    (call : ToolCall) (st : LoopState) :
  tool call = "shell" ->
  notes_required (flags st) = true ->
  _notes_write_mode (args_cmd (args call)) = None ->
  let out := process_call cfg step resp call st in
  let rec := new_evidence step "shell" (args call) notes_update_obs st in
  let script :=
    append_script (step_block step "shell" (args call) notes_update_obs
                     (evidence_id (S (evidence_counter (ledgers st))))) in
  (fst out = Next tt \/ exists e, fst out = Raise e)
  /\ evidence (ledgers (snd out)) = evidence (ledgers st) ++ [rec]
  /\ eo_error_type (ev_obs rec) = Some "notes_update_required"
  /\ history (snd out)
     = history st
       ++ [{| role := "user"; content := observation_text "shell" notes_update_obs |}]
  /\ sys (snd out) = snd (Tools.shell script (sys st))
  /\ move_ledger (ledgers (snd out)) = move_ledger (ledgers st)
  /\ query_ledger (ledgers (snd out)) = query_ledger (ledgers st)
  /\ notes_required (flags (snd out)) = true.
Proof.
  intros Htool Hreq Hmode. cbv zeta.
  assert (Hflag : notes_required (flags (snd (process_call cfg step resp call st))) = true).
  { rewrite process_call_unfold. cbv zeta.
    assert (Hgate : gate_of cfg call (dims_of cfg st call) st = GNotesRequired).
    { unfold gate_of, dims_of, is_shell. cbn [d_notes_mode].
      rewrite Htool. cbn [String.eqb Ascii.eqb Bool.eqb andb]. rewrite Hmode, Hreq.
      reflexivity. }
    rewrite Hgate. apply block_call_keeps_flag.
    destruct (drop_gradient_frame step st) as (Hf & _). cbv zeta in Hf.
    rewrite Hf. exact Hreq. }
  rewrite process_call_unfold in *. cbv zeta in *.
  assert (Hgate : gate_of cfg call (dims_of cfg st call) st = GNotesRequired).
  { unfold gate_of, dims_of, is_shell. cbn [d_notes_mode].
    rewrite Htool. cbn [String.eqb Ascii.eqb Bool.eqb andb]. rewrite Hmode, Hreq.
    reflexivity. }
  rewrite Hgate in *.
  destruct (drop_gradient_frame step st)
    as (_ & _ & _ & _ & Hh & Hs & _ & He & Hc & Hml & Hql & _ & _ & pre & Htr).
  cbv zeta in Hh, Hs, He, Hc, Hml, Hql, Htr.
  pose proof (block_call_effect step call notes_update_obs "policy_notes_gate" id id
                (drop_gradient step st) plain_update_id quiet_update_id) as Heff.
  cbv zeta in Heff. rewrite Htool in Heff.
  destruct Heff as (Hout & Hev & Hin & Hhist & Hsys & mid & Hm1 & Hm2 & _ & _ & Hm5 & Hm6).
  rewrite Hc, Hs in Hsys. rewrite He in Hev. rewrite Hh in Hhist.
  split; [exact Hout|]. split.
  { rewrite Hev. unfold new_evidence. rewrite Hc. reflexivity. }
  repeat split; try assumption.
  - rewrite Hm5. unfold id. rewrite Hm1. exact Hml.
  - rewrite Hm6. unfold id. rewrite Hm2. exact Hql.
Qed.

End Dispatch.

(** A call of a tool named browser, at the first step of a run. *)
Lemma unknown_tool_is_not_dispatched_witness :
  let call := {| Loop.tool := "browser"; Loop.args := ∅ |} in
  let st := @Loop.initial_state Fixture.stub Fixture.sys0 in
  let out := @Loop.process_call Fixture.stub Fixture.search_cfg 1 "THOUGHT: browse" call st in
  Loop.tool call <> "shell"
  /\ exists rec,
       Loop.evidence (Loop.ledgers (snd out)) = Loop.evidence (Loop.ledgers st) ++ [rec]
       /\ Loop.eo_exit_code (Loop.ev_obs rec) = None.
Proof.
  cbv zeta.
  assert (H1 : Loop.tool {| Loop.tool := "browser"; Loop.args := ∅ |} <> "shell")
    by (cbn; discriminate).
  pose proof (@unknown_tool_is_not_dispatched Fixture.stub Fixture.search_cfg 1
                "THOUGHT: browse" {| Loop.tool := "browser"; Loop.args := ∅ |}
                (@Loop.initial_state Fixture.stub Fixture.sys0) H1) as H.
  cbv zeta in H. destruct H as (Hev & _ & Hcode & _).
  split; [exact H1|]. eexists. split; [exact Hev|exact Hcode].
Defined.

(** A command that [_deny_check] refuses, in a call that passes the gates. *)
Lemma tool_exception_becomes_observation_witness :
  let call := Fixture.shell_call "sudo reboot" in
  let st := @Loop.initial_state Fixture.stub Fixture.sys0 in
  let out := @Loop.process_call Fixture.stub Fixture.search_cfg 1 "THOUGHT: reboot" call st in
  Loop.gate_of Fixture.search_cfg call (Loop.dims_of Fixture.search_cfg st call) st
  = Loop.GRun
  /\ exists rec,
       Loop.evidence (Loop.ledgers (snd out)) = Loop.evidence (Loop.ledgers st) ++ [rec]
       /\ Loop.eo_error_type (Loop.ev_obs rec) = Some "ValueError".
Proof.
  cbv zeta.
  assert (H1 : Loop.tool (Fixture.shell_call "sudo reboot") = "shell") by reflexivity.
  assert (H2 : Loop.gate_of Fixture.search_cfg (Fixture.shell_call "sudo reboot")
                 (Loop.dims_of Fixture.search_cfg
                    (@Loop.initial_state Fixture.stub Fixture.sys0)
                    (Fixture.shell_call "sudo reboot"))
                 (@Loop.initial_state Fixture.stub Fixture.sys0) = Loop.GRun)
    by (vm_compute; reflexivity).
  assert (H3 : fst (@Tools.shell Fixture.stub
                      (args_cmd (Loop.args (Fixture.shell_call "sudo reboot")))
                      (Loop.sys (@Loop.initial_state Fixture.stub Fixture.sys0)))
               = inl (Tools.ValueError
                        "Denied command pattern matched: \bsudo\b"))
    by (vm_compute; reflexivity).
  pose proof (@tool_exception_becomes_observation Fixture.stub Fixture.search_cfg 1
                "THOUGHT: reboot" (Fixture.shell_call "sudo reboot")
                (@Loop.initial_state Fixture.stub Fixture.sys0) _ H1 H2 H3) as H.
  cbv zeta in H. destruct H as (Hev & _ & Htype & _).
  split; [exact H2|]. eexists. split; [exact Hev|exact Htype].
Defined.

(** An append to notes.md while an update is pending. *)
Lemma dispatched_append_clears_notes_required_witness :
  let call := Fixture.shell_call "echo done >> /work/notes.md" in
  let st := Loop.upd_flags (Loop.set_notes_required true)
              (@Loop.initial_state Fixture.stub Fixture.sys0) in
  Loop.notes_required (Loop.flags st) = true
  /\ Loop._notes_write_mode (args_cmd (Loop.args call)) = Some Loop.Append
  /\ Loop.notes_required
       (Loop.flags (snd (@Loop.process_call Fixture.stub Fixture.search_cfg 3
                           "THOUGHT: note" call st))) = false.
Proof.
  cbv zeta.
  assert (H1 : Loop.tool (Fixture.shell_call "echo done >> /work/notes.md") = "shell")
    by reflexivity.
  assert (H2 : Loop._notes_write_mode
                 (args_cmd (Loop.args (Fixture.shell_call "echo done >> /work/notes.md")))
               = Some Loop.Append) by (vm_compute; reflexivity).
  assert (H3 : Loop.gate_of Fixture.search_cfg
                 (Fixture.shell_call "echo done >> /work/notes.md")
                 (Loop.dims_of Fixture.search_cfg
                    (Loop.upd_flags (Loop.set_notes_required true)
                       (@Loop.initial_state Fixture.stub Fixture.sys0))
                    (Fixture.shell_call "echo done >> /work/notes.md"))
                 (Loop.upd_flags (Loop.set_notes_required true)
                    (@Loop.initial_state Fixture.stub Fixture.sys0)) = Loop.GRun)
    by (vm_compute; reflexivity).
  pose proof (@dispatched_append_clears_notes_required Fixture.stub Fixture.search_cfg 3
                "THOUGHT: note" (Fixture.shell_call "echo done >> /work/notes.md")
                (Loop.upd_flags (Loop.set_notes_required true)
                   (@Loop.initial_state Fixture.stub Fixture.sys0)) H1 H2 H3) as H.
  split; [reflexivity|]. split; [exact H2|exact H].
Defined.

(** A listing while an update is pending. *)
Lemma pending_notes_update_blocks_witness :
  let call := Fixture.shell_call "ls /work" in
  let st := Loop.upd_flags (Loop.set_notes_required true)
              (@Loop.initial_state Fixture.stub Fixture.sys0) in
  let out := @Loop.process_call Fixture.stub Fixture.search_cfg 3 "THOUGHT: list" call st in
  Loop.notes_required (Loop.flags st) = true
  /\ Loop._notes_write_mode (args_cmd (Loop.args call)) = None
  /\ Loop.notes_required (Loop.flags (snd out)) = true
  /\ Loop.move_ledger (Loop.ledgers (snd out)) = Loop.move_ledger (Loop.ledgers st).
Proof.
  cbv zeta.
  assert (H1 : Loop.tool (Fixture.shell_call "ls /work") = "shell") by reflexivity.
  assert (H2 : Loop.notes_required
                 (Loop.flags (Loop.upd_flags (Loop.set_notes_required true)
                                (@Loop.initial_state Fixture.stub Fixture.sys0))) = true)
    by reflexivity.
  assert (H3 : Loop._notes_write_mode (args_cmd (Loop.args (Fixture.shell_call "ls /work")))
               = None) by (vm_compute; reflexivity).
  pose proof (@pending_notes_update_blocks Fixture.stub Fixture.search_cfg 3
                "THOUGHT: list" (Fixture.shell_call "ls /work")
                (Loop.upd_flags (Loop.set_notes_required true)
                   (@Loop.initial_state Fixture.stub Fixture.sys0)) H1 H2 H3) as H.
  cbv zeta in H. destruct H as (_ & _ & _ & _ & _ & Hml & _ & Hfl).
  split; [exact H2|]. split; [exact H3|]. split; [exact Hfl|exact Hml].
Defined.
(* ===================================================================== *)
(** * The epistemic lists, the written records and the session            *)
(* ===================================================================== *)

Section EpistemicLists.
Context {E : Externals}.
Import Loop.

Lemma snoc_ok (l : list string) (t : string) :
  List.NoDup l -> Forall (fun x => Py.truthy x = true) l ->
  Py.truthy t = true -> Py.mem t l = false ->
  List.NoDup (l ++ [t]) /\ Forall (fun x => Py.truthy x = true) (l ++ [t]).
Proof.
  intros Hnd Hf Ht Hm. split.
  - rewrite <- (List.rev_involutive (l ++ [t])). apply List.NoDup_rev.
    rewrite rev_app_distr. cbn [rev app]. constructor.
    + rewrite <- in_rev. intros Hin. apply mem_In in Hin. congruence.
    + apply List.NoDup_rev. exact Hnd.
  - apply Forall_app. split; [exact Hf|constructor; [exact Ht|constructor]].
Qed.

Lemma lists_ok_add_constraint (t : string) (e : EpistemicState) :
  lists_ok e -> lists_ok (add_constraint t e).
Proof.
  intros H. unfold add_constraint.
  destruct (Py.truthy t) eqn:Ht; cbn [andb]; [|exact H].
  destruct (Py.mem t (constraints e)) eqn:Hm; cbn [negb]; [exact H|].
  destruct H as (H1 & H2 & H3 & H4 & H5 & H6).
  destruct (snoc_ok (constraints e) t H1 H4 Ht Hm) as (Ha & Hb).
  unfold lists_ok. cbn. repeat split; assumption.
Qed.

Lemma lists_ok_add_unresolved (t : string) (e : EpistemicState) :
  lists_ok e -> lists_ok (add_unresolved t e).
Proof.
  intros H. unfold add_unresolved.
  destruct (Py.truthy t) eqn:Ht; cbn [andb]; [|exact H].
  destruct (Py.mem t (unresolved e)) eqn:Hm; cbn [negb]; [exact H|].
  destruct H as (H1 & H2 & H3 & H4 & H5 & H6).
  destruct (snoc_ok (unresolved e) t H2 H5 Ht Hm) as (Ha & Hb).
  unfold lists_ok. cbn. repeat split; assumption.
Qed.

Lemma lists_ok_add_blocked (t : string) (e : EpistemicState) :
  lists_ok e -> lists_ok (add_blocked t e).
Proof.
  intros H. unfold add_blocked.
  destruct (Py.truthy t) eqn:Ht; cbn [andb]; [|exact H].
  destruct (Py.mem t (blocked e)) eqn:Hm; cbn [negb]; [exact H|].
  destruct H as (H1 & H2 & H3 & H4 & H5 & H6).
  destruct (snoc_ok (blocked e) t H3 H6 Ht Hm) as (Ha & Hb).
  unfold lists_ok. cbn. repeat split; assumption.
Qed.

Lemma lists_ok_set_status (s : Status) (e : EpistemicState) :
  lists_ok e -> lists_ok (set_status s e).
Proof. exact (fun H => H). Qed.

Lemma lists_ok_set_verified (e : EpistemicState) : lists_ok (set_verified e).
Proof. unfold lists_ok. cbn. repeat split; constructor. Qed.

Lemma lists_ok_fold_constraint {A : Type} (f : A -> string) (l : list A)
    (e : EpistemicState) :
  lists_ok e -> lists_ok (fold_left (fun e x => add_constraint (f x) e) l e).
Proof.
  revert e. induction l as [|x l IH]; intros e H; cbn [fold_left]; [exact H|].
  apply IH. apply lists_ok_add_constraint. exact H.
Qed.

Lemma lists_ok_fold_unresolved {A : Type} (f : A -> string) (l : list A)
    (e : EpistemicState) :
  lists_ok e -> lists_ok (fold_left (fun e x => add_unresolved (f x) e) l e).
Proof.
  revert e. induction l as [|x l IH]; intros e H; cbn [fold_left]; [exact H|].
  apply IH. apply lists_ok_add_unresolved. exact H.
Qed.

Lemma lists_ok_contract_status (resp : string) (e : EpistemicState) :
  lists_ok e -> lists_ok (contract_status resp e).
Proof.
  intros H. unfold contract_status.
  destruct (_extract_status_update resp) as [[|c su]|];
    [apply lists_ok_add_constraint; exact H| |apply lists_ok_add_constraint; exact H].
  destruct (Py.contains "UNRESOLVED" _); [apply lists_ok_add_unresolved; exact H|].
  destruct (Py.contains "BLOCKED" _); [apply lists_ok_add_blocked; exact H|].
  destruct (_ && _); [apply lists_ok_set_verified|exact H].
Qed.

Lemma lists_ok_contract_evidence (resp : string) (ids : gset string)
    (e : EpistemicState) :
  lists_ok e -> lists_ok (contract_evidence resp ids e).
Proof.
  intros H. unfold contract_evidence.
  destruct (_extract_evidence_used resp); [apply lists_ok_add_constraint; exact H|].
  destruct (List.filter _ _); [exact H|apply lists_ok_add_constraint; exact H].
Qed.

Ltac lists_solve :=
  repeat first [ assumption
               | apply lists_ok_set_verified
               | apply lists_ok_add_constraint
               | apply lists_ok_add_unresolved
               | apply lists_ok_add_blocked
               | apply lists_ok_set_status
               | apply lists_ok_contract_status
               | apply lists_ok_contract_evidence
               | apply (lists_ok_fold_constraint id)
               | apply lists_ok_fold_constraint
               | apply (lists_ok_fold_unresolved id)
               | apply lists_ok_fold_unresolved ].

Ltac lists_leaf :=
  intros ?st ?H; unfold epistemic_ok in *; unfold_updates; leaf_cases; state_simpl;
  solve [lists_solve].

Lemma lists_shell (cmd : string) (st : LoopState) :
  epistemic_ok st -> epistemic_ok (set_sys (snd (Tools.shell cmd (sys st))) st).
Proof. exact (fun H => H). Qed.

Lemma lists_tool (scope : string) (step : option nat) (tl : string)
    (a : Args) (obs : Obs) (st : LoopState) :
  epistemic_ok st -> epistemic_ok (trace_event (EvTool (Some scope) step tl a obs) st).
Proof. exact (fun H => H). Qed.

Lemma lists_record_evidence (step : nat) (tl : string) (a : Args) (obs : Obs) :
  preserves epistemic_ok (lift (record_evidence step tl a obs)).
Proof.
  intros st H. unfold lift, record_evidence. cbv zeta. cbn [snd].
  unfold epistemic_ok in *. leaf_cases; state_simpl; lists_solve.
Qed.

Ltac lstep :=
  match goal with
  | |- preserves _ (lift (record_evidence _ _ _ _)) => apply lists_record_evidence
  | _ => step ltac:(lists_leaf) lists_shell lists_tool
  end.

Lemma lists_block_call (step : nat) (call : ToolCall) (obs : Obs)
    (policy : string) (writes after : LoopState -> LoopState) :
  stable epistemic_ok writes -> stable epistemic_ok after ->
  preserves epistemic_ok (block_call step call obs policy writes after).
Proof. intros Hw Ha. unfold block_call. repeat lstep; assumption. Qed.

Lemma lists_run_call (cfg : Config) (step : nat) (resp : string) (call : ToolCall)
    (d : Dims) :
  preserves epistemic_ok (run_call cfg step resp call d).
Proof. unfold run_call. cbv zeta. repeat lstep. Qed.

Lemma lists_process_call (cfg : Config) (step : nat) (resp : string) (call : ToolCall) :
  preserves epistemic_ok (process_call cfg step resp call).
Proof.
  unfold process_call. repeat lstep;
    try (apply lists_block_call; lists_leaf);
    try apply lists_run_call.
Qed.

Lemma lists_turn (cfg : Config) (step : nat) (mt : ModelTurn) :
  preserves epistemic_ok (turn cfg step mt).
Proof.
  unfold turn, no_tool_turn, after_contract, verify_turn. cbv zeta.
  repeat lstep; try apply lists_process_call.
Qed.

Lemma lists_startup (cfg : Config) : preserves epistemic_ok (startup cfg).
Proof. unfold startup. repeat lstep. Qed.

(** The constraints, the unresolved items and the blocked items of the
    epistemic state, which the final report prints, never hold a text
    twice and never an empty text, wherever a run stands. *)
Theorem epistemic_lists_hold_each_text_once (cfg : Config) (turns : list ModelTurn)
    (s : Tools.Sys) :
  let e := epistemic (snd (run_agent cfg turns s)) in
  List.NoDup (constraints e) /\ List.NoDup (unresolved e) /\ List.NoDup (blocked e)
  /\ Forall (fun t => Py.truthy t = true) (constraints e)
  /\ Forall (fun t => Py.truthy t = true) (unresolved e)
  /\ Forall (fun t => Py.truthy t = true) (blocked e).
Proof.
  apply (stable_run_agent epistemic_ok).
  - apply lists_turn.
  - apply lists_startup.
  - unfold epistemic_ok, lists_ok. cbn. repeat split; constructor.
Qed.

End EpistemicLists.

(** ** What is written stays *)

Section WrittenRecords.
Context {E : Externals}.
Import Loop.















End WrittenRecords.

(** ** The session of the tool belt *)

Section SessionConfined.
Context {E : Externals}.
Import Loop.

Lemma shell_session_confined (cmd : string) (sys : Tools.Sys) :
  Tools.confined (Tools.cwd (Tools.tb sys)) = true ->
  Tools.confined (Tools.cwd (Tools.tb (snd (Tools.shell cmd sys)))) = true.
Proof.
  intros Hc. unfold Tools.shell. cbv zeta.
  destruct (Tools._deny_check (Py.strip cmd)) as [e|]; [exact Hc|].
  pose proof (update_state_confined (Py.strip cmd) (Tools.tb sys) Hc) as Hu.
  destruct (Tools._update_persistent_state (Py.strip cmd) (Tools.tb sys))
    as [tb1 [e|]]; cbn [fst] in Hu; [exact Hu|].
  unfold Tools.sm_exec. cbn [Tools.world Tools.tb Tools.exec_log].
  destruct (docker_exec (Tools.world sys) _) as [w [code out]].
  cbn [fst snd Tools.tb]. exact Hu.
Qed.

Lemma confined_shell (cmd : string) (st : LoopState) :
  session_confined st ->
  session_confined (set_sys (snd (Tools.shell cmd (sys st))) st).
Proof. unfold session_confined. state_simpl. apply shell_session_confined. Qed.

Lemma confined_tool (scope : string) (step : option nat) (tl : string)
    (a : Args) (obs : Obs) (st : LoopState) :
  session_confined st ->
  session_confined (trace_event (EvTool (Some scope) step tl a obs) st).
Proof. exact (fun H => H). Qed.

Ltac conf_leaf :=
  intros ?st ?H; unfold session_confined in *; unfold_updates; leaf_cases;
  state_simpl; assumption.

Lemma confined_record_evidence (step : nat) (tl : string) (a : Args) (obs : Obs) :
  preserves session_confined (lift (record_evidence step tl a obs)).
Proof.
  intros st H. unfold lift.
  destruct (record_evidence step tl a obs st) as [id st'] eqn:Hr. cbn [snd].
  destruct (record_evidence_frame step tl a obs st) as (Hs & _).
  rewrite Hr in Hs. cbn [snd] in Hs. unfold session_confined in *.
  rewrite Hs. exact H.
Qed.

Ltac sstep :=
  match goal with
  | |- preserves _ (lift (record_evidence _ _ _ _)) => apply confined_record_evidence
  | _ => step ltac:(conf_leaf) confined_shell confined_tool
  end.

Lemma confined_block_call (step : nat) (call : ToolCall) (obs : Obs)
    (policy : string) (writes after : LoopState -> LoopState) :
  stable session_confined writes -> stable session_confined after ->
  preserves session_confined (block_call step call obs policy writes after).
Proof. intros Hw Ha. unfold block_call. repeat sstep; assumption. Qed.

Lemma confined_run_call (cfg : Config) (step : nat) (resp : string) (call : ToolCall)
    (d : Dims) :
  preserves session_confined (run_call cfg step resp call d).
Proof. unfold run_call. cbv zeta. repeat sstep. Qed.

Lemma confined_process_call (cfg : Config) (step : nat) (resp : string)
    (call : ToolCall) :
  preserves session_confined (process_call cfg step resp call).
Proof.
  unfold process_call. repeat sstep;
    try (apply confined_block_call; conf_leaf);
    try apply confined_run_call.
Qed.

Lemma confined_turn (cfg : Config) (step : nat) (mt : ModelTurn) :
  preserves session_confined (turn cfg step mt).
Proof.
  unfold turn, no_tool_turn, after_contract, verify_turn. cbv zeta.
  repeat sstep; try apply confined_process_call.
Qed.

Lemma confined_startup (cfg : Config) : preserves session_confined (startup cfg).
Proof. unfold startup. repeat sstep. Qed.

(** The working directory of the session stays inside /work or /input
    through a whole run: whatever commands the agent, the verifier's
    mini-agents and the supervisor hand to the tool belt, the tracked
    directory is /work, /input or below one of them wherever the run
    stands. *)
Theorem run_keeps_session_confined (cfg : Config) (turns : list ModelTurn)
    (s : Tools.Sys) :
  Tools.confined (Tools.cwd (Tools.tb s)) = true ->
  Tools.confined (Tools.cwd (Tools.tb (sys (snd (run_agent cfg turns s))))) = true.
Proof.
  intros H0. apply (stable_run_agent session_confined).
  - apply confined_turn.
  - apply confined_startup.
  - exact H0.
Qed.

End SessionConfined.

(** A run whose agent changes directory below /work. *)
Lemma run_keeps_session_confined_witness :
  let turns := [Fixture.tool_turn [Fixture.shell_call "cd data && ls"]] in
  let st := snd (@Loop.run_agent Fixture.stub Fixture.search_cfg turns Fixture.sys0) in
  Tools.confined (Tools.cwd (Tools.tb Fixture.sys0)) = true
  /\ Tools.confined (Tools.cwd (Tools.tb (Loop.sys st))) = true.
Proof.
  cbv zeta.
  assert (H0 : Tools.confined (Tools.cwd (Tools.tb Fixture.sys0)) = true)
    by (vm_compute; reflexivity).
  split; [exact H0|].
  exact (@run_keeps_session_confined Fixture.stub Fixture.search_cfg
           [Fixture.tool_turn [Fixture.shell_call "cd data && ls"]] Fixture.sys0 H0).
Defined.
(* ===================================================================== *)
(** * The classification of writes to notes.md                            *)
(* ===================================================================== *)

Section NotesClassification.
Context {E : Externals}.
Import Loop.
Import Re.

Lemma lower_app (a b : string) : Py.lower (a +:+ b) = Py.lower a +:+ Py.lower b.
Proof.
  unfold Py.lower. induction a as [|c a IH]; [rewrite !append_empty_l; reflexivity|].
  rewrite append_cons. cbn [Py.map_str]. rewrite append_cons, IH. reflexivity.
Qed.

Lemma contains_app (sub a b : string) : Py.contains sub (a +:+ sub +:+ b) = true.
Proof.
  induction a as [|c a IH].
  - rewrite append_empty_l.
    destruct (sub +:+ b) eqn:Hs; cbn [Py.contains]; rewrite <- Hs, prefix_app; reflexivity.
  - rewrite append_cons. cbn [Py.contains]. rewrite IH. apply orb_true_r.
Qed.

Lemma matches_star_chars (p : ascii -> bool) (s rest : string) (prev : option ascii) :
  forallb p (list_ascii_of_string s) = true ->
  matches (Star (Chr p)) prev (s +:+ rest) (last_of prev s) rest.
Proof.
  revert prev. induction s as [|c s IH]; intros prev Hp.
  - rewrite append_empty_l. apply matches_star_stop.
  - cbn [list_ascii_of_string forallb] in Hp. apply andb_true_iff in Hp.
    destruct Hp as (Hc & Hs). rewrite append_cons. cbn [last_of].
    eapply matches_star_more.
    + apply matches_chr. exact Hc.
    + unfold Py.len. cbn [String.length]. lia.
    + apply IH. exact Hs.
Qed.

Lemma forallb_lower (p : ascii -> bool) (s : string) :
  forallb (fun c => p (Py.lower_char c)) (list_ascii_of_string s) = true ->
  forallb p (list_ascii_of_string (Py.lower s)) = true.
Proof.
  unfold Py.lower. induction s as [|c s IH]; [reflexivity|].
  cbn [list_ascii_of_string forallb Py.map_str]. intros H.
  apply andb_true_iff in H. destruct H as (Hc & Hs).
  rewrite Hc, (IH Hs). reflexivity.
Qed.

(** A command that holds an append redirection to notes.md is classified
    as an append, whatever precedes and follows the redirection: the
    append patterns are tried first, so a command that also overwrites
    notes.md is an append for the notes guard. *)
Theorem append_redirect_is_append (pre path post : string) :
  plain_path path = true ->
  _notes_write_mode (pre +:+ ">> " +:+ path +:+ "notes.md" +:+ post) = Some Append.
Proof.
  intros Hpath. unfold _notes_write_mode.
  assert (Ht : Py.truthy (pre +:+ ">> " +:+ path +:+ "notes.md" +:+ post) = true).
  { destruct pre; [rewrite append_empty_l|rewrite append_cons]; reflexivity. }
  assert (Hc : Py.contains "notes.md"
                 (pre +:+ ">> " +:+ path +:+ "notes.md" +:+ post) = true).
  { rewrite <- (append_assoc ">> " path), <- (append_assoc pre).
    apply contains_app. }
  rewrite Ht, Hc. cbn [negb orb]. cbv zeta.
  assert (Hf : found append_redirect_re
                 (Py.lower (pre +:+ ">> " +:+ path +:+ "notes.md" +:+ post)) = true).
  { rewrite !lower_app.
    change (Py.lower ">> ") with ">> ". change (Py.lower "notes.md") with "notes.md".
    unfold found, re_search.
    assert (Hs : is_Some (search_from append_redirect_re None
                            (Py.lower pre
                             +:+ (">> " +:+ Py.lower path +:+ "notes.md"
                                  +:+ Py.lower post)))).
    { eapply search_from_complete.
      unfold append_redirect_re. cbn [seqs].
      eapply matches_seq.
      { cbn [lit]. eapply matches_seq; apply matches_chr; reflexivity. }
      eapply matches_seq.
      { unfold spaces. eapply matches_star_more;
          [apply matches_chr; reflexivity|unfold Py.len; cbn [String.length]; lia
          |apply matches_star_stop]. }
      eapply matches_seq.
      { unfold not_bs_n, none_of. apply matches_star_chars.
        apply forallb_lower. exact Hpath. }
      unfold notes_md. cbn [lit].
      repeat (eapply matches_seq; [apply matches_chr; reflexivity|]).
      apply matches_chr. reflexivity. }
    destruct Hs as [h Hs]. rewrite Hs. reflexivity. }
  rewrite Hf. reflexivity.
Qed.

End NotesClassification.

(** A command that overwrites notes.md and then appends to it. *)
Lemma append_redirect_is_append_witness :
  Loop.plain_path "/work/" = true
  /\ Loop._notes_write_mode
       ("echo start > /work/notes.md; echo more " +:+ ">> " +:+ "/work/" +:+ "notes.md"
        +:+ EmptyString)
     = Some Loop.Append.
Proof.
  assert (H : Loop.plain_path "/work/" = true) by (vm_compute; reflexivity).
  split; [exact H|].
  exact (append_redirect_is_append "echo start > /work/notes.md; echo more " "/work/"
           EmptyString H).
Defined.
